(** * OrbitOS: seeding, password hashing and the authorization model

    A shallow embedding of the OrbitOS API's data seeder
    ([OrbitOS.Infrastructure/Data/Seeding/DataSeeder.cs], [SeedIds.cs]),
    its permission catalog ([OrbitOS.Domain/Constants/SystemFunctions],
    [SystemRoles]), the password hasher
    ([OrbitOS.Infrastructure/Services/PasswordHasher.cs]) and the
    [UserRoles] table of the [AddUserRoleAndUpdateUser] migration,
    together with the authorization engine the specification describes
    on top of these tables. *)

From Stdlib Require Import ZArith NArith Lia List String Ascii Bool.
From Stdlib.Strings Require Import Byte.
From stdpp Require Import base decidable option list strings gmap sets.

Local Open Scope Z_scope.

(** ** Primitive data *)

(** A [System.Guid] is a 128-bit value; the seed identifiers are written
    as the hexadecimal number their textual form spells. *)
Abbreviation Guid := Z (only parsing).

(** A [System.DateTime] is a number of ticks. *)
Abbreviation DateTime := Z (only parsing).

(** ** Base64 ([System.Convert]) *)

Module Base64.

Definition alphabet : list ascii :=
  list_ascii_of_string
    "ABCDEFGHIJKLMNOPQRSTUVWXYZabcdefghijklmnopqrstuvwxyz0123456789+/".

Definition pad : ascii := "="%char.

Definition char_of_sextet (s : N) : ascii :=
  nth (N.to_nat s) alphabet pad.

Fixpoint index_of (c : ascii) (l : list ascii) (i : N) : option N :=
  match l with
  | [] => None
  | x :: l' => if Ascii.eqb c x then Some i else index_of c l' (N.succ i)
  end.

Definition sextet_of_char (c : ascii) : option N := index_of c alphabet 0%N.

Definition is_pad (c : ascii) : bool := Ascii.eqb c pad.

(** White space is skipped by [Convert.FromBase64String]: space, tab,
    line feed and carriage return. *)
Definition is_white (c : ascii) : bool :=
  Ascii.eqb c " "%char || Ascii.eqb c "009"%char
  || Ascii.eqb c "010"%char || Ascii.eqb c "013"%char.

(** The 24-bit group of three bytes. *)
Definition group (b1 b2 b3 : byte) : N :=
  (Byte.to_N b1 * 65536 + Byte.to_N b2 * 256 + Byte.to_N b3)%N.

Definition quad (b1 b2 b3 : byte) : list ascii :=
  let n := group b1 b2 b3 in
  [ char_of_sextet (n / 262144)%N;
    char_of_sextet ((n / 4096) mod 64)%N;
    char_of_sextet ((n / 64) mod 64)%N;
    char_of_sextet (n mod 64)%N ].

Fixpoint encode (bs : list byte) : list ascii :=
  match bs with
  | [] => []
  | [b1] =>
      match quad b1 "000"%byte "000"%byte with
      | c1 :: c2 :: _ => [c1; c2; pad; pad]
      | _ => []
      end
  | [b1; b2] =>
      match quad b1 b2 "000"%byte with
      | c1 :: c2 :: c3 :: _ => [c1; c2; c3; pad]
      | _ => []
      end
  | b1 :: b2 :: b3 :: rest => quad b1 b2 b3 ++ encode rest
  end.

(** The 24-bit group of four sextets. *)
Definition ungroup (s1 s2 s3 s4 : N) : N :=
  (s1 * 262144 + s2 * 4096 + s3 * 64 + s4)%N.

Definition bytes_of_group (n : N) (count : nat) : option (list byte) :=
  b1 ← Byte.of_N (n / 65536)%N;
  b2 ← Byte.of_N ((n / 256) mod 256)%N;
  b3 ← Byte.of_N (n mod 256)%N;
  Some (take count [b1; b2; b3]).

Fixpoint decode (cs : list ascii) : option (list byte) :=
  match cs with
  | [] => Some []
  | c1 :: c2 :: c3 :: c4 :: rest =>
      if is_pad c4 then
        match rest with
        | [] =>
            s1 ← sextet_of_char c1;
            s2 ← sextet_of_char c2;
            if is_pad c3 then bytes_of_group (ungroup s1 s2 0 0) 1
            else s3 ← sextet_of_char c3;
                 bytes_of_group (ungroup s1 s2 s3 0) 2
        | _ :: _ => None
        end
      else
        s1 ← sextet_of_char c1;
        s2 ← sextet_of_char c2;
        s3 ← sextet_of_char c3;
        s4 ← sextet_of_char c4;
        bs ← bytes_of_group (ungroup s1 s2 s3 s4) 3;
        tl ← decode rest;
        Some (bs ++ tl)
  | _ => None
  end.

End Base64.

(** [Convert.ToBase64String]. *)
Definition ToBase64String (bs : list byte) : string :=
  string_of_list_ascii (Base64.encode bs).

(** Exceptions the modelled code can raise. *)
Inductive Exception : Type :=
| FormatException            (* Convert.FromBase64String on a malformed text *)
| ArgumentException           (* Array.Copy past the end of an array *)
| ArgumentOutOfRangeException (* a range outside an array *)
| DbUpdateException.         (* SaveChanges rejected by a key or an index *)

(** [Convert.FromBase64String]: [FormatException] on a malformed text. *)
Definition FromBase64String (s : string) : Exception + list byte :=
  match Base64.decode
          (filter (λ c, Base64.is_white c = false) (list_ascii_of_string s)) with
  | Some bs => inr bs
  | None => inl FormatException
  end.

(** ** Entities ([OrbitOS.Domain.Entities])

    Every entity derives from [BaseEntity]: its [Id], [CreatedAt],
    [UpdatedAt] and [DeletedAt] fields are repeated in each record. *)

(** Modelled from the spec: the [BaseEntity] class is not among the
    sources; its key and audit fields are taken from the initialisers of
    the seeder, and the soft-delete timestamp [DeletedAt] from the
    specification ("soft-delete: marks deleted timestamp"). The class
    below gives the generic access to them. *)
Class BaseEntity (A : Type) : Type := {
  entityId : A → Guid;
  entityDeletedAt : A → option DateTime
}.

Module Organization.
Record t : Type := {
  Id : Guid;
  Name : string;
  Slug : string;
  Description : option string;
  LogoUrl : option string;
  AzureAdTenantId : option string;
  CreatedAt : DateTime;
  UpdatedAt : DateTime;
  DeletedAt : option DateTime
}.
End Organization.

(** The [User] class is not among the sources: these are the fields the
    seeder initialises. *)
Module User.
Record t : Type := {
  Id : Guid;
  Email : string;
  DisplayName : string;
  FirstName : option string;
  LastName : option string;
  PasswordHash : option string;
  CreatedAt : DateTime;
  UpdatedAt : DateTime;
  DeletedAt : option DateTime
}.
End User.

Inductive MembershipRole : Type := Member | Admin | Owner.

Module OrganizationMembership.
Record t : Type := {
  Id : Guid;
  UserId : Guid;
  OrganizationId : Guid;
  Role : MembershipRole;
  CreatedAt : DateTime;
  UpdatedAt : DateTime;
  DeletedAt : option DateTime
}.
End OrganizationMembership.

Module Function.
Record t : Type := {
  Id : Guid;
  Name : string;
  Description : option string;
  Purpose : option string;
  Category : option string;
  OrganizationId : Guid;
  CreatedAt : DateTime;
  UpdatedAt : DateTime;
  DeletedAt : option DateTime
}.
End Function.

(** The [Role] class is not among the sources: these are the fields the
    seeder initialises. *)
Module Role.
Record t : Type := {
  Id : Guid;
  Name : string;
  Description : option string;
  Purpose : option string;
  Department : option string;
  OrganizationId : Guid;
  CreatedAt : DateTime;
  UpdatedAt : DateTime;
  DeletedAt : option DateTime
}.
End Role.

Module RoleFunction.
Record t : Type := {
  Id : Guid;
  RoleId : Guid;
  FunctionId : Guid;
  CreatedAt : DateTime;
  UpdatedAt : DateTime;
  DeletedAt : option DateTime
}.
End RoleFunction.

(** The columns of the [UserRoles] table of the migration. *)
Module UserRole.
Record t : Type := {
  Id : Guid;
  UserId : Guid;
  RoleId : Guid;
  OrganizationId : Guid;
  CreatedAt : DateTime;
  UpdatedAt : DateTime;
  DeletedAt : option DateTime
}.
End UserRole.

#[global] Instance Organization_entity : BaseEntity Organization.t :=
  {| entityId := Organization.Id; entityDeletedAt := Organization.DeletedAt |}.
#[global] Instance User_entity : BaseEntity User.t :=
  {| entityId := User.Id; entityDeletedAt := User.DeletedAt |}.
#[global] Instance OrganizationMembership_entity :
  BaseEntity OrganizationMembership.t :=
  {| entityId := OrganizationMembership.Id;
     entityDeletedAt := OrganizationMembership.DeletedAt |}.
#[global] Instance Function_entity : BaseEntity Function.t :=
  {| entityId := Function.Id; entityDeletedAt := Function.DeletedAt |}.
#[global] Instance Role_entity : BaseEntity Role.t :=
  {| entityId := Role.Id; entityDeletedAt := Role.DeletedAt |}.
#[global] Instance RoleFunction_entity : BaseEntity RoleFunction.t :=
  {| entityId := RoleFunction.Id; entityDeletedAt := RoleFunction.DeletedAt |}.
#[global] Instance UserRole_entity : BaseEntity UserRole.t :=
  {| entityId := UserRole.Id; entityDeletedAt := UserRole.DeletedAt |}.

(** ** The database context

    [OrbitOSDbContext] is not among the sources; it is used through its
    seven [DbSet]s. A table is the list of its rows in insertion order. *)
Record OrbitOSDbContext : Type := {
  Organizations : list Organization.t;
  Users : list User.t;
  OrganizationMemberships : list OrganizationMembership.t;
  Functions : list Function.t;
  Roles : list Role.t;
  RoleFunctions : list RoleFunction.t;
  UserRoles : list UserRole.t
}.

Definition emptyDb : OrbitOSDbContext :=
  {| Organizations := []; Users := []; OrganizationMemberships := [];
     Functions := []; Roles := []; RoleFunctions := []; UserRoles := [] |}.

(** ** The world a call runs in

    Besides the database, a call reads three sources it does not
    control: the clock ([DateTime.UtcNow]), [Guid.NewGuid] and
    [RandomNumberGenerator]. Each is the sequence of the values still to
    be handed out. *)
Record World : Type := {
  db : OrbitOSDbContext;
  clock : nat → DateTime;
  guids : nat → Guid;
  entropy : nat → byte
}.

(** A computation that reads and writes the world and either raises an
    [E] or returns an [A]. A raise keeps the world reached so far. *)
Definition Task (E A : Type) : Type := World → World * (E + A).

#[global] Instance Task_ret {E} : MRet (Task E) :=
  λ A (a : A) w, (w, inr a).

#[global] Instance Task_bind {E} : MBind (Task E) :=
  λ A B (k : A → Task E B) (m : Task E A) w,
    match m w with
    | (w', inr a) => k a w'
    | (w', inl e) => (w', inl e)
    end.

Definition throw {E A} (e : E) : Task E A := λ w, (w, inl e).

Definition getDb {E} : Task E OrbitOSDbContext := λ w, (w, inr (db w)).

Definition setDb {E} (d : OrbitOSDbContext) : Task E unit :=
  λ w, ({| db := d; clock := clock w; guids := guids w;
           entropy := entropy w |}, inr tt).

(** [DateTime.UtcNow]. *)
Definition UtcNow {E} : Task E DateTime :=
  λ w, ({| db := db w; clock := λ n, clock w (S n); guids := guids w;
           entropy := entropy w |}, inr (clock w 0%nat)).

(** [Guid.NewGuid()]. *)
Definition NewGuid {E} : Task E Guid :=
  λ w, ({| db := db w; clock := clock w; guids := λ n, guids w (S n);
           entropy := entropy w |}, inr (guids w 0%nat)).

(** [RandomNumberGenerator.GetBytes(count)]. *)
Definition RandomNumberGenerator_GetBytes {E} (count : nat)
  : Task E (list byte) :=
  λ w, ({| db := db w; clock := clock w; guids := guids w;
           entropy := λ n, entropy w (count + n)%nat |},
        inr (map (entropy w) (seq 0 count))).

(** Lifting a pure result that may be an exception. *)
Definition liftResult {E A} (r : E + A) : Task E A := λ w, (w, r).

#[global] Instance sum_ret {E} : MRet (sum E) := λ A (a : A), inr a.

#[global] Instance sum_bind {E} : MBind (sum E) :=
  λ A B (k : A → E + B) (m : E + A),
    match m with
    | inr a => k a
    | inl e => inl e
    end.

(** ** Arrays of bytes *)

(** [Array.Copy(source, sourceIndex, destination, destinationIndex,
    length)]: the destination after the copy. *)
Definition Array_Copy (source : list byte) (sourceIndex : nat)
    (destination : list byte) (destinationIndex len : nat)
  : Exception + list byte :=
  if (sourceIndex + len <=? length source)%nat
     && (destinationIndex + len <=? length destination)%nat
  then inr (take destinationIndex destination
              ++ take len (drop sourceIndex source)
              ++ drop (destinationIndex + len) destination)
  else inl ArgumentException.

(** The range [array[start..stop]]. *)
Definition GetSubArray (array : list byte) (start stop : nat)
  : Exception + list byte :=
  if (start <=? stop)%nat && (stop <=? length array)%nat
  then inr (take (stop - start) (drop start array))
  else inl ArgumentOutOfRangeException.

(** [CryptographicOperations.FixedTimeEquals]: arrays of different
    lengths are unequal; otherwise the byte differences are or-ed into
    an accumulator that is compared with zero at the end. *)
Fixpoint accumulate (accum : Z) (left right : list byte) : Z :=
  match left, right with
  | l :: left', r :: right' =>
      accumulate
        (Z.lor accum (Z.of_N (Byte.to_N l) - Z.of_N (Byte.to_N r)))
        left' right'
  | _, _ => accum
  end.

Definition FixedTimeEquals (left right : list byte) : bool :=
  if negb (length left =? length right)%nat then false
  else accumulate 0 left right =? 0.

Inductive HashAlgorithmName : Type := SHA1 | SHA256 | SHA384 | SHA512.

(** ** Tables, keys and saving *)

Definition keys {A} `{BaseEntity A} (rows : list A) : list Guid :=
  map entityId rows.

(** The primary key of every table is [Id]: the new rows have pairwise
    different keys, none of them in the table yet. *)
Definition primaryKeyOk {A} `{BaseEntity A} (table rows : list A) : bool :=
  bool_decide (NoDup (keys rows))
  && forallb (λ r, negb (existsb (Z.eqb (entityId r)) (keys table))) rows.

(** A [DbSet]: where its rows live in the context, and what the schema
    asks of new rows besides the primary key. *)
Record DbSet (A : Type) : Type := {
  rowsOf : OrbitOSDbContext → list A;
  withRows : list A → OrbitOSDbContext → OrbitOSDbContext;
  constraintsOk : OrbitOSDbContext → list A → bool
}.
Arguments rowsOf {A} _ _.
Arguments withRows {A} _ _ _.
Arguments constraintsOk {A} _ _ _.

Definition unconstrained {A} : OrbitOSDbContext → list A → bool :=
  λ _ _, true.

Definition OrganizationsSet : DbSet Organization.t :=
  {| rowsOf := Organizations;
     withRows := λ rows d,
       {| Organizations := rows; Users := Users d;
          OrganizationMemberships := OrganizationMemberships d;
          Functions := Functions d; Roles := Roles d;
          RoleFunctions := RoleFunctions d; UserRoles := UserRoles d |};
     constraintsOk := unconstrained |}.

Definition UsersSet : DbSet User.t :=
  {| rowsOf := Users;
     withRows := λ rows d,
       {| Organizations := Organizations d; Users := rows;
          OrganizationMemberships := OrganizationMemberships d;
          Functions := Functions d; Roles := Roles d;
          RoleFunctions := RoleFunctions d; UserRoles := UserRoles d |};
     constraintsOk := unconstrained |}.

Definition OrganizationMembershipsSet : DbSet OrganizationMembership.t :=
  {| rowsOf := OrganizationMemberships;
     withRows := λ rows d,
       {| Organizations := Organizations d; Users := Users d;
          OrganizationMemberships := rows;
          Functions := Functions d; Roles := Roles d;
          RoleFunctions := RoleFunctions d; UserRoles := UserRoles d |};
     constraintsOk := unconstrained |}.

Definition FunctionsSet : DbSet Function.t :=
  {| rowsOf := Functions;
     withRows := λ rows d,
       {| Organizations := Organizations d; Users := Users d;
          OrganizationMemberships := OrganizationMemberships d;
          Functions := rows; Roles := Roles d;
          RoleFunctions := RoleFunctions d; UserRoles := UserRoles d |};
     constraintsOk := unconstrained |}.

Definition RolesSet : DbSet Role.t :=
  {| rowsOf := Roles;
     withRows := λ rows d,
       {| Organizations := Organizations d; Users := Users d;
          OrganizationMemberships := OrganizationMemberships d;
          Functions := Functions d; Roles := rows;
          RoleFunctions := RoleFunctions d; UserRoles := UserRoles d |};
     constraintsOk := unconstrained |}.

Definition RoleFunctionsSet : DbSet RoleFunction.t :=
  {| rowsOf := RoleFunctions;
     withRows := λ rows d,
       {| Organizations := Organizations d; Users := Users d;
          OrganizationMemberships := OrganizationMemberships d;
          Functions := Functions d; Roles := Roles d;
          RoleFunctions := rows; UserRoles := UserRoles d |};
     constraintsOk := unconstrained |}.

(** The (user, role, organization) triple of an assignment row. *)
Definition triple (ur : UserRole.t) : Guid * Guid * Guid :=
  (UserRole.UserId ur, UserRole.RoleId ur, UserRole.OrganizationId ur).

Definition hasKey {A} `{BaseEntity A} (table : list A) (id : Guid) : bool :=
  existsb (Z.eqb id) (keys table).

(** The constraints of the [UserRoles] table, from the migration
    [AddUserRoleAndUpdateUser]: the three foreign keys
    [FK_UserRoles_Organizations_OrganizationId],
    [FK_UserRoles_Roles_RoleId], [FK_UserRoles_Users_UserId], and the
    unique index [IX_UserRoles_UserId_RoleId_OrganizationId]. *)
Definition UserRolesConstraints (d : OrbitOSDbContext)
    (rows : list UserRole.t) : bool :=
  forallb (λ ur,
      hasKey (Organizations d) (UserRole.OrganizationId ur)
      && hasKey (Roles d) (UserRole.RoleId ur)
      && hasKey (Users d) (UserRole.UserId ur)) rows
  && bool_decide (NoDup (map triple rows))
  && forallb (λ ur,
      negb (bool_decide (triple ur ∈ map triple (UserRoles d)))) rows.

Definition UserRolesSet : DbSet UserRole.t :=
  {| rowsOf := UserRoles;
     withRows := λ rows d,
       {| Organizations := Organizations d; Users := Users d;
          OrganizationMemberships := OrganizationMemberships d;
          Functions := Functions d; Roles := Roles d;
          RoleFunctions := RoleFunctions d; UserRoles := rows |};
     constraintsOk := UserRolesConstraints |}.

(** [set.AnyAsync(predicate)]. *)
Definition AnyAsync {E A} (set : DbSet A) (predicate : A → bool)
  : Task E bool :=
  d ← getDb; mret (existsb predicate (rowsOf set d)).

(** [set.AddRange(rows)] followed by [SaveChangesAsync()]: the rows are
    appended when the keys and the constraints of the table allow it;
    otherwise the save raises and the database is as before. *)
Definition AddRange_SaveChangesAsync {A} `{BaseEntity A} (set : DbSet A)
    (rows : list A) : Task Exception unit :=
  d ← getDb;
  if primaryKeyOk (rowsOf set d) rows && constraintsOk set d rows
  then setDb (withRows set (rowsOf set d ++ rows) d)
  else throw DbUpdateException.

(** ** [SeedIds] *)

Module SeedIds.
Module Organizations.
Definition Rugertek : Guid := 0x11111111111111111111111111111111.
End Organizations.
Module Users.
Definition Rodrigo : Guid := 0x22222222222222222222222222222222.
End Users.
Module Roles.
Definition SuperAdmin : Guid := 0x33333333333333333333333333333301.
Definition UserAdmin : Guid := 0x33333333333333333333333333333302.
Definition OrgAdmin : Guid := 0x33333333333333333333333333333303.
Definition Viewer : Guid := 0x33333333333333333333333333333304.
End Roles.
Module Functions.
Definition UsersView : Guid := 0x44444444444444444444444444444401.
Definition UsersCreate : Guid := 0x44444444444444444444444444444402.
Definition UsersUpdate : Guid := 0x44444444444444444444444444444403.
Definition UsersDelete : Guid := 0x44444444444444444444444444444404.
Definition UsersRolesManage : Guid := 0x44444444444444444444444444444405.
Definition UsersRolesView : Guid := 0x44444444444444444444444444444406.
Definition UsersInvite : Guid := 0x44444444444444444444444444444407.
Definition UsersDeactivate : Guid := 0x44444444444444444444444444444408.
Definition UsersReactivate : Guid := 0x44444444444444444444444444444409.
Definition UsersActivityView : Guid := 0x44444444444444444444444444444410.
Definition OrgView : Guid := 0x44444444444444444444444444444501.
Definition OrgUpdate : Guid := 0x44444444444444444444444444444502.
Definition OrgSettingsManage : Guid := 0x44444444444444444444444444444503.
Definition OrgSettingsView : Guid := 0x44444444444444444444444444444504.
Definition OrgBillingManage : Guid := 0x44444444444444444444444444444505.
Definition OrgBillingView : Guid := 0x44444444444444444444444444444506.
Definition OrgIntegrationsManage : Guid := 0x44444444444444444444444444444507.
Definition OrgIntegrationsView : Guid := 0x44444444444444444444444444444508.
Definition OrgApiKeysManage : Guid := 0x44444444444444444444444444444509.
Definition OrgApiKeysView : Guid := 0x44444444444444444444444444444510.
Definition OrgWebhooksManage : Guid := 0x44444444444444444444444444444511.
Definition OrgWebhooksView : Guid := 0x44444444444444444444444444444512.
Definition OrgAuditLogView : Guid := 0x44444444444444444444444444444513.
Definition OrgDataExport : Guid := 0x44444444444444444444444444444514.
Definition RolesView : Guid := 0x44444444444444444444444444444601.
Definition RolesCreate : Guid := 0x44444444444444444444444444444602.
Definition RolesUpdate : Guid := 0x44444444444444444444444444444603.
Definition RolesDelete : Guid := 0x44444444444444444444444444444604.
Definition RolesFunctionsAssign : Guid := 0x44444444444444444444444444444605.
Definition FunctionsView : Guid := 0x44444444444444444444444444444701.
Definition FunctionsCreate : Guid := 0x44444444444444444444444444444702.
Definition FunctionsUpdate : Guid := 0x44444444444444444444444444444703.
Definition FunctionsDelete : Guid := 0x44444444444444444444444444444704.
End Functions.
Module Memberships.
Definition RodrigoRugertek : Guid := 0x55555555555555555555555555555501.
End Memberships.
Module UserRoles.
Definition RodrigoSuperAdmin : Guid := 0x66666666666666666666666666666601.
End UserRoles.
End SeedIds.

(** ** [SystemFunctions] and [SystemRoles] *)

Module SystemFunctions.
Module UserManagement.
Definition Category : string := "User Management".
Definition ViewUsers : string := "users.view".
Definition CreateUsers : string := "users.create".
Definition UpdateUsers : string := "users.update".
Definition DeleteUsers : string := "users.delete".
Definition ManageUserRoles : string := "users.roles.manage".
Definition ViewUserRoles : string := "users.roles.view".
Definition InviteUsers : string := "users.invite".
Definition DeactivateUsers : string := "users.deactivate".
Definition ReactivateUsers : string := "users.reactivate".
Definition ViewUserActivity : string := "users.activity.view".
End UserManagement.
Module OrganizationManagement.
Definition Category : string := "Organization Management".
Definition ViewOrganization : string := "organization.view".
Definition UpdateOrganization : string := "organization.update".
Definition ManageSettings : string := "organization.settings.manage".
Definition ViewSettings : string := "organization.settings.view".
Definition ManageBilling : string := "organization.billing.manage".
Definition ViewBilling : string := "organization.billing.view".
Definition ManageIntegrations : string := "organization.integrations.manage".
Definition ViewIntegrations : string := "organization.integrations.view".
Definition ManageApiKeys : string := "organization.apikeys.manage".
Definition ViewApiKeys : string := "organization.apikeys.view".
Definition ManageWebhooks : string := "organization.webhooks.manage".
Definition ViewWebhooks : string := "organization.webhooks.view".
Definition ViewAuditLog : string := "organization.auditlog.view".
Definition ExportData : string := "organization.data.export".
End OrganizationManagement.
Module RoleManagement.
Definition Category : string := "Role Management".
Definition ViewRoles : string := "roles.view".
Definition CreateRoles : string := "roles.create".
Definition UpdateRoles : string := "roles.update".
Definition DeleteRoles : string := "roles.delete".
Definition AssignFunctions : string := "roles.functions.assign".
End RoleManagement.
Module FunctionManagement.
Definition Category : string := "Function Management".
Definition ViewFunctions : string := "functions.view".
Definition CreateFunctions : string := "functions.create".
Definition UpdateFunctions : string := "functions.update".
Definition DeleteFunctions : string := "functions.delete".
End FunctionManagement.
End SystemFunctions.

Module SystemRoles.
Definition SuperAdmin : string := "Super Administrator".
Definition UserAdmin : string := "User Administrator".
Definition OrgAdmin : string := "Organization Administrator".
Definition Viewer : string := "Viewer".
End SystemRoles.

Section OrbitOS.

(** PBKDF2 is a collaborator of the password hasher, not part of it:
    [Pbkdf2 password salt iterations algorithm i] is byte [i] of the key
    stream of [new Rfc2898DeriveBytes(password, salt, iterations,
    algorithm)]. *)
Variable Pbkdf2 : string → list byte → N → HashAlgorithmName → nat → byte.

(** [pbkdf2.GetBytes(cb)] on a fresh [Rfc2898DeriveBytes]. *)
Definition Rfc2898DeriveBytes_GetBytes (password : string) (salt : list byte)
    (iterations : N) (algorithm : HashAlgorithmName) (cb : nat) : list byte :=
  map (Pbkdf2 password salt iterations algorithm) (seq 0 cb).

(** ** [PasswordHasher] *)

Definition SaltSize : nat := 16.
Definition HashSize : nat := 32.
Definition Iterations : N := 100000.

Definition HashPassword (password : string) : Task Exception string :=
  salt ← RandomNumberGenerator_GetBytes SaltSize;
  let hash :=
    Rfc2898DeriveBytes_GetBytes password salt Iterations SHA256 HashSize in
  let hashBytes := replicate (SaltSize + HashSize) "000"%byte in
  hashBytes ← liftResult (Array_Copy salt 0 hashBytes 0 SaltSize);
  hashBytes ← liftResult (Array_Copy hash 0 hashBytes SaltSize HashSize);
  mret (ToBase64String hashBytes).

Definition VerifyPassword (password passwordHash : string)
  : Exception + bool :=
  hashBytes ← FromBase64String passwordHash;
  salt ← GetSubArray hashBytes 0 SaltSize;
  storedHash ← GetSubArray hashBytes SaltSize (length hashBytes);
  let computedHash :=
    Rfc2898DeriveBytes_GetBytes password salt Iterations SHA256 HashSize in
  mret (FixedTimeEquals computedHash storedHash).


(** ** [DataSeeder]

    Logging is left out: it does not touch the database. The
    cancellation token is the default one, which never cancels. *)

(** The rows the seeder builds are named after its local variables;
    the values read from the clock, the random generator and
    [Guid.NewGuid] are their parameters. *)
Definition organization (createdAt updatedAt : DateTime) : Organization.t :=
  {| Organization.Id := SeedIds.Organizations.Rugertek;
     Organization.Name := "Rugertek";
     Organization.Slug := "rugertek";
     Organization.Description :=
       Some "Rugertek - AI-Native Business Solutions";
     Organization.LogoUrl := None;
     Organization.AzureAdTenantId := None;
     Organization.CreatedAt := createdAt;
     Organization.UpdatedAt := updatedAt;
     Organization.DeletedAt := None |}.

Definition SeedOrganizationsAsync : Task Exception unit :=
  seeded ← AnyAsync OrganizationsSet
    (λ o, Organization.Id o =? SeedIds.Organizations.Rugertek);
  if seeded : bool then mret tt
  else
    createdAt ← UtcNow;
    updatedAt ← UtcNow;
    AddRange_SaveChangesAsync OrganizationsSet
      [organization createdAt updatedAt].

Definition user (passwordHash : string) (createdAt updatedAt : DateTime)
  : User.t :=
  {| User.Id := SeedIds.Users.Rodrigo;
     User.Email := "rodrigo@rugertek.com";
     User.DisplayName := "Rodrigo Campos Cervera";
     User.FirstName := Some "Rodrigo";
     User.LastName := Some "Campos Cervera";
     User.PasswordHash := Some passwordHash;
     User.CreatedAt := createdAt;
     User.UpdatedAt := updatedAt;
     User.DeletedAt := None |}.

Definition SeedUsersAsync : Task Exception unit :=
  seeded ← AnyAsync UsersSet (λ u, User.Id u =? SeedIds.Users.Rodrigo);
  if seeded : bool then mret tt
  else
    passwordHash ← HashPassword "123456";
    createdAt ← UtcNow;
    updatedAt ← UtcNow;
    AddRange_SaveChangesAsync UsersSet [user passwordHash createdAt updatedAt].

Definition membership (createdAt updatedAt : DateTime)
  : OrganizationMembership.t :=
  {| OrganizationMembership.Id := SeedIds.Memberships.RodrigoRugertek;
     OrganizationMembership.UserId := SeedIds.Users.Rodrigo;
     OrganizationMembership.OrganizationId := SeedIds.Organizations.Rugertek;
     OrganizationMembership.Role := Owner;
     OrganizationMembership.CreatedAt := createdAt;
     OrganizationMembership.UpdatedAt := updatedAt;
     OrganizationMembership.DeletedAt := None |}.

Definition SeedOrganizationMembershipsAsync : Task Exception unit :=
  seeded ← AnyAsync OrganizationMembershipsSet
    (λ m, OrganizationMembership.Id m =? SeedIds.Memberships.RodrigoRugertek);
  if seeded : bool then mret tt
  else
    createdAt ← UtcNow;
    updatedAt ← UtcNow;
    AddRange_SaveChangesAsync OrganizationMembershipsSet
      [membership createdAt updatedAt].

(** One element of the list [GetSystemFunctions] builds. *)
Definition systemFunction (id : Guid) (name description purpose category : string)
    (orgId : Guid) (now : DateTime) : Function.t :=
  {| Function.Id := id; Function.Name := name;
     Function.Description := Some description;
     Function.Purpose := Some purpose;
     Function.Category := Some category;
     Function.OrganizationId := orgId;
     Function.CreatedAt := now; Function.UpdatedAt := now;
     Function.DeletedAt := None |}.

(** The list [GetSystemFunctions] returns, [now] being the clock value
    it reads first. *)
Definition systemFunctions (now : DateTime) : list Function.t :=
  let orgId := SeedIds.Organizations.Rugertek in
  let userManagement := SystemFunctions.UserManagement.Category in
  let organizationManagement := SystemFunctions.OrganizationManagement.Category in
  let roleManagement := SystemFunctions.RoleManagement.Category in
  let functionManagement := SystemFunctions.FunctionManagement.Category in
  [ (* User Management Functions *)
    systemFunction SeedIds.Functions.UsersView SystemFunctions.UserManagement.ViewUsers "View user profiles and information" "Read access to user data" userManagement orgId now;
    systemFunction SeedIds.Functions.UsersCreate SystemFunctions.UserManagement.CreateUsers "Create new user accounts" "Add new users to the organization" userManagement orgId now;
    systemFunction SeedIds.Functions.UsersUpdate SystemFunctions.UserManagement.UpdateUsers "Update user profile information" "Modify existing user data" userManagement orgId now;
    systemFunction SeedIds.Functions.UsersDelete SystemFunctions.UserManagement.DeleteUsers "Delete user accounts" "Remove users from the organization" userManagement orgId now;
    systemFunction SeedIds.Functions.UsersRolesManage SystemFunctions.UserManagement.ManageUserRoles "Assign and remove roles from users" "Control user permissions" userManagement orgId now;
    systemFunction SeedIds.Functions.UsersRolesView SystemFunctions.UserManagement.ViewUserRoles "View role assignments for users" "See what roles users have" userManagement orgId now;
    systemFunction SeedIds.Functions.UsersInvite SystemFunctions.UserManagement.InviteUsers "Send invitations to new users" "Onboard new team members" userManagement orgId now;
    systemFunction SeedIds.Functions.UsersDeactivate SystemFunctions.UserManagement.DeactivateUsers "Deactivate user accounts" "Temporarily disable user access" userManagement orgId now;
    systemFunction SeedIds.Functions.UsersReactivate SystemFunctions.UserManagement.ReactivateUsers "Reactivate deactivated user accounts" "Restore user access" userManagement orgId now;
    systemFunction SeedIds.Functions.UsersActivityView SystemFunctions.UserManagement.ViewUserActivity "View user activity logs" "Monitor user actions" userManagement orgId now;
    (* Organization Management Functions *)
    systemFunction SeedIds.Functions.OrgView SystemFunctions.OrganizationManagement.ViewOrganization "View organization information" "Read access to organization data" organizationManagement orgId now;
    systemFunction SeedIds.Functions.OrgUpdate SystemFunctions.OrganizationManagement.UpdateOrganization "Update organization information" "Modify organization profile" organizationManagement orgId now;
    systemFunction SeedIds.Functions.OrgSettingsManage SystemFunctions.OrganizationManagement.ManageSettings "Manage organization settings" "Configure organization preferences" organizationManagement orgId now;
    systemFunction SeedIds.Functions.OrgSettingsView SystemFunctions.OrganizationManagement.ViewSettings "View organization settings" "Read organization configuration" organizationManagement orgId now;
    systemFunction SeedIds.Functions.OrgBillingManage SystemFunctions.OrganizationManagement.ManageBilling "Manage billing and subscriptions" "Handle payments and plans" organizationManagement orgId now;
    systemFunction SeedIds.Functions.OrgBillingView SystemFunctions.OrganizationManagement.ViewBilling "View billing information" "See payment history and invoices" organizationManagement orgId now;
    systemFunction SeedIds.Functions.OrgIntegrationsManage SystemFunctions.OrganizationManagement.ManageIntegrations "Manage third-party integrations" "Configure external services" organizationManagement orgId now;
    systemFunction SeedIds.Functions.OrgIntegrationsView SystemFunctions.OrganizationManagement.ViewIntegrations "View integration configurations" "See connected services" organizationManagement orgId now;
    systemFunction SeedIds.Functions.OrgApiKeysManage SystemFunctions.OrganizationManagement.ManageApiKeys "Create and revoke API keys" "Manage programmatic access" organizationManagement orgId now;
    systemFunction SeedIds.Functions.OrgApiKeysView SystemFunctions.OrganizationManagement.ViewApiKeys "View API keys" "See existing API keys" organizationManagement orgId now;
    systemFunction SeedIds.Functions.OrgWebhooksManage SystemFunctions.OrganizationManagement.ManageWebhooks "Configure webhook endpoints" "Set up event notifications" organizationManagement orgId now;
    systemFunction SeedIds.Functions.OrgWebhooksView SystemFunctions.OrganizationManagement.ViewWebhooks "View webhook configurations" "See webhook settings" organizationManagement orgId now;
    systemFunction SeedIds.Functions.OrgAuditLogView SystemFunctions.OrganizationManagement.ViewAuditLog "View organization audit log" "Review security and compliance events" organizationManagement orgId now;
    systemFunction SeedIds.Functions.OrgDataExport SystemFunctions.OrganizationManagement.ExportData "Export organization data" "Download data for backup or migration" organizationManagement orgId now;
    (* Role Management Functions *)
    systemFunction SeedIds.Functions.RolesView SystemFunctions.RoleManagement.ViewRoles "View roles" "See available roles" roleManagement orgId now;
    systemFunction SeedIds.Functions.RolesCreate SystemFunctions.RoleManagement.CreateRoles "Create new roles" "Define custom permission sets" roleManagement orgId now;
    systemFunction SeedIds.Functions.RolesUpdate SystemFunctions.RoleManagement.UpdateRoles "Update existing roles" "Modify role definitions" roleManagement orgId now;
    systemFunction SeedIds.Functions.RolesDelete SystemFunctions.RoleManagement.DeleteRoles "Delete roles" "Remove unused roles" roleManagement orgId now;
    systemFunction SeedIds.Functions.RolesFunctionsAssign SystemFunctions.RoleManagement.AssignFunctions "Assign functions to roles" "Configure role permissions" roleManagement orgId now;
    (* Function Management Functions *)
    systemFunction SeedIds.Functions.FunctionsView SystemFunctions.FunctionManagement.ViewFunctions "View functions" "See available permissions" functionManagement orgId now;
    systemFunction SeedIds.Functions.FunctionsCreate SystemFunctions.FunctionManagement.CreateFunctions "Create custom functions" "Define new permissions" functionManagement orgId now;
    systemFunction SeedIds.Functions.FunctionsUpdate SystemFunctions.FunctionManagement.UpdateFunctions "Update functions" "Modify permission definitions" functionManagement orgId now;
    systemFunction SeedIds.Functions.FunctionsDelete SystemFunctions.FunctionManagement.DeleteFunctions "Delete functions" "Remove unused permissions" functionManagement orgId now
  ].

Definition GetSystemFunctions : Task Exception (list Function.t) :=
  now ← UtcNow;
  mret (systemFunctions now).

Definition SeedFunctionsAsync : Task Exception unit :=
  seeded ← AnyAsync FunctionsSet
    (λ f, Function.Id f =? SeedIds.Functions.UsersView);
  if seeded : bool then mret tt
  else
    functions ← GetSystemFunctions;
    AddRange_SaveChangesAsync FunctionsSet functions.

(** One element of the list [SeedRolesAsync] builds. *)
Definition systemRole (id : Guid) (name description purpose department : string)
    (orgId : Guid) (now : DateTime) : Role.t :=
  {| Role.Id := id; Role.Name := name;
     Role.Description := Some description;
     Role.Purpose := Some purpose;
     Role.Department := Some department;
     Role.OrganizationId := orgId;
     Role.CreatedAt := now; Role.UpdatedAt := now;
     Role.DeletedAt := None |}.

Definition roles (now : DateTime) : list Role.t :=
    let orgId := SeedIds.Organizations.Rugertek in
      [ systemRole SeedIds.Roles.SuperAdmin SystemRoles.SuperAdmin
          "Full access to all system features including user and organization management"
          "Ultimate administrative control" "Administration" orgId now;
        systemRole SeedIds.Roles.UserAdmin SystemRoles.UserAdmin
          "Full access to user management features"
          "Manage users and their permissions" "Human Resources" orgId now;
        systemRole SeedIds.Roles.OrgAdmin SystemRoles.OrgAdmin
          "Full access to organization management features"
          "Configure organization settings and integrations" "Operations"
          orgId now;
        systemRole SeedIds.Roles.Viewer SystemRoles.Viewer
          "Read-only access to view users and organization information"
          "Observation without modification capabilities" "General"
          orgId now ].

Definition SeedRolesAsync : Task Exception unit :=
  seeded ← AnyAsync RolesSet (λ r, Role.Id r =? SeedIds.Roles.SuperAdmin);
  if seeded : bool then mret tt
  else
    now ← UtcNow;
    AddRange_SaveChangesAsync RolesSet (roles now).

Definition GetAllFunctionIds : list Guid :=
  [ (* User Management *)
    SeedIds.Functions.UsersView; SeedIds.Functions.UsersCreate; SeedIds.Functions.UsersUpdate;
    SeedIds.Functions.UsersDelete; SeedIds.Functions.UsersRolesManage; SeedIds.Functions.UsersRolesView;
    SeedIds.Functions.UsersInvite; SeedIds.Functions.UsersDeactivate; SeedIds.Functions.UsersReactivate;
    SeedIds.Functions.UsersActivityView;
    (* Organization Management *)
    SeedIds.Functions.OrgView; SeedIds.Functions.OrgUpdate; SeedIds.Functions.OrgSettingsManage;
    SeedIds.Functions.OrgSettingsView; SeedIds.Functions.OrgBillingManage; SeedIds.Functions.OrgBillingView;
    SeedIds.Functions.OrgIntegrationsManage; SeedIds.Functions.OrgIntegrationsView;
    SeedIds.Functions.OrgApiKeysManage; SeedIds.Functions.OrgApiKeysView;
    SeedIds.Functions.OrgWebhooksManage; SeedIds.Functions.OrgWebhooksView;
    SeedIds.Functions.OrgAuditLogView; SeedIds.Functions.OrgDataExport;
    (* Role Management *)
    SeedIds.Functions.RolesView; SeedIds.Functions.RolesCreate; SeedIds.Functions.RolesUpdate;
    SeedIds.Functions.RolesDelete; SeedIds.Functions.RolesFunctionsAssign;
    (* Function Management *)
    SeedIds.Functions.FunctionsView; SeedIds.Functions.FunctionsCreate; SeedIds.Functions.FunctionsUpdate;
    SeedIds.Functions.FunctionsDelete ].

(** The loop [foreach (var functionId in functionIds)
    roleFunctions.Add(new RoleFunction { Id = Guid.NewGuid(), ... })]:
    the rows it adds, in order. *)
Definition roleFunction (roleId : Guid) (now : DateTime)
    (id functionId : Guid) : RoleFunction.t :=
  {| RoleFunction.Id := id;
     RoleFunction.RoleId := roleId;
     RoleFunction.FunctionId := functionId;
     RoleFunction.CreatedAt := now;
     RoleFunction.UpdatedAt := now;
     RoleFunction.DeletedAt := None |}.

Fixpoint addRoleFunctions (roleId : Guid) (now : DateTime)
    (functionIds : list Guid) : Task Exception (list RoleFunction.t) :=
  match functionIds with
  | [] => mret []
  | functionId :: rest =>
      id ← NewGuid;
      added ← addRoleFunctions roleId now rest;
      mret (roleFunction roleId now id functionId :: added)
  end.

Definition userAdminFunctionIds : list Guid :=
  [ (* All User Management *)
    SeedIds.Functions.UsersView; SeedIds.Functions.UsersCreate; SeedIds.Functions.UsersUpdate;
    SeedIds.Functions.UsersDelete; SeedIds.Functions.UsersRolesManage; SeedIds.Functions.UsersRolesView;
    SeedIds.Functions.UsersInvite; SeedIds.Functions.UsersDeactivate; SeedIds.Functions.UsersReactivate;
    SeedIds.Functions.UsersActivityView;
    (* All Role Management *)
    SeedIds.Functions.RolesView; SeedIds.Functions.RolesCreate; SeedIds.Functions.RolesUpdate;
    SeedIds.Functions.RolesDelete; SeedIds.Functions.RolesFunctionsAssign;
    (* Functions view only *)
    SeedIds.Functions.FunctionsView ].

Definition orgAdminFunctionIds : list Guid :=
  [ (* All Organization Management *)
    SeedIds.Functions.OrgView; SeedIds.Functions.OrgUpdate; SeedIds.Functions.OrgSettingsManage;
    SeedIds.Functions.OrgSettingsView; SeedIds.Functions.OrgBillingManage; SeedIds.Functions.OrgBillingView;
    SeedIds.Functions.OrgIntegrationsManage; SeedIds.Functions.OrgIntegrationsView;
    SeedIds.Functions.OrgApiKeysManage; SeedIds.Functions.OrgApiKeysView;
    SeedIds.Functions.OrgWebhooksManage; SeedIds.Functions.OrgWebhooksView;
    SeedIds.Functions.OrgAuditLogView; SeedIds.Functions.OrgDataExport;
    (* View users and roles *)
    SeedIds.Functions.UsersView; SeedIds.Functions.UsersRolesView;
    SeedIds.Functions.RolesView; SeedIds.Functions.FunctionsView ].

Definition viewerFunctionIds : list Guid :=
  [ SeedIds.Functions.UsersView; SeedIds.Functions.UsersRolesView;
    SeedIds.Functions.OrgView; SeedIds.Functions.OrgSettingsView;
    SeedIds.Functions.OrgBillingView; SeedIds.Functions.OrgIntegrationsView;
    SeedIds.Functions.OrgApiKeysView; SeedIds.Functions.OrgWebhooksView;
    SeedIds.Functions.RolesView; SeedIds.Functions.FunctionsView ].

Definition SeedRoleFunctionsAsync : Task Exception unit :=
  seeded ← AnyAsync RoleFunctionsSet (λ _, true);
  if seeded : bool then mret tt
  else
    now ← UtcNow;
    (* Super Admin gets ALL functions *)
    superAdmin ← addRoleFunctions SeedIds.Roles.SuperAdmin now GetAllFunctionIds;
    (* User Admin gets all User Management + Role Management + Function View *)
    userAdmin ← addRoleFunctions SeedIds.Roles.UserAdmin now userAdminFunctionIds;
    (* Org Admin gets all Organization Management + view functions *)
    orgAdmin ← addRoleFunctions SeedIds.Roles.OrgAdmin now orgAdminFunctionIds;
    (* Viewer gets only view permissions *)
    viewer ← addRoleFunctions SeedIds.Roles.Viewer now viewerFunctionIds;
    AddRange_SaveChangesAsync RoleFunctionsSet
      (superAdmin ++ userAdmin ++ orgAdmin ++ viewer).

Definition userRole (createdAt updatedAt : DateTime) : UserRole.t :=
  {| UserRole.Id := SeedIds.UserRoles.RodrigoSuperAdmin;
     UserRole.UserId := SeedIds.Users.Rodrigo;
     UserRole.RoleId := SeedIds.Roles.SuperAdmin;
     UserRole.OrganizationId := SeedIds.Organizations.Rugertek;
     UserRole.CreatedAt := createdAt;
     UserRole.UpdatedAt := updatedAt;
     UserRole.DeletedAt := None |}.

Definition SeedUserRolesAsync : Task Exception unit :=
  seeded ← AnyAsync UserRolesSet
    (λ ur, UserRole.Id ur =? SeedIds.UserRoles.RodrigoSuperAdmin);
  if seeded : bool then mret tt
  else
    createdAt ← UtcNow;
    updatedAt ← UtcNow;
    AddRange_SaveChangesAsync UserRolesSet [userRole createdAt updatedAt].

Definition SeedAsync : Task Exception unit :=
  SeedOrganizationsAsync;;
  SeedUsersAsync;;
  SeedOrganizationMembershipsAsync;;
  SeedFunctionsAsync;;
  SeedRolesAsync;;
  SeedRoleFunctionsAsync;;
  SeedUserRolesAsync.

(** ** The authorization engine

    The resolver and the store operations of the specification are not
    among the sources, which only hold the tables, the seed data and the
    schema of [UserRoles]. They are modelled here from the specification,
    over the tables of the context. *)

(** Failures of the store operations (section 7 of the specification),
    and the rejection of a row by the schema. *)
Inductive Failure : Type :=
| NotFound
| CrossTenantAccess
| DuplicateIdentifier
| DuplicateName
| UnknownPermission
| UnknownRole
| NotAMember
| OrganizationMismatch
| AlreadyMember
| StorageFailure (e : Exception).

Definition liftStore {A} (m : Task Exception A) : Task Failure A :=
  λ w, match m w with
       | (w', inr a) => (w', inr a)
       | (w', inl e) => (w', inl (StorageFailure e))
       end.

(** Modelled from the spec: "Membership: (user, organization) pair";
    a user has a membership in an organization when a row for the pair
    exists. *)
Definition isMember (d : OrbitOSDbContext) (userId orgId : Guid) : bool :=
  existsb (λ m, (OrganizationMembership.UserId m =? userId)
                && (OrganizationMembership.OrganizationId m =? orgId))
          (OrganizationMemberships d).

(** An assignment row for the triple exists. *)
Definition isAssigned (d : OrbitOSDbContext) (userId roleId orgId : Guid)
  : bool :=
  existsb (λ ur, (UserRole.UserId ur =? userId)
                 && (UserRole.RoleId ur =? roleId)
                 && (UserRole.OrganizationId ur =? orgId))
          (UserRoles d).

Definition isDeleted (role : Role.t) : bool :=
  match Role.DeletedAt role with Some _ => true | None => false end.

(** Modelled from the spec: "[rolesOf(userId, orgId) -> set of Role]
    (non-deleted only)": the roles that are not soft-deleted and have an
    assignment row for the user in the organization. *)
Definition rolesOf (d : OrbitOSDbContext) (userId orgId : Guid)
  : list Role.t :=
  List.filter (λ role, negb (isDeleted role)
                  && isAssigned d userId (Role.Id role) orgId)
         (Roles d).

(** A [RoleFunction] row binds the function to the role. *)
Definition grants (d : OrbitOSDbContext) (roleId : Guid) (f : Function.t)
  : bool :=
  existsb (λ rf, (RoleFunction.RoleId rf =? roleId)
                 && (RoleFunction.FunctionId rf =? Function.Id f))
          (RoleFunctions d).

(** Modelled from the spec: "[permissionsOf(roleId) -> set of
    Permission]", with "RolePermission (junction): (role, permission)
    pair" and the permission identifier being the name of the function
    ("users.view"): the names of the catalog functions a [RoleFunction]
    row binds to the role. *)
Definition permissionsOf (d : OrbitOSDbContext) (roleId : Guid)
  : gset string :=
  list_to_set (Function.Name <$> List.filter (grants d roleId) (Functions d)).

(** Modelled from the spec: "[effectivePermissions(userId, orgId)]:
    defined as the union, over every non-deleted role assigned to
    [userId] within [orgId], of that role's granted permissions. Empty
    set if the user has no membership or no role assignments." *)
Definition effectivePermissions (d : OrbitOSDbContext) (userId orgId : Guid)
  : gset string :=
  if isMember d userId orgId
  then ⋃ ((λ role, permissionsOf d (Role.Id role)) <$> rolesOf d userId orgId)
  else ∅.

(** Modelled from the spec: "[authorize(userId, orgId, permissionId)]:
    true iff [permissionId ∈ effectivePermissions(userId, orgId)]. Must
    short-circuit: reject immediately (return false, do not throw) when
    the user has no membership in [orgId]". *)
Definition authorize (d : OrbitOSDbContext) (userId orgId : Guid)
    (permissionId : string) : bool :=
  if negb (isMember d userId orgId) then false
  else bool_decide (permissionId ∈ effectivePermissions d userId orgId).

(** Modelled from the spec: the roles "assigned to [userId] within
    [orgId]" that the union of section 4.4 ranges over. Section 3: a
    membership is "required before any role assignment in that
    organization is meaningful — a role assignment without membership is
    inert"; section 4.3: [rolesOf] is "non-deleted only". So the assigned
    roles of a user without a membership are none, and those of a member
    are the roles [rolesOf] gives. *)
Definition assignedRoles (d : OrbitOSDbContext) (userId orgId : Guid)
  : list Role.t :=
  if isMember d userId orgId then rolesOf d userId orgId else [].

Definition findRole (d : OrbitOSDbContext) (roleId : Guid) : option Role.t :=
  List.find (λ role, Role.Id role =? roleId) (Roles d).

(** Modelled from the spec: "[assignRole(userId, roleId, orgId)]: fails
    with NotAMember if no membership row exists for (userId, orgId);
    fails with OrganizationMismatch if the role's owning organization
    differs from [orgId]; fails with AlreadyAssigned if the triple exists
    (treat as idempotent success, not error); side effect: creates a
    RoleAssignment row." The tests are made in the order the
    specification lists them; a role that does not exist is [NotFound],
    found out when the role is looked up for its organization. The row
    goes through the [UserRoles] table and its constraints. *)
Definition assignRole (userId roleId orgId : Guid) : Task Failure unit :=
  d ← getDb;
  if negb (isMember d userId orgId) then throw NotAMember
  else
    match findRole d roleId with
    | None => throw NotFound
    | Some role =>
        if negb (Role.OrganizationId role =? orgId)
        then throw OrganizationMismatch
        else if isAssigned d userId roleId orgId then mret tt
        else
          id ← NewGuid;
          createdAt ← UtcNow;
          updatedAt ← UtcNow;
          liftStore (AddRange_SaveChangesAsync UserRolesSet
            [ {| UserRole.Id := id;
                 UserRole.UserId := userId;
                 UserRole.RoleId := roleId;
                 UserRole.OrganizationId := orgId;
                 UserRole.CreatedAt := createdAt;
                 UserRole.UpdatedAt := updatedAt;
                 UserRole.DeletedAt := None |} ])
    end.

Definition markDeleted (roleId : Guid) (now : DateTime) (role : Role.t)
  : Role.t :=
  if Role.Id role =? roleId
  then {| Role.Id := Role.Id role; Role.Name := Role.Name role;
          Role.Description := Role.Description role;
          Role.Purpose := Role.Purpose role;
          Role.Department := Role.Department role;
          Role.OrganizationId := Role.OrganizationId role;
          Role.CreatedAt := Role.CreatedAt role;
          Role.UpdatedAt := Role.UpdatedAt role;
          Role.DeletedAt := Some now |}
  else role.

(** Modelled from the spec: "[deleteRole(roleId)]: soft-delete — marks
    deleted timestamp; does not remove RolePermission or RoleAssignment
    rows". A role that does not exist is [NotFound]. *)
Definition deleteRole (roleId : Guid) : Task Failure unit :=
  d ← getDb;
  match findRole d roleId with
  | None => throw NotFound
  | Some _ =>
      now ← UtcNow;
      setDb (withRows RolesSet (markDeleted roleId now <$> Roles d) d)
  end.

(** The identifier of a permission matches the pattern [*.view]. *)
Definition isViewPermission (name : string) : bool :=
  (5 <=? String.length name)%nat
  && String.eqb (substring (String.length name - 5) 5 name) ".view".

(** The world a first start runs in: an empty database. *)
Definition freshWorld (clock : nat → DateTime) (guids : nat → Guid)
    (entropy : nat → byte) : World :=
  {| db := emptyDb; clock := clock; guids := guids; entropy := entropy |}.

(** [Guid.NewGuid] hands out pairwise different values: here, the first
    [n] of them. *)
Definition distinctGuids (w : World) (n : nat) : Prop :=
  NoDup (guids w <$> seq 0 n).

(** The number of [RoleFunction] rows the seeder builds. *)
Definition seededRoleFunctionCount : nat :=
  length GetAllFunctionIds + length userAdminFunctionIds
  + length orgAdminFunctionIds + length viewerFunctionIds.

(** ** What a run of the seeder leaves behind *)

(** The seven steps of the seeder share one shape: look for a known row,
    return when it is there, otherwise build rows and save them. *)
Definition seedUnless {A} `{BaseEntity A} (set : DbSet A)
    (predicate : A → bool) (build : Task Exception (list A))
  : Task Exception unit :=
  seeded ← AnyAsync set predicate;
  if seeded : bool then mret tt
  else rows ← build; AddRange_SaveChangesAsync set rows.

(** The seven tests the steps start with. *)
Definition alreadySeeded (d : OrbitOSDbContext) : bool :=
  existsb (λ o, Organization.Id o =? SeedIds.Organizations.Rugertek)
    (Organizations d)
  && existsb (λ u, User.Id u =? SeedIds.Users.Rodrigo) (Users d)
  && existsb (λ m, OrganizationMembership.Id m
                   =? SeedIds.Memberships.RodrigoRugertek)
       (OrganizationMemberships d)
  && existsb (λ f, Function.Id f =? SeedIds.Functions.UsersView) (Functions d)
  && existsb (λ r, Role.Id r =? SeedIds.Roles.SuperAdmin) (Roles d)
  && existsb (λ _, true) (RoleFunctions d)
  && existsb (λ ur, UserRole.Id ur =? SeedIds.UserRoles.RodrigoSuperAdmin)
       (UserRoles d).

(** Table by table, the rows of [d] followed by the rows of [added]. *)
Definition appendDb (d added : OrbitOSDbContext) : OrbitOSDbContext :=
  {| Organizations := Organizations d ++ Organizations added;
     Users := Users d ++ Users added;
     OrganizationMemberships :=
       OrganizationMemberships d ++ OrganizationMemberships added;
     Functions := Functions d ++ Functions added;
     Roles := Roles d ++ Roles added;
     RoleFunctions := RoleFunctions d ++ RoleFunctions added;
     UserRoles := UserRoles d ++ UserRoles added |}.

(** Every organization among the rows is the seeded one, and every row
    that has an [OrganizationId] carries the seeded organization. *)
Definition inRugertek (added : OrbitOSDbContext) : Prop :=
  Forall (λ o, Organization.Id o = SeedIds.Organizations.Rugertek)
    (Organizations added)
  ∧ Forall (λ m, OrganizationMembership.OrganizationId m
                 = SeedIds.Organizations.Rugertek)
      (OrganizationMemberships added)
  ∧ Forall (λ f, Function.OrganizationId f = SeedIds.Organizations.Rugertek)
      (Functions added)
  ∧ Forall (λ r, Role.OrganizationId r = SeedIds.Organizations.Rugertek)
      (Roles added)
  ∧ Forall (λ ur, UserRole.OrganizationId ur = SeedIds.Organizations.Rugertek)
      (UserRoles added).

(** [d'] is [d] with rows added, all of them in the seeded organization. *)
Definition seeds (d d' : OrbitOSDbContext) : Prop :=
  ∃ added, d' = appendDb d added ∧ inRugertek added.

(** No reference dangles or crosses a tenant: organizations have
    different keys; memberships, functions, roles and assignments name an
    organization and a user that exist; an assignment names a role of its
    own organization; a grant names a role and a function of one
    organization; every user is a member somewhere. *)
Definition tenantClosed (d : OrbitOSDbContext) : bool :=
  bool_decide (NoDup (keys (Organizations d)))
  && forallb (λ m,
        hasKey (Organizations d) (OrganizationMembership.OrganizationId m)
        && hasKey (Users d) (OrganizationMembership.UserId m))
       (OrganizationMemberships d)
  && forallb (λ f, hasKey (Organizations d) (Function.OrganizationId f))
       (Functions d)
  && forallb (λ r, hasKey (Organizations d) (Role.OrganizationId r)) (Roles d)
  && forallb (λ rf,
        existsb (λ r,
            (Role.Id r =? RoleFunction.RoleId rf)
            && existsb (λ f,
                   (Function.Id f =? RoleFunction.FunctionId rf)
                   && (Function.OrganizationId f =? Role.OrganizationId r))
                 (Functions d))
          (Roles d))
       (RoleFunctions d)
  && forallb (λ ur,
        hasKey (Organizations d) (UserRole.OrganizationId ur)
        && hasKey (Users d) (UserRole.UserId ur)
        && existsb (λ r,
               (Role.Id r =? UserRole.RoleId ur)
               && (Role.OrganizationId r =? UserRole.OrganizationId ur))
             (Roles d))
       (UserRoles d)
  && forallb (λ u,
        existsb (λ m, OrganizationMembership.UserId m =? User.Id u)
          (OrganizationMemberships d))
       (Users d).

(** The world after [ticks] readings of the clock, [drawn] new
    identifiers and [bytes] random bytes, with database [d]. *)
Definition advance (w : World) (ticks drawn bytes : nat)
    (d : OrbitOSDbContext) : World :=
  {| db := d;
     clock := λ n, clock w (ticks + n)%nat;
     guids := λ n, guids w (drawn + n)%nat;
     entropy := λ n, entropy w (bytes + n)%nat |}.

(** The rows of the loop [addRoleFunctions], the identifiers being the
    values of [ids] from [first] on. *)
Definition roleFunctionsOf (roleId : Guid) (now : DateTime)
    (ids : nat → Guid) (first : nat) (functionIds : list Guid)
  : list RoleFunction.t :=
  zip_with (roleFunction roleId now)
    (ids <$> seq first (length functionIds)) functionIds.

Definition seededRoleFunctions (now : DateTime) (ids : nat → Guid)
  : list RoleFunction.t :=
  roleFunctionsOf SeedIds.Roles.SuperAdmin now ids 0 GetAllFunctionIds
  ++ roleFunctionsOf SeedIds.Roles.UserAdmin now ids 33 userAdminFunctionIds
  ++ roleFunctionsOf SeedIds.Roles.OrgAdmin now ids 49 orgAdminFunctionIds
  ++ roleFunctionsOf SeedIds.Roles.Viewer now ids 67 viewerFunctionIds.

Definition seededPasswordHash (w : World) : string :=
  let salt := entropy w <$> seq 0 SaltSize in
  ToBase64String
    (salt ++ Rfc2898DeriveBytes_GetBytes "123456" salt Iterations SHA256
               HashSize).

(** The database a run of the seeder builds from an empty one, in terms
    of the clock, the identifiers and the random bytes of the world [w]
    it started in. *)
Definition seededDb (w : World) : OrbitOSDbContext :=
  {| Organizations := [organization (clock w 0%nat) (clock w 1%nat)];
     Users := [user (seededPasswordHash w) (clock w 2%nat) (clock w 3%nat)];
     OrganizationMemberships := [membership (clock w 4%nat) (clock w 5%nat)];
     Functions := systemFunctions (clock w 6%nat);
     Roles := roles (clock w 7%nat);
     RoleFunctions := seededRoleFunctions (clock w 8%nat) (guids w);
     UserRoles := [userRole (clock w 9%nat) (clock w 10%nat)] |}.

(** The names of the catalog. *)
Definition catalog (d : OrbitOSDbContext) : gset string :=
  list_to_set (Function.Name <$> Functions d).

(** A [DbSet] reads what was written to it, and writing rows after its
    own leaves the other tables alone. *)
Definition lawful {A} (set : DbSet A) : Prop :=
  (∀ rows d, rowsOf set (withRows set rows d) = rows)
  ∧ (∀ rows d, withRows set (rowsOf set d ++ rows) d
               = appendDb d (withRows set rows emptyDb)).

(** ** [AuthController]

    The controller verifies a login with a private copy of
    [PasswordHasher.VerifyPassword], the sizes and the iteration count
    written as literals. *)
Definition AuthController_VerifyPassword (password passwordHash : string)
  : Exception + bool :=
  hashBytes ← FromBase64String passwordHash;
  salt ← GetSubArray hashBytes 0 16;
  storedHash ← GetSubArray hashBytes 16 (length hashBytes);
  let computedHash :=
    Rfc2898DeriveBytes_GetBytes password salt 100000 SHA256 32 in
  mret (FixedTimeEquals computedHash storedHash).

(** The [PasswordHash] column of the migration: [nvarchar(256)]. *)
Definition PasswordHash_maxLength : nat := 256.

(** The rows [added] leave alone every table in which the seeder's test
    finds its row in [d]. *)
Definition untouched (d added : OrbitOSDbContext) : Prop :=
  (existsb (λ o, Organization.Id o =? SeedIds.Organizations.Rugertek)
     (Organizations d) = true → Organizations added = [])
  ∧ (existsb (λ u, User.Id u =? SeedIds.Users.Rodrigo) (Users d) = true →
     Users added = [])
  ∧ (existsb (λ m, OrganizationMembership.Id m
                   =? SeedIds.Memberships.RodrigoRugertek)
       (OrganizationMemberships d) = true →
     OrganizationMemberships added = [])
  ∧ (existsb (λ f, Function.Id f =? SeedIds.Functions.UsersView)
       (Functions d) = true → Functions added = [])
  ∧ (existsb (λ r, Role.Id r =? SeedIds.Roles.SuperAdmin) (Roles d) = true →
     Roles added = [])
  ∧ (existsb (λ _, true) (RoleFunctions d) = true → RoleFunctions added = [])
  ∧ (existsb (λ ur, UserRole.Id ur =? SeedIds.UserRoles.RodrigoSuperAdmin)
       (UserRoles d) = true → UserRoles added = []).

(** [d'] is [d] with rows added, none of them to a table in which the
    seeder's test finds its row. *)
Definition keeps (d d' : OrbitOSDbContext) : Prop :=
  ∃ added, d' = appendDb d added ∧ untouched d added.

(** What a step of the seeder may do: add rows as [keeps] allows, and
    return or raise [DbUpdateException]. *)
Definition effect (m : Task Exception unit) : Prop :=
  ∀ w w' r, m w = (w', r) →
    keeps (db w) (db w') ∧ (r = inr tt ∨ r = inl DbUpdateException).

(** [Login]: the request, and the answers of the action. The [User]
    class and the token service are not among the sources, so what
    [Login] does once the password is verified (it stamps [LastLoginAt],
    saves, and answers with a token) is the parameter [signIn]; the
    lookup and the checks before it are the code's. *)
Record LoginRequest : Type := {
  Email : string;
  Password : string
}.

Inductive IActionResult (R : Type) : Type :=
| Unauthorized (message : string)
| Ok (value : R).
#[global] Arguments Unauthorized {R} message.
#[global] Arguments Ok {R} value.

(** [set.FirstOrDefaultAsync(predicate)], the rows in table order. *)
Definition FirstOrDefaultAsync {E A} (set : DbSet A) (predicate : A → bool)
  : Task E (option A) :=
  d ← getDb; mret (find predicate (rowsOf set d)).

Definition IsNullOrEmpty (value : option string) : bool :=
  match value with
  | None | Some EmptyString => true
  | Some _ => false
  end.

(** [string.ToLower], as the query provider evaluates it. *)
Variable ToLower : string → string.

Definition Login {R} (signIn : User.t → Task Exception (IActionResult R))
    (request : LoginRequest) : Task Exception (IActionResult R) :=
  user ← FirstOrDefaultAsync UsersSet
    (λ u, String.eqb (ToLower (User.Email u)) (ToLower (Email request)));
  match user with
  | None => mret (Unauthorized "Invalid email or password")
  | Some user =>
      if IsNullOrEmpty (User.PasswordHash user)
      then mret (Unauthorized "Invalid email or password")
      else
        verified ← liftResult
          (AuthController_VerifyPassword (Password request)
             (default "" (User.PasswordHash user)));
        if verified : bool then signIn user
        else mret (Unauthorized "Invalid email or password")
  end.

(** * Properties *)

(** ** Base64 *)

Lemma sextet_table (s : N) :
  (s < 64)%N →
  Base64.sextet_of_char (Base64.char_of_sextet s) = Some s
  ∧ Base64.is_pad (Base64.char_of_sextet s) = false
  ∧ Base64.is_white (Base64.char_of_sextet s) = false.
Proof.
  intros Hs.
  assert (Hall : forallb (λ s,
            match Base64.sextet_of_char (Base64.char_of_sextet s) with
            | Some s' => (s' =? s)%N
            | None => false
            end
            && negb (Base64.is_pad (Base64.char_of_sextet s))
            && negb (Base64.is_white (Base64.char_of_sextet s)))
          (N.of_nat <$> seq 0 64) = true) by (vm_compute; reflexivity).
  rewrite forallb_forall in Hall.
  specialize (Hall s).
  assert (Hin : In s (N.of_nat <$> seq 0 64)).
  { apply in_map_iff. exists (N.to_nat s). split; [lia|].
    apply in_seq. lia. }
  apply Hall in Hin.
  apply andb_prop in Hin as [Hin Hw]. apply andb_prop in Hin as [Hd Hp].
  destruct (Base64.sextet_of_char _) as [s'|]; [|discriminate].
  apply N.eqb_eq in Hd. subst s'.
  apply negb_true_iff in Hp, Hw. auto.
Qed.

Lemma group_bound (b1 b2 b3 : byte) : (Base64.group b1 b2 b3 < 16777216)%N.
Proof.
  unfold Base64.group.
  pose proof (Byte.to_N_bounded b1). pose proof (Byte.to_N_bounded b2).
  pose proof (Byte.to_N_bounded b3). lia.
Qed.

Lemma bytes_of_group_group (b1 b2 b3 : byte) (count : nat) :
  Base64.bytes_of_group (Base64.group b1 b2 b3) count
  = Some (take count [b1; b2; b3]).
Proof.
  unfold Base64.bytes_of_group, Base64.group.
  pose proof (Byte.to_N_bounded b1) as B1.
  pose proof (Byte.to_N_bounded b2) as B2.
  pose proof (Byte.to_N_bounded b3) as B3.
  set (n := (Byte.to_N b1 * 65536 + Byte.to_N b2 * 256 + Byte.to_N b3)%N).
  assert (H1 : (n / 65536 = Byte.to_N b1)%N)
    by (subst n; zify; Z.to_euclidean_division_equations; lia).
  assert (H2 : ((n / 256) mod 256 = Byte.to_N b2)%N)
    by (subst n; zify; Z.to_euclidean_division_equations; lia).
  assert (H3 : (n mod 256 = Byte.to_N b3)%N)
    by (subst n; zify; Z.to_euclidean_division_equations; lia).
  rewrite H1, H2, H3, !Byte.of_to_N. reflexivity.
Qed.

Lemma ungroup_sextets (n : N) :
  Base64.ungroup (n / 262144) ((n / 4096) mod 64) ((n / 64) mod 64) (n mod 64)
  = n.
Proof.
  unfold Base64.ungroup. zify; Z.to_euclidean_division_equations; lia.
Qed.

Lemma decode_quad (b1 b2 b3 : byte) (rest : list ascii) :
  Base64.decode (Base64.quad b1 b2 b3 ++ rest)
  = tl ← Base64.decode rest; Some (b1 :: b2 :: b3 :: tl).
Proof.
  pose proof (group_bound b1 b2 b3) as Hg.
  unfold Base64.quad. set (n := Base64.group b1 b2 b3) in *.
  destruct (sextet_table (n / 262144)) as (E1 & _ & _);
    [zify; Z.to_euclidean_division_equations; lia|].
  destruct (sextet_table ((n / 4096) mod 64)) as (E2 & _ & _);
    [zify; Z.to_euclidean_division_equations; lia|].
  destruct (sextet_table ((n / 64) mod 64)) as (E3 & _ & _);
    [zify; Z.to_euclidean_division_equations; lia|].
  destruct (sextet_table (n mod 64)) as (E4 & P4 & _);
    [zify; Z.to_euclidean_division_equations; lia|].
  cbn [app Base64.decode]. rewrite P4, E1, E2, E3, E4.
  cbn [mbind option_bind]. rewrite ungroup_sextets.
  subst n. rewrite bytes_of_group_group. cbn [mbind option_bind take].
  destruct (Base64.decode rest); reflexivity.
Qed.

Lemma decode_encode (bs : list byte) :
  Base64.decode (Base64.encode bs) = Some bs.
Proof.
  assert (H : ∀ n (bs : list byte), (length bs < n)%nat →
                Base64.decode (Base64.encode bs) = Some bs).
  { clear bs. induction n as [|n IH]; intros bs Hlen; [lia|].
    destruct bs as [|b1 [|b2 [|b3 rest]]].
    - reflexivity.
    - (* one byte: two sextets and two pads *)
      cbn [Base64.encode Base64.quad].
      set (g := Base64.group b1 "000" "000").
      pose proof (group_bound b1 "000" "000") as Hg. fold g in Hg.
      destruct (sextet_table (g / 262144)) as (E1 & _ & _);
        [zify; Z.to_euclidean_division_equations; lia|].
      destruct (sextet_table ((g / 4096) mod 64)) as (E2 & _ & _);
        [zify; Z.to_euclidean_division_equations; lia|].
      cbn [Base64.decode].
      replace (Base64.is_pad Base64.pad) with true by reflexivity.
      rewrite E1, E2. cbn [mbind option_bind].
      replace (Base64.ungroup (g / 262144) ((g / 4096) mod 64) 0 0) with g.
      + subst g. rewrite bytes_of_group_group. reflexivity.
      + rewrite <- (ungroup_sextets g) at 1.
        assert (((g / 64) mod 64 = 0)%N ∧ (g mod 64 = 0)%N) as [-> ->]; [|done].
        subst g. unfold Base64.group. change (Byte.to_N "000") with 0%N.
        split; zify; Z.to_euclidean_division_equations; lia.
    - (* two bytes: three sextets and one pad *)
      cbn [Base64.encode Base64.quad].
      set (g := Base64.group b1 b2 "000").
      pose proof (group_bound b1 b2 "000") as Hg. fold g in Hg.
      destruct (sextet_table (g / 262144)) as (E1 & _ & _);
        [zify; Z.to_euclidean_division_equations; lia|].
      destruct (sextet_table ((g / 4096) mod 64)) as (E2 & _ & _);
        [zify; Z.to_euclidean_division_equations; lia|].
      destruct (sextet_table ((g / 64) mod 64)) as (E3 & P3 & _);
        [zify; Z.to_euclidean_division_equations; lia|].
      cbn [Base64.decode].
      replace (Base64.is_pad Base64.pad) with true by reflexivity.
      rewrite E1, E2, P3, E3. cbn [mbind option_bind].
      replace (Base64.ungroup (g / 262144) ((g / 4096) mod 64)
                 ((g / 64) mod 64) 0) with g.
      + subst g. rewrite bytes_of_group_group. reflexivity.
      + rewrite <- (ungroup_sextets g) at 1.
        assert ((g mod 64 = 0)%N) as ->; [|done].
        subst g. unfold Base64.group. change (Byte.to_N "000") with 0%N.
        zify; Z.to_euclidean_division_equations; lia.
    - change (Base64.encode (b1 :: b2 :: b3 :: rest))
        with (Base64.quad b1 b2 b3 ++ Base64.encode rest).
      rewrite decode_quad, IH; [reflexivity|]. simpl in Hlen. lia. }
  apply (H (S (length bs))). lia.
Qed.

Lemma encode_not_white (bs : list byte) :
  Forall (λ c, Base64.is_white c = false) (Base64.encode bs).
Proof.
  assert (Hq : ∀ b1 b2 b3,
             Forall (λ c, Base64.is_white c = false) (Base64.quad b1 b2 b3)).
  { intros b1 b2 b3. pose proof (group_bound b1 b2 b3) as Hg.
    unfold Base64.quad. set (n := Base64.group b1 b2 b3) in *.
    repeat constructor; apply sextet_table;
      zify; Z.to_euclidean_division_equations; lia. }
  assert (H : ∀ n (bs : list byte), (length bs < n)%nat →
                Forall (λ c, Base64.is_white c = false) (Base64.encode bs)).
  { clear bs. induction n as [|n IH]; intros bs Hlen; [lia|].
    destruct bs as [|b1 [|b2 [|b3 rest]]].
    - constructor.
    - cbn [Base64.encode]. specialize (Hq b1 "000"%byte "000"%byte).
      unfold Base64.quad in *.
      inversion Hq as [|? ? Q1 Hq1]; subst.
      inversion Hq1 as [|? ? Q2 _]; subst.
      repeat constructor; assumption.
    - cbn [Base64.encode]. specialize (Hq b1 b2 "000"%byte).
      unfold Base64.quad in *.
      inversion Hq as [|? ? Q1 Hq1]; subst.
      inversion Hq1 as [|? ? Q2 Hq2]; subst.
      inversion Hq2 as [|? ? Q3 _]; subst.
      repeat constructor; assumption.
    - change (Base64.encode (b1 :: b2 :: b3 :: rest))
        with (Base64.quad b1 b2 b3 ++ Base64.encode rest).
      apply Forall_app. split; [apply Hq|]. apply IH. simpl in Hlen. lia. }
  apply (H (S (length bs))). lia.
Qed.

Lemma filter_all {A} (p : A → bool) (l : list A) :
  Forall (λ x, p x = false) l →
  filter (λ x, p x = false) l = l.
Proof.
  induction 1 as [|x l Hx _ IH]; [reflexivity|].
  rewrite filter_cons. destruct (decide (p x = false)); [|contradiction].
  by rewrite IH.
Qed.

(** Decoding the Base64 text of an array gives the array back. *)
Lemma FromBase64String_ToBase64String (bs : list byte) :
  FromBase64String (ToBase64String bs) = inr bs.
Proof.
  unfold FromBase64String, ToBase64String.
  rewrite list_ascii_of_string_of_list_ascii.
  rewrite (filter_all Base64.is_white), decode_encode;
    [reflexivity | apply encode_not_white].
Qed.

(** ** The password hasher *)

Lemma accumulate_same (bs : list byte) : accumulate 0 bs bs = 0.
Proof.
  induction bs as [|b bs IH]; [reflexivity|].
  cbn [accumulate]. rewrite Z.sub_diag. exact IH.
Qed.

Lemma FixedTimeEquals_same (bs : list byte) : FixedTimeEquals bs bs = true.
Proof.
  unfold FixedTimeEquals. rewrite Nat.eqb_refl. cbn [negb].
  rewrite accumulate_same. reflexivity.
Qed.

Lemma Array_Copy_whole (source destination : list byte) (i len : nat) :
  length source = len →
  (i + len ≤ length destination)%nat →
  Array_Copy source 0 destination i len
  = inr (take i destination ++ source ++ drop (i + len) destination).
Proof.
  intros Hs Hd. unfold Array_Copy.
  rewrite (proj2 (Nat.leb_le _ _)) by lia.
  rewrite (proj2 (Nat.leb_le _ _)) by lia.
  cbn [andb]. rewrite drop_0, (take_ge source) by lia. reflexivity.
Qed.

Lemma GetBytes_length password salt iterations algorithm cb :
  length (Rfc2898DeriveBytes_GetBytes password salt iterations algorithm cb)
  = cb.
Proof.
  unfold Rfc2898DeriveBytes_GetBytes.
  by rewrite length_map, length_seq.
Qed.

(** What [HashPassword] stores: the Base64 text of the salt followed by
    the derived key, the salt being the next sixteen random bytes. *)
Lemma HashPassword_stores (password : string) (w : World) :
  let salt := entropy w <$> seq 0 SaltSize in
  let hash :=
    Rfc2898DeriveBytes_GetBytes password salt Iterations SHA256 HashSize in
  HashPassword password w
  = ({| db := db w; clock := clock w; guids := guids w;
        entropy := λ n, entropy w (SaltSize + n)%nat |},
     inr (ToBase64String (salt ++ hash))).
Proof.
  intros salt hash. unfold HashPassword.
  unfold mbind, Task_bind, RandomNumberGenerator_GetBytes, liftResult.
  fold salt. fold hash.
  assert (Hsalt : length salt = 16%nat)
    by (unfold salt; by rewrite length_fmap, length_seq).
  assert (Hhash : length hash = 32%nat) by apply GetBytes_length.
  rewrite (Array_Copy_whole salt _ 0 SaltSize);
    [|done|rewrite length_replicate; unfold SaltSize, HashSize; lia].
  rewrite (Array_Copy_whole hash _ SaltSize HashSize);
    [|done|rewrite !length_app, length_drop, length_replicate, Hsalt;
           unfold SaltSize, HashSize; lia].
  rewrite take_0. cbn [app].
  rewrite (take_app_length' salt) by done.
  rewrite drop_ge;
    [|rewrite !length_app, length_drop, length_replicate, Hsalt;
      unfold SaltSize, HashSize; lia].
  rewrite app_nil_r. reflexivity.
Qed.

Lemma VerifyPassword_salted (password : string) (salt : list byte) :
  length salt = SaltSize →
  VerifyPassword password
    (ToBase64String
       (salt ++ Rfc2898DeriveBytes_GetBytes password salt Iterations SHA256
                  HashSize))
  = inr true.
Proof.
  intros Hsalt. unfold VerifyPassword.
  rewrite FromBase64String_ToBase64String. cbn [mbind sum_bind].
  set (hash := Rfc2898DeriveBytes_GetBytes _ _ _ _ _).
  assert (Hhash : length hash = HashSize) by apply GetBytes_length.
  unfold GetSubArray.
  rewrite length_app, Hsalt, Hhash.
  cbn [Nat.leb SaltSize HashSize Nat.add andb mbind sum_bind Nat.sub].
  rewrite drop_0, (take_app_length' salt) by done.
  rewrite (drop_app_length' salt) by done.
  rewrite take_ge by (rewrite Hhash; unfold HashSize; lia).
  rewrite FixedTimeEquals_same. reflexivity.
Qed.

(** C9. For every password, [HashPassword] returns a text (it does not
    raise) against which [VerifyPassword] of the same password returns
    [true], whatever salt the random generator hands out; the salt is the
    first sixteen bytes of the stored value. *)
Theorem VerifyPassword_HashPassword (password : string) (w : World) :
  ∃ w' passwordHash,
    HashPassword password w = (w', inr passwordHash)
    ∧ VerifyPassword password passwordHash = inr true
    ∧ (hashBytes ← FromBase64String passwordHash;
       GetSubArray hashBytes 0 SaltSize)
      = inr (entropy w <$> seq 0 SaltSize).
Proof.
  eexists _, _. split; [apply HashPassword_stores|].
  assert (Hsalt : length (entropy w <$> seq 0 SaltSize) = SaltSize)
    by (by rewrite length_fmap, length_seq).
  split; [by apply VerifyPassword_salted|].
  rewrite FromBase64String_ToBase64String. cbn [mbind sum_bind].
  unfold GetSubArray. rewrite length_app, Hsalt.
  cbn [Nat.leb SaltSize Nat.add andb Nat.sub].
  by rewrite drop_0, take_app_length'.
Qed.

(** ** Running tasks *)

Lemma bind_run {E A B} (m : Task E A) (k : A → Task E B) (w w1 : World)
    (a : A) :
  m w = (w1, inr a) → (m ≫= k) w = k a w1.
Proof. intros H. unfold mbind, Task_bind. by rewrite H. Qed.

Lemma bind_raise {E A B} (m : Task E A) (k : A → Task E B) (w w1 : World)
    (e : E) :
  m w = (w1, inl e) → (m ≫= k) w = (w1, inl e).
Proof. intros H. unfold mbind, Task_bind. by rewrite H. Qed.

Lemma bind_inv {E A B} (m : Task E A) (k : A → Task E B) (w w' : World)
    (b : B) :
  (m ≫= k) w = (w', inr b) →
  ∃ w1 a, m w = (w1, inr a) ∧ k a w1 = (w', inr b).
Proof.
  unfold mbind, Task_bind. destruct (m w) as [w1 [e|a]]; [done|]. eauto.
Qed.

Lemma AnyAsync_run {E A} (set : DbSet A) (predicate : A → bool) (w : World) :
  AnyAsync (E:=E) set predicate w
  = (w, inr (existsb predicate (rowsOf set (db w)))).
Proof. reflexivity. Qed.

Lemma AddRange_SaveChangesAsync_run {A} `{BaseEntity A} (set : DbSet A)
    (rows : list A) (w : World) :
  AddRange_SaveChangesAsync set rows w
  = if primaryKeyOk (rowsOf set (db w)) rows && constraintsOk set (db w) rows
    then (advance w 0 0 0 (withRows set (rowsOf set (db w) ++ rows) (db w)),
          inr tt)
    else (w, inl DbUpdateException).
Proof.
  unfold AddRange_SaveChangesAsync, mbind, Task_bind, getDb.
  by destruct (_ && _).
Qed.

Lemma SeedOrganizationsAsync_empty (w : World) :
  Organizations (db w) = [] →
  SeedOrganizationsAsync w
  = (advance w 2 0 0
       (withRows OrganizationsSet
          [organization (clock w 0%nat) (clock w 1%nat)] (db w)), inr tt).
Proof.
  intros Hd. unfold SeedOrganizationsAsync.
  rewrite (bind_run _ _ _ _ _ (AnyAsync_run _ _ _)).
  cbn [rowsOf OrganizationsSet]. rewrite Hd. cbn [existsb].
  unfold mbind, Task_bind, UtcNow. cbn [clock].
  rewrite AddRange_SaveChangesAsync_run.
  cbn [rowsOf OrganizationsSet db]. rewrite Hd.
  reflexivity.
Qed.

Lemma SeedUsersAsync_empty (w : World) :
  Users (db w) = [] →
  SeedUsersAsync w
  = (advance w 2 0 SaltSize
       (withRows UsersSet
          [user (seededPasswordHash w) (clock w 0%nat) (clock w 1%nat)]
          (db w)), inr tt).
Proof.
  intros Hd. unfold SeedUsersAsync.
  rewrite (bind_run _ _ _ _ _ (AnyAsync_run _ _ _)).
  cbn [rowsOf UsersSet]. rewrite Hd. cbn [existsb].
  rewrite (bind_run _ _ _ _ _ (HashPassword_stores _ _)).
  unfold mbind, Task_bind, UtcNow. cbn [clock].
  rewrite AddRange_SaveChangesAsync_run.
  cbn [rowsOf UsersSet db]. rewrite Hd.
  reflexivity.
Qed.

Lemma SeedOrganizationMembershipsAsync_empty (w : World) :
  OrganizationMemberships (db w) = [] →
  SeedOrganizationMembershipsAsync w
  = (advance w 2 0 0
       (withRows OrganizationMembershipsSet
          [membership (clock w 0%nat) (clock w 1%nat)] (db w)), inr tt).
Proof.
  intros Hd. unfold SeedOrganizationMembershipsAsync.
  rewrite (bind_run _ _ _ _ _ (AnyAsync_run _ _ _)).
  cbn [rowsOf OrganizationMembershipsSet]. rewrite Hd. cbn [existsb].
  unfold mbind, Task_bind, UtcNow. cbn [clock].
  rewrite AddRange_SaveChangesAsync_run.
  cbn [rowsOf OrganizationMembershipsSet db]. rewrite Hd.
  reflexivity.
Qed.

Lemma SeedFunctionsAsync_empty (w : World) :
  Functions (db w) = [] →
  SeedFunctionsAsync w
  = (advance w 1 0 0
       (withRows FunctionsSet (systemFunctions (clock w 0%nat)) (db w)),
     inr tt).
Proof.
  intros Hd. unfold SeedFunctionsAsync.
  rewrite (bind_run _ _ _ _ _ (AnyAsync_run _ _ _)).
  cbn [rowsOf FunctionsSet]. rewrite Hd. cbn [existsb].
  unfold GetSystemFunctions, mbind, Task_bind, UtcNow, mret, Task_ret.
  cbn [clock].
  rewrite AddRange_SaveChangesAsync_run.
  cbn [rowsOf FunctionsSet db]. rewrite Hd.
  replace (primaryKeyOk [] (systemFunctions (clock w 0%nat))) with true
    by (vm_compute; reflexivity).
  reflexivity.
Qed.

Lemma SeedRolesAsync_empty (w : World) :
  Roles (db w) = [] →
  SeedRolesAsync w
  = (advance w 1 0 0 (withRows RolesSet (roles (clock w 0%nat)) (db w)),
     inr tt).
Proof.
  intros Hd. unfold SeedRolesAsync.
  rewrite (bind_run _ _ _ _ _ (AnyAsync_run _ _ _)).
  cbn [rowsOf RolesSet]. rewrite Hd. cbn [existsb].
  unfold mbind, Task_bind, UtcNow. cbn [clock].
  rewrite AddRange_SaveChangesAsync_run.
  cbn [rowsOf RolesSet db]. rewrite Hd.
  replace (primaryKeyOk [] (roles (clock w 0%nat))) with true
    by (vm_compute; reflexivity).
  reflexivity.
Qed.

Lemma fmap_seq_shift {A} (f : nat → A) (first len : nat) :
  (λ n, f (S n)) <$> seq first len = f <$> seq (S first) len.
Proof. by rewrite <- fmap_S_seq, <- list_fmap_compose. Qed.

Lemma addRoleFunctions_run (roleId : Guid) (now : DateTime)
    (functionIds : list Guid) (w : World) :
  addRoleFunctions roleId now functionIds w
  = (advance w 0 (length functionIds) 0 (db w),
     inr (roleFunctionsOf roleId now (guids w) 0 functionIds)).
Proof.
  revert w. induction functionIds as [|functionId rest IH]; intros w.
  - destruct w; reflexivity.
  - cbn [addRoleFunctions]. unfold mbind at 1, Task_bind at 1, NewGuid.
    rewrite (bind_run _ _ _ _ _ (IH _)).
    unfold roleFunctionsOf. cbn [length seq fmap list_fmap zip_with guids].
    rewrite (fmap_seq_shift (guids w) 0). reflexivity.
Qed.

Lemma SeedRoleFunctionsAsync_empty (w : World) :
  RoleFunctions (db w) = [] →
  distinctGuids w seededRoleFunctionCount →
  SeedRoleFunctionsAsync w
  = (advance w 1 seededRoleFunctionCount 0
       (withRows RoleFunctionsSet
          (seededRoleFunctions (clock w 0%nat) (guids w)) (db w)),
     inr tt).
Proof.
  intros Hd Hguids. unfold SeedRoleFunctionsAsync.
  rewrite (bind_run _ _ _ _ _ (AnyAsync_run _ _ _)).
  cbn [rowsOf RoleFunctionsSet]. rewrite Hd. cbn [existsb].
  unfold mbind at 1, Task_bind at 1, UtcNow.
  rewrite (bind_run _ _ _ _ _ (addRoleFunctions_run _ _ _ _)).
  rewrite (bind_run _ _ _ _ _ (addRoleFunctions_run _ _ _ _)).
  rewrite (bind_run _ _ _ _ _ (addRoleFunctions_run _ _ _ _)).
  rewrite (bind_run _ _ _ _ _ (addRoleFunctions_run _ _ _ _)).
  rewrite AddRange_SaveChangesAsync_run.
  cbn [rowsOf RoleFunctionsSet db advance clock guids]. rewrite Hd.
  match goal with
  | |- context [primaryKeyOk [] ?rows] =>
      change rows with (seededRoleFunctions (clock w 0%nat) (guids w));
      replace (primaryKeyOk [] (seededRoleFunctions (clock w 0%nat) (guids w)))
        with true
  end.
  - reflexivity.
  - symmetry. unfold primaryKeyOk. apply andb_true_intro. split.
    + apply bool_decide_eq_true_2. exact Hguids.
    + reflexivity.
Qed.

Lemma SeedUserRolesAsync_empty (w : World) :
  UserRoles (db w) = [] →
  hasKey (Organizations (db w)) SeedIds.Organizations.Rugertek = true →
  hasKey (Roles (db w)) SeedIds.Roles.SuperAdmin = true →
  hasKey (Users (db w)) SeedIds.Users.Rodrigo = true →
  SeedUserRolesAsync w
  = (advance w 2 0 0
       (withRows UserRolesSet [userRole (clock w 0%nat) (clock w 1%nat)]
          (db w)), inr tt).
Proof.
  intros Hd Ho Hr Hu. unfold SeedUserRolesAsync.
  rewrite (bind_run _ _ _ _ _ (AnyAsync_run _ _ _)).
  cbn [rowsOf UserRolesSet]. rewrite Hd. cbn [existsb].
  unfold mbind, Task_bind, UtcNow. cbn [clock].
  rewrite AddRange_SaveChangesAsync_run.
  cbn [rowsOf UserRolesSet db constraintsOk]. rewrite Hd.
  unfold UserRolesConstraints.
  cbn [forallb userRole UserRole.OrganizationId UserRole.RoleId
       UserRole.UserId db].
  rewrite Hd, Ho, Hr, Hu.
  reflexivity.
Qed.

(** On an empty database, with the identifiers [Guid.NewGuid] hands out
    pairwise different, the seeder runs to its end and leaves
    [seededDb]. *)
Lemma SeedAsync_fresh (w : World) :
  db w = emptyDb →
  distinctGuids w seededRoleFunctionCount →
  SeedAsync w = (advance w 11 seededRoleFunctionCount SaltSize (seededDb w),
                 inr tt).
Proof.
  intros Hdb Hguids. unfold SeedAsync.
  erewrite bind_run;
    [|apply SeedOrganizationsAsync_empty; by rewrite Hdb].
  cbv beta. erewrite bind_run;
    [|apply SeedUsersAsync_empty; by rewrite Hdb].
  cbv beta. erewrite bind_run;
    [|apply SeedOrganizationMembershipsAsync_empty; by rewrite Hdb].
  cbv beta. erewrite bind_run;
    [|apply SeedFunctionsAsync_empty; by rewrite Hdb].
  cbv beta. erewrite bind_run;
    [|apply SeedRolesAsync_empty; by rewrite Hdb].
  cbv beta. erewrite bind_run;
    [|apply SeedRoleFunctionsAsync_empty; [by rewrite Hdb|exact Hguids]].
  cbv beta. rewrite SeedUserRolesAsync_empty;
    [|by rewrite Hdb|by rewrite Hdb|by rewrite Hdb|by rewrite Hdb].
  rewrite Hdb. reflexivity.
Qed.

(** ** One step of the seeder, on any database *)

Lemma appendDb_empty (d : OrbitOSDbContext) : appendDb d emptyDb = d.
Proof. destruct d. unfold appendDb. cbn. by rewrite !app_nil_r. Qed.

Lemma appendDb_assoc (d a b : OrbitOSDbContext) :
  appendDb (appendDb d a) b = appendDb d (appendDb a b).
Proof. unfold appendDb. cbn. by rewrite <- !app_assoc. Qed.

Lemma inRugertek_empty : inRugertek emptyDb.
Proof. repeat split; constructor. Qed.

Lemma inRugertek_append (a b : OrbitOSDbContext) :
  inRugertek a → inRugertek b → inRugertek (appendDb a b).
Proof.
  intros (A1 & A2 & A3 & A4 & A5) (B1 & B2 & B3 & B4 & B5).
  repeat split; cbn; apply Forall_app; by split.
Qed.

Lemma seeds_refl (d : OrbitOSDbContext) : seeds d d.
Proof.
  exists emptyDb. split; [by rewrite appendDb_empty | apply inRugertek_empty].
Qed.

Lemma seeds_trans (d1 d2 d3 : OrbitOSDbContext) :
  seeds d1 d2 → seeds d2 d3 → seeds d1 d3.
Proof.
  intros (a & -> & Ha) (b & -> & Hb). exists (appendDb a b).
  split; [apply appendDb_assoc | by apply inRugertek_append].
Qed.

Ltac lawful_set :=
  split; [reflexivity|];
  intros rows [? ? ? ? ? ? ?]; unfold appendDb; cbn;
  by rewrite ?app_nil_r.

Lemma OrganizationsSet_lawful : lawful OrganizationsSet.
Proof. lawful_set. Qed.
Lemma UsersSet_lawful : lawful UsersSet.
Proof. lawful_set. Qed.
Lemma OrganizationMembershipsSet_lawful : lawful OrganizationMembershipsSet.
Proof. lawful_set. Qed.
Lemma FunctionsSet_lawful : lawful FunctionsSet.
Proof. lawful_set. Qed.
Lemma RolesSet_lawful : lawful RolesSet.
Proof. lawful_set. Qed.
Lemma RoleFunctionsSet_lawful : lawful RoleFunctionsSet.
Proof. lawful_set. Qed.
Lemma UserRolesSet_lawful : lawful UserRolesSet.
Proof. lawful_set. Qed.

(** A step whose test finds its row returns at once, the world as it
    was. *)
Lemma seedUnless_noop {A} `{BaseEntity A} (set : DbSet A)
    (predicate : A → bool) (build : Task Exception (list A)) (w : World) :
  existsb predicate (rowsOf set (db w)) = true →
  seedUnless set predicate build w = (w, inr tt).
Proof.
  intros Hseeded. unfold seedUnless.
  rewrite (bind_run _ _ _ _ _ (AnyAsync_run _ _ _)), Hseeded. reflexivity.
Qed.

(** Otherwise it builds its rows, without touching the database, and
    saves them: either the save is refused and the database is as
    before, or the rows are appended to the table. *)
Lemma seedUnless_step {A} `{BaseEntity A} (set : DbSet A)
    (predicate : A → bool) (build : Task Exception (list A))
    (built : list A → Prop) (w w' : World) (r : Exception + unit) :
  lawful set →
  (∀ w0, ∃ w1 rows, build w0 = (w1, inr rows) ∧ db w1 = db w0 ∧ built rows) →
  seedUnless set predicate build w = (w', r) →
  (w' = w ∧ r = inr tt ∧ existsb predicate (rowsOf set (db w)) = true)
  ∨ (db w' = db w ∧ r = inl DbUpdateException)
  ∨ (∃ rows, built rows ∧ r = inr tt
             ∧ db w' = appendDb (db w) (withRows set rows emptyDb)
             ∧ rowsOf set (db w') = rowsOf set (db w) ++ rows).
Proof.
  intros [Hget Hput] Hbuild. unfold seedUnless.
  rewrite (bind_run _ _ _ _ _ (AnyAsync_run _ _ _)).
  destruct (existsb predicate (rowsOf set (db w))) eqn:Hseeded.
  - intros [= <- <-]. by left.
  - destruct (Hbuild w) as (w1 & rows & Hrun & Hdb & Hrows).
    rewrite (bind_run _ _ _ _ _ Hrun), AddRange_SaveChangesAsync_run, Hdb.
    destruct (_ && _).
    + intros [= <- <-]. right. right. exists rows.
      cbn [advance db]. rewrite Hget. by rewrite Hput.
    + intros [= <- <-]. right. by left.
Qed.

Ltac build_runs :=
  let w0 := fresh "w0" in
  intros w0; eexists _, _; split; [reflexivity|]; split; [reflexivity|].

Ltac seed_step Hrun lawfulness built :=
  apply (seedUnless_step _ _ _ built) in Hrun; [|exact lawfulness|];
  [ destruct Hrun as [(-> & -> & Hseeded)
                     |[(Hdb & ->)|(rows & Hrows & -> & Hdb & Htable)]];
    [ split; [apply seeds_refl | intros _; exact Hseeded]
    | split; [rewrite Hdb; apply seeds_refl | discriminate]
    | split;
      [ eexists; split; [exact Hdb|]
      | intros _; cbn in Htable; rewrite Htable, existsb_app;
        apply orb_true_intro; right ] ]
  | ].

Lemma SeedOrganizationsAsync_step (w w' : World) (r : Exception + unit) :
  SeedOrganizationsAsync w = (w', r) →
  seeds (db w) (db w')
  ∧ (r = inr tt →
     existsb (λ o, Organization.Id o =? SeedIds.Organizations.Rugertek)
       (Organizations (db w')) = true).
Proof.
  intros Hrun.
  change (SeedOrganizationsAsync w)
    with (seedUnless OrganizationsSet
            (λ o, Organization.Id o =? SeedIds.Organizations.Rugertek)
            (createdAt ← UtcNow; updatedAt ← UtcNow;
             mret [organization createdAt updatedAt]) w) in Hrun.
  seed_step Hrun OrganizationsSet_lawful
    (λ rows, ∃ c u, rows = [organization c u]).
  - destruct Hrows as (c & u & ->).
    repeat split; cbn; repeat constructor.
  - by destruct Hrows as (c & u & ->).
  - build_runs. cbn. eauto.
Qed.

Lemma SeedUsersAsync_step (w w' : World) (r : Exception + unit) :
  SeedUsersAsync w = (w', r) →
  seeds (db w) (db w')
  ∧ (r = inr tt →
     existsb (λ u, User.Id u =? SeedIds.Users.Rodrigo) (Users (db w')) = true).
Proof.
  intros Hrun.
  change (SeedUsersAsync w)
    with (seedUnless UsersSet (λ u, User.Id u =? SeedIds.Users.Rodrigo)
            (passwordHash ← HashPassword "123456";
             createdAt ← UtcNow; updatedAt ← UtcNow;
             mret [user passwordHash createdAt updatedAt]) w) in Hrun.
  seed_step Hrun UsersSet_lawful
    (λ rows, ∃ h c u, rows = [user h c u]).
  - destruct Hrows as (h & c & u & ->).
    repeat split; cbn; repeat constructor.
  - by destruct Hrows as (h & c & u & ->).
  - intros w0. eexists _, _. split.
    + erewrite bind_run; [|apply HashPassword_stores]. reflexivity.
    + split; [reflexivity|]. cbn. eauto.
Qed.

Lemma SeedOrganizationMembershipsAsync_step (w w' : World)
    (r : Exception + unit) :
  SeedOrganizationMembershipsAsync w = (w', r) →
  seeds (db w) (db w')
  ∧ (r = inr tt →
     existsb (λ m, OrganizationMembership.Id m
                   =? SeedIds.Memberships.RodrigoRugertek)
       (OrganizationMemberships (db w')) = true).
Proof.
  intros Hrun.
  change (SeedOrganizationMembershipsAsync w)
    with (seedUnless OrganizationMembershipsSet
            (λ m, OrganizationMembership.Id m
                  =? SeedIds.Memberships.RodrigoRugertek)
            (createdAt ← UtcNow; updatedAt ← UtcNow;
             mret [membership createdAt updatedAt]) w) in Hrun.
  seed_step Hrun OrganizationMembershipsSet_lawful
    (λ rows, ∃ c u, rows = [membership c u]).
  - destruct Hrows as (c & u & ->).
    repeat split; cbn; repeat constructor.
  - by destruct Hrows as (c & u & ->).
  - build_runs. cbn. eauto.
Qed.

Lemma systemFunctions_inRugertek (now : DateTime) :
  Forall (λ f, Function.OrganizationId f = SeedIds.Organizations.Rugertek)
    (systemFunctions now).
Proof. repeat constructor. Qed.

Lemma roles_inRugertek (now : DateTime) :
  Forall (λ r, Role.OrganizationId r = SeedIds.Organizations.Rugertek)
    (roles now).
Proof. repeat constructor. Qed.

Lemma SeedFunctionsAsync_step (w w' : World) (r : Exception + unit) :
  SeedFunctionsAsync w = (w', r) →
  seeds (db w) (db w')
  ∧ (r = inr tt →
     existsb (λ f, Function.Id f =? SeedIds.Functions.UsersView)
       (Functions (db w')) = true).
Proof.
  intros Hrun.
  change (SeedFunctionsAsync w)
    with (seedUnless FunctionsSet
            (λ f, Function.Id f =? SeedIds.Functions.UsersView)
            GetSystemFunctions w) in Hrun.
  seed_step Hrun FunctionsSet_lawful
    (λ rows, ∃ now, rows = systemFunctions now).
  - destruct Hrows as (now & ->).
    repeat split; cbn [withRows FunctionsSet emptyDb Organizations
      OrganizationMemberships Functions Roles UserRoles];
      first [apply systemFunctions_inRugertek | constructor].
  - destruct Hrows as (now & ->). reflexivity.
  - build_runs. eexists. reflexivity.
Qed.

Lemma SeedRolesAsync_step (w w' : World) (r : Exception + unit) :
  SeedRolesAsync w = (w', r) →
  seeds (db w) (db w')
  ∧ (r = inr tt →
     existsb (λ r, Role.Id r =? SeedIds.Roles.SuperAdmin) (Roles (db w'))
     = true).
Proof.
  intros Hrun.
  change (SeedRolesAsync w)
    with (seedUnless RolesSet (λ r, Role.Id r =? SeedIds.Roles.SuperAdmin)
            (now ← UtcNow; mret (roles now)) w) in Hrun.
  seed_step Hrun RolesSet_lawful (λ rows, ∃ now, rows = roles now).
  - destruct Hrows as (now & ->).
    repeat split; cbn [withRows RolesSet emptyDb Organizations
      OrganizationMemberships Functions Roles UserRoles];
      first [apply roles_inRugertek | constructor].
  - destruct Hrows as (now & ->). reflexivity.
  - build_runs. eexists. reflexivity.
Qed.

Lemma SeedRoleFunctionsAsync_step (w w' : World) (r : Exception + unit) :
  SeedRoleFunctionsAsync w = (w', r) →
  seeds (db w) (db w')
  ∧ (r = inr tt → existsb (λ _, true) (RoleFunctions (db w')) = true).
Proof.
  unfold SeedRoleFunctionsAsync.
  rewrite (bind_run _ _ _ _ _ (AnyAsync_run _ _ _)).
  destruct (existsb _ _) eqn:Hseeded.
  - intros [= <- <-]. split; [apply seeds_refl | intros _; exact Hseeded].
  - unfold mbind at 1, Task_bind at 1, UtcNow.
    rewrite (bind_run _ _ _ _ _ (addRoleFunctions_run _ _ _ _)).
    rewrite (bind_run _ _ _ _ _ (addRoleFunctions_run _ _ _ _)).
    rewrite (bind_run _ _ _ _ _ (addRoleFunctions_run _ _ _ _)).
    rewrite (bind_run _ _ _ _ _ (addRoleFunctions_run _ _ _ _)).
    rewrite AddRange_SaveChangesAsync_run.
    destruct (_ && _).
    + intros [= <- <-]. split.
      * exists (withRows RoleFunctionsSet
                  (seededRoleFunctions (clock w 0%nat) (guids w)) emptyDb).
        split; [|repeat split; cbn; constructor].
        unfold appendDb. cbn [withRows RoleFunctionsSet emptyDb Organizations
          Users OrganizationMemberships Functions Roles RoleFunctions
          UserRoles]. rewrite !app_nil_r. reflexivity.
      * intros _.
        change (existsb (λ _ : RoleFunction.t, true)
                  (RoleFunctions (db w)
                   ++ seededRoleFunctions (clock w 0%nat) (guids w)) = true).
        rewrite existsb_app.
        apply orb_true_intro. right. reflexivity.
    + intros [= <- <-]. split; [apply seeds_refl | discriminate].
Qed.

Lemma SeedUserRolesAsync_step (w w' : World) (r : Exception + unit) :
  SeedUserRolesAsync w = (w', r) →
  seeds (db w) (db w')
  ∧ (r = inr tt →
     existsb (λ ur, UserRole.Id ur =? SeedIds.UserRoles.RodrigoSuperAdmin)
       (UserRoles (db w')) = true).
Proof.
  intros Hrun.
  change (SeedUserRolesAsync w)
    with (seedUnless UserRolesSet
            (λ ur, UserRole.Id ur =? SeedIds.UserRoles.RodrigoSuperAdmin)
            (createdAt ← UtcNow; updatedAt ← UtcNow;
             mret [userRole createdAt updatedAt]) w) in Hrun.
  seed_step Hrun UserRolesSet_lawful
    (λ rows, ∃ c u, rows = [userRole c u]).
  - destruct Hrows as (c & u & ->).
    repeat split; cbn; repeat constructor.
  - by destruct Hrows as (c & u & ->).
  - build_runs. cbn. eauto.
Qed.

(** ** The whole run *)

Ltac still_seeded Hseeds :=
  let added := fresh "added" in
  destruct Hseeds as (added & -> & _);
  cbn [appendDb Organizations Users OrganizationMemberships Functions Roles
       RoleFunctions UserRoles];
  rewrite existsb_app; apply orb_true_intro; by left.

(** A run adds rows of the seeded organization and nothing else; when
    it reaches its end, each of the seven tests finds its row. *)
Lemma SeedAsync_run (w w' : World) (r : Exception + unit) :
  SeedAsync w = (w', r) →
  seeds (db w) (db w') ∧ (r = inr tt → alreadySeeded (db w') = true).
Proof.
  unfold SeedAsync.
  destruct (SeedOrganizationsAsync w) as [w1 [e|[]]] eqn:H1;
    [rewrite (bind_raise _ _ _ _ _ H1); intros [= <- <-];
     apply SeedOrganizationsAsync_step in H1 as [? _]; by split|].
  rewrite (bind_run _ _ _ _ _ H1). cbv beta.
  apply SeedOrganizationsAsync_step in H1 as [S1 G1].
  destruct (SeedUsersAsync w1) as [w2 [e|[]]] eqn:H2;
    [rewrite (bind_raise _ _ _ _ _ H2); intros [= <- <-];
     apply SeedUsersAsync_step in H2 as [? _];
     split; [eauto using seeds_trans | done]|].
  rewrite (bind_run _ _ _ _ _ H2). cbv beta.
  apply SeedUsersAsync_step in H2 as [S2 G2].
  destruct (SeedOrganizationMembershipsAsync w2) as [w3 [e|[]]] eqn:H3;
    [rewrite (bind_raise _ _ _ _ _ H3); intros [= <- <-];
     apply SeedOrganizationMembershipsAsync_step in H3 as [? _];
     split; [eauto using seeds_trans | done]|].
  rewrite (bind_run _ _ _ _ _ H3). cbv beta.
  apply SeedOrganizationMembershipsAsync_step in H3 as [S3 G3].
  destruct (SeedFunctionsAsync w3) as [w4 [e|[]]] eqn:H4;
    [rewrite (bind_raise _ _ _ _ _ H4); intros [= <- <-];
     apply SeedFunctionsAsync_step in H4 as [? _];
     split; [eauto using seeds_trans | done]|].
  rewrite (bind_run _ _ _ _ _ H4). cbv beta.
  apply SeedFunctionsAsync_step in H4 as [S4 G4].
  destruct (SeedRolesAsync w4) as [w5 [e|[]]] eqn:H5;
    [rewrite (bind_raise _ _ _ _ _ H5); intros [= <- <-];
     apply SeedRolesAsync_step in H5 as [? _];
     split; [eauto 6 using seeds_trans | done]|].
  rewrite (bind_run _ _ _ _ _ H5). cbv beta.
  apply SeedRolesAsync_step in H5 as [S5 G5].
  destruct (SeedRoleFunctionsAsync w5) as [w6 [e|[]]] eqn:H6;
    [rewrite (bind_raise _ _ _ _ _ H6); intros [= <- <-];
     apply SeedRoleFunctionsAsync_step in H6 as [? _];
     split; [eauto 7 using seeds_trans | done]|].
  rewrite (bind_run _ _ _ _ _ H6). cbv beta.
  apply SeedRoleFunctionsAsync_step in H6 as [S6 G6].
  intros H7. apply SeedUserRolesAsync_step in H7 as [S7 G7].
  split; [eauto 8 using seeds_trans|].
  intros ->. specialize (G1 eq_refl). specialize (G2 eq_refl).
  specialize (G3 eq_refl). specialize (G4 eq_refl). specialize (G5 eq_refl).
  specialize (G6 eq_refl). specialize (G7 eq_refl).
  assert (S67 := S7).
  assert (S57 := seeds_trans _ _ _ S6 S67).
  assert (S47 := seeds_trans _ _ _ S5 S57).
  assert (S37 := seeds_trans _ _ _ S4 S47).
  assert (S27 := seeds_trans _ _ _ S3 S37).
  assert (S17 := seeds_trans _ _ _ S2 S27).
  unfold alreadySeeded. repeat (apply andb_true_intro; split).
  - clear -G1 S17. still_seeded S17.
  - clear -G2 S27. still_seeded S27.
  - clear -G3 S37. still_seeded S37.
  - clear -G4 S47. still_seeded S47.
  - clear -G5 S57. still_seeded S57.
  - clear -G6 S67. still_seeded S67.
  - exact G7.
Qed.

Ltac found_row :=
  rewrite (bind_run _ _ _ _ _ (AnyAsync_run _ _ _));
  match goal with
  | H : existsb ?p ?rows = true |- context [existsb ?p ?rows'] =>
      change rows' with rows; rewrite H
  end; reflexivity.

(** A run on a database in which the seven tests find their rows does
    nothing: it returns, and the world is the one it started in. *)
Lemma SeedAsync_noop (w : World) :
  alreadySeeded (db w) = true → SeedAsync w = (w, inr tt).
Proof.
  unfold alreadySeeded. intros H.
  repeat (apply andb_prop in H as [H ?]).
  unfold SeedAsync.
  erewrite bind_run; [|unfold SeedOrganizationsAsync; found_row].
  cbv beta.
  erewrite bind_run; [|unfold SeedUsersAsync; found_row].
  cbv beta.
  erewrite bind_run; [|unfold SeedOrganizationMembershipsAsync; found_row].
  cbv beta.
  erewrite bind_run; [|unfold SeedFunctionsAsync; found_row].
  cbv beta.
  erewrite bind_run; [|unfold SeedRolesAsync; found_row].
  cbv beta.
  erewrite bind_run; [|unfold SeedRoleFunctionsAsync; found_row].
  cbv beta.
  unfold SeedUserRolesAsync; found_row.
Qed.

(** ** The resolver *)

Lemma elem_of_permissionsOf (d : OrbitOSDbContext) (roleId : Guid)
    (p : string) :
  p ∈ permissionsOf d roleId
  ↔ ∃ f, f ∈ Functions d ∧ grants d roleId f = true ∧ Function.Name f = p.
Proof.
  unfold permissionsOf. rewrite elem_of_list_to_set, list_elem_of_fmap.
  split.
  - intros (f & -> & Hf). apply list_elem_of_In, List.filter_In in Hf as [Hf Hg].
    exists f. by rewrite list_elem_of_In.
  - intros (f & Hf & Hg & <-). exists f. split; [done|].
    apply list_elem_of_In, List.filter_In. by rewrite <- list_elem_of_In.
Qed.

Lemma elem_of_rolesOf (d : OrbitOSDbContext) (userId orgId : Guid)
    (role : Role.t) :
  role ∈ rolesOf d userId orgId
  ↔ role ∈ Roles d ∧ Role.DeletedAt role = None
    ∧ isAssigned d userId (Role.Id role) orgId = true.
Proof.
  unfold rolesOf. rewrite list_elem_of_In, List.filter_In, <- list_elem_of_In.
  unfold isDeleted. split.
  - intros (Hin & H). apply andb_prop in H as [Hdel Has].
    destruct (Role.DeletedAt role); [discriminate|done].
  - intros (Hin & -> & Has). by rewrite Has.
Qed.

Lemma elem_of_union_permissions (d : OrbitOSDbContext) (rs : list Role.t)
    (p : string) :
  p ∈ ⋃ ((λ role, permissionsOf d (Role.Id role)) <$> rs)
  ↔ ∃ role, role ∈ rs ∧ p ∈ permissionsOf d (Role.Id role).
Proof.
  rewrite elem_of_union_list. split.
  - intros (X & HX & Hp). apply list_elem_of_fmap in HX as (role & -> & Hr).
    eauto.
  - intros (role & Hr & Hp). eexists. split; [|exact Hp].
    apply list_elem_of_fmap. eauto.
Qed.

(** What the resolver answers, in terms of the rows: a permission is
    effective for a member exactly when a role that is not deleted, has
    an assignment row for the user in the organization, and has a grant
    row for a catalog function of that name. *)
Lemma elem_of_effectivePermissions (d : OrbitOSDbContext)
    (userId orgId : Guid) (p : string) :
  p ∈ effectivePermissions d userId orgId
  ↔ isMember d userId orgId = true
    ∧ ∃ role f, role ∈ Roles d ∧ Role.DeletedAt role = None
        ∧ isAssigned d userId (Role.Id role) orgId = true
        ∧ f ∈ Functions d ∧ grants d (Role.Id role) f = true
        ∧ Function.Name f = p.
Proof.
  unfold effectivePermissions. destruct (isMember d userId orgId).
  - rewrite elem_of_union_permissions. split.
    + intros (role & Hr & Hp). split; [done|].
      apply elem_of_rolesOf in Hr as (? & ? & ?).
      apply elem_of_permissionsOf in Hp as (f & ? & ? & ?).
      exists role, f. eauto 10.
    + intros (_ & role & f & ? & ? & ? & ? & ? & ?). exists role. split.
      * by apply elem_of_rolesOf.
      * apply elem_of_permissionsOf. eauto.
  - split; [set_solver|]. by intros [? _].
Qed.

(** C1. A user without a membership in an organization has no effective
    permission there, and [authorize] returns [false] for every
    permission identifier: it is a total function, so it returns and does
    not raise. *)
Theorem no_membership_no_permission (d : OrbitOSDbContext)
    (userId orgId : Guid) :
  isMember d userId orgId = false →
  effectivePermissions d userId orgId = ∅
  ∧ ∀ permissionId, authorize d userId orgId permissionId = false.
Proof.
  intros Hm. unfold authorize, effectivePermissions. by rewrite Hm.
Qed.

(** C2. The effective permissions of a user in an organization are the
    union, over the non-deleted roles assigned to the user in the
    organization, of the permissions each grants — for every user and
    organization, member or not. There is no precedence between roles: a
    permission is effective exactly when one of these roles grants it,
    and for any two of them the effective set contains what both grant.
    In terms of the rows, a role is one of them when the user has a
    membership row for the organization, the role is in the table and not
    deleted, and an assignment row binds the three. *)
Theorem effectivePermissions_union (d : OrbitOSDbContext)
    (userId orgId : Guid) :
  effectivePermissions d userId orgId
  = ⋃ ((λ role, permissionsOf d (Role.Id role))
         <$> assignedRoles d userId orgId)
  ∧ (∀ p, p ∈ effectivePermissions d userId orgId
          ↔ ∃ role, role ∈ assignedRoles d userId orgId
                    ∧ p ∈ permissionsOf d (Role.Id role))
  ∧ (∀ r1 r2, r1 ∈ assignedRoles d userId orgId →
       r2 ∈ assignedRoles d userId orgId →
       permissionsOf d (Role.Id r1) ∪ permissionsOf d (Role.Id r2)
       ⊆ effectivePermissions d userId orgId)
  ∧ (∀ role, role ∈ assignedRoles d userId orgId
             ↔ isMember d userId orgId = true
               ∧ role ∈ Roles d ∧ Role.DeletedAt role = None
               ∧ isAssigned d userId (Role.Id role) orgId = true).
Proof.
  assert (Hunion : effectivePermissions d userId orgId
                   = ⋃ ((λ role, permissionsOf d (Role.Id role))
                          <$> assignedRoles d userId orgId)).
  { unfold effectivePermissions, assignedRoles.
    destruct (isMember d userId orgId); [reflexivity|].
    symmetry. apply union_list_nil. }
  assert (Hin : ∀ p, p ∈ effectivePermissions d userId orgId
            ↔ ∃ role, role ∈ assignedRoles d userId orgId
                      ∧ p ∈ permissionsOf d (Role.Id role)).
  { intros p. rewrite Hunion. apply elem_of_union_permissions. }
  split; [exact Hunion|]. split; [exact Hin|]. split.
  - intros r1 r2 H1 H2 p Hp. apply Hin.
    apply elem_of_union in Hp as [Hp|Hp]; eauto.
  - intros role. unfold assignedRoles.
    destruct (isMember d userId orgId).
    + rewrite elem_of_rolesOf. by split; [|intros [_ ?]].
    + split; [intros H; by apply not_elem_of_nil in H|by intros [? _]].
Qed.

(** ** Assigning a role *)

Lemma isAssigned_triple (d : OrbitOSDbContext) (userId roleId orgId : Guid) :
  isAssigned d userId roleId orgId = true
  ↔ (userId, roleId, orgId) ∈ triple <$> UserRoles d.
Proof.
  unfold isAssigned. rewrite existsb_exists, list_elem_of_fmap. split.
  - intros (ur & Hin & H). apply andb_prop in H as [H H3].
    apply andb_prop in H as [H1 H2].
    apply Z.eqb_eq in H1, H2, H3. exists ur. unfold triple.
    rewrite H1, H2, H3. by rewrite list_elem_of_In.
  - intros (ur & [= -> -> ->] & Hin). exists ur.
    rewrite <- list_elem_of_In, !Z.eqb_refl. done.
Qed.

(** The unique index of [UserRoles] refuses a row whose triple is taken,
    whatever its key. *)
Lemma UserRoles_unique_index (w : World) (ur : UserRole.t) :
  isAssigned (db w) (UserRole.UserId ur) (UserRole.RoleId ur)
    (UserRole.OrganizationId ur) = true →
  AddRange_SaveChangesAsync UserRolesSet [ur] w = (w, inl DbUpdateException).
Proof.
  intros Has. rewrite AddRange_SaveChangesAsync_run.
  replace (constraintsOk UserRolesSet (db w) [ur]) with false;
    [by rewrite andb_false_r|].
  symmetry. cbn [constraintsOk UserRolesSet]. unfold UserRolesConstraints.
  apply andb_false_intro2. cbn [forallb]. rewrite andb_true_r.
  apply negb_false_iff, bool_decide_eq_true_2.
  by apply isAssigned_triple in Has.
Qed.

(** A successful [assignRole] leaves an assignment row for the triple. *)
Lemma assignRole_assigned (w w1 : World) (userId roleId orgId : Guid) :
  assignRole userId roleId orgId w = (w1, inr tt) →
  isAssigned (db w1) userId roleId orgId = true
  ∧ isMember (db w1) userId orgId = true
  ∧ ∃ role, findRole (db w1) roleId = Some role
            ∧ Role.OrganizationId role = orgId.
Proof.
  unfold assignRole, mbind at 1, Task_bind at 1, getDb.
  destruct (isMember (db w) userId orgId) eqn:Hm; [|done]. cbn [negb].
  destruct (findRole (db w) roleId) as [role|] eqn:Hfind; [|done].
  destruct (Role.OrganizationId role =? orgId) eqn:Horg; [|done].
  apply Z.eqb_eq in Horg. cbn [negb].
  destruct (isAssigned (db w) userId roleId orgId) eqn:Has.
  - intros [= <-]. eauto.
  - unfold mbind, Task_bind, NewGuid, UtcNow, liftStore.
    rewrite AddRange_SaveChangesAsync_run. destruct (_ && _); [|done].
    intros [= <-]. cbn [db advance rowsOf withRows UserRolesSet].
    split; [|split; [exact Hm | eauto]].
    unfold isAssigned. cbn [UserRoles]. rewrite existsb_app.
    apply orb_true_intro. right. cbn. by rewrite !Z.eqb_refl.
Qed.

(** C7. Once a (user, role, organization) triple has been assigned,
    assigning it again succeeds without touching the world: no second
    row is created and the effective permissions of every user in every
    organization are what they were. A second row for the triple written
    directly to the table is refused by its unique index. *)
Theorem assignRole_idempotent (w w1 : World) (userId roleId orgId : Guid) :
  assignRole userId roleId orgId w = (w1, inr tt) →
  ∀ w2, db w2 = db w1 →
    assignRole userId roleId orgId w2 = (w2, inr tt)
    ∧ (∀ u o, effectivePermissions
                (db (assignRole userId roleId orgId w2).1) u o
              = effectivePermissions (db w1) u o)
    ∧ (∀ ur, triple ur = (userId, roleId, orgId) →
         AddRange_SaveChangesAsync UserRolesSet [ur] w2
         = (w2, inl DbUpdateException)).
Proof.
  intros Hrun w2 Hdb.
  apply assignRole_assigned in Hrun as (Has & Hm & role & Hfind & Horg).
  assert (Hagain : assignRole userId roleId orgId w2 = (w2, inr tt)).
  { unfold assignRole, mbind, Task_bind, getDb. rewrite Hdb, Hm, Hfind.
    apply Z.eqb_eq in Horg. by rewrite Horg, Has. }
  split; [exact Hagain|]. split.
  - intros u o. by rewrite Hagain, <- Hdb.
  - intros ur [= Hu Hr Ho]. apply UserRoles_unique_index.
    by rewrite Hdb, Hu, Hr, Ho.
Qed.

(** ** Deleting a role *)

Lemma markDeleted_Id (roleId : Guid) (now : DateTime) (role : Role.t) :
  Role.Id (markDeleted roleId now role) = Role.Id role.
Proof. unfold markDeleted. by destruct (_ =? _). Qed.

Lemma rolesOf_markDeleted (d d' : OrbitOSDbContext) (roleId : Guid)
    (now : DateTime) (userId orgId : Guid) :
  Roles d' = markDeleted roleId now <$> Roles d →
  UserRoles d' = UserRoles d →
  Role.Id <$> rolesOf d' userId orgId
  = Role.Id <$> List.filter (λ role, negb (Role.Id role =? roleId))
                  (rolesOf d userId orgId).
Proof.
  intros HR HU. unfold rolesOf, isAssigned. rewrite HR, HU. clear HR HU.
  induction (Roles d) as [|role rs IH]; [reflexivity|].
  cbn [fmap list_fmap List.filter]. rewrite markDeleted_Id.
  unfold markDeleted at 1. destruct (Role.Id role =? roleId) eqn:Hid.
  - cbn [isDeleted Role.DeletedAt negb andb].
    destruct (negb (isDeleted role) && _); cbn [List.filter].
    + rewrite Hid. cbn [negb]. exact IH.
    + exact IH.
  - destruct (negb (isDeleted role) && _); cbn [List.filter].
    + rewrite Hid. cbn [negb fmap list_fmap].
      f_equal; [apply markDeleted_Id | exact IH].
    + exact IH.
Qed.

Lemma permissionsOf_same (d d' : OrbitOSDbContext) (roleId : Guid) :
  Functions d' = Functions d → RoleFunctions d' = RoleFunctions d →
  permissionsOf d' roleId = permissionsOf d roleId.
Proof.
  intros HF HRF. unfold permissionsOf, grants. by rewrite HF, HRF.
Qed.

Lemma isMember_same (d d' : OrbitOSDbContext) (userId orgId : Guid) :
  OrganizationMemberships d' = OrganizationMemberships d →
  isMember d' userId orgId = isMember d userId orgId.
Proof. intros HM. unfold isMember. by rewrite HM. Qed.

Lemma deleteRole_run (roleId : Guid) (w : World) :
  deleteRole roleId w
  = match findRole (db w) roleId with
    | None => (w, inl NotFound)
    | Some _ =>
        (advance w 1 0 0
           (withRows RolesSet
              (markDeleted roleId (clock w 0%nat) <$> Roles (db w)) (db w)),
         inr tt)
    end.
Proof.
  unfold deleteRole, mbind, Task_bind, getDb.
  by destruct (findRole (db w) roleId).
Qed.

Lemma findRole_None (d : OrbitOSDbContext) (roleId : Guid) (role : Role.t) :
  findRole d roleId = None → role ∈ Roles d → Role.Id role ≠ roleId.
Proof.
  unfold findRole. intros Hnone Hin Heq.
  apply list_elem_of_In in Hin.
  apply (List.find_none _ _ Hnone) in Hin. apply Z.eqb_neq in Hin. done.
Qed.

(** C8. [deleteRole] only stamps the role: the grant rows, the
    assignment rows and every other table are what they were, the other
    roles are untouched and the deleted one differs in its [DeletedAt]
    alone; and from then on the effective permissions of every user in
    every organization are those the other roles give. *)
Theorem deleteRole_soft (roleId : Guid) (w : World) :
  let d := db w in
  let d' := db (deleteRole roleId w).1 in
  RoleFunctions d' = RoleFunctions d
  ∧ UserRoles d' = UserRoles d
  ∧ Functions d' = Functions d
  ∧ OrganizationMemberships d' = OrganizationMemberships d
  ∧ Users d' = Users d
  ∧ Organizations d' = Organizations d
  ∧ (Roles d' = Roles d
     ∨ Roles d' = markDeleted roleId (clock w 0%nat) <$> Roles d)
  ∧ ∀ userId orgId p,
      p ∈ effectivePermissions d' userId orgId
      ↔ isMember d userId orgId = true
        ∧ ∃ role, role ∈ rolesOf d userId orgId ∧ Role.Id role ≠ roleId
                  ∧ p ∈ permissionsOf d (Role.Id role).
Proof.
  intros d d'. subst d'. rewrite deleteRole_run.
  destruct (findRole (db w) roleId) as [found|] eqn:Hfind; cbn [fst db advance].
  - cbn [withRows RolesSet RoleFunctions UserRoles Functions
         OrganizationMemberships Users Organizations Roles].
    repeat (split; [reflexivity|]). split; [by right|].
    intros userId orgId p.
    set (d' := Build_OrbitOSDbContext _ _ _ _ _ _ _).
    unfold effectivePermissions.
    replace (isMember d' userId orgId) with (isMember d userId orgId)
      by reflexivity.
    destruct (isMember d userId orgId);
      [|split; [intros Hp; by apply not_elem_of_empty in Hp | by intros [? _]]].
    rewrite elem_of_union_list. split.
    + intros (X & HX & Hp). split; [done|].
      apply list_elem_of_fmap in HX as (role' & -> & Hr').
      rewrite (permissionsOf_same d d') in Hp by reflexivity.
      assert (Hid : Role.Id role' ∈ Role.Id <$> rolesOf d' userId orgId)
        by (apply list_elem_of_fmap; eauto).
      rewrite (rolesOf_markDeleted d d' roleId (clock w 0%nat)) in Hid
        by reflexivity.
      apply list_elem_of_fmap in Hid as (role & Heq & Hin).
      apply list_elem_of_In, List.filter_In in Hin as [Hin Hne].
      apply negb_true_iff, Z.eqb_neq in Hne.
      exists role. split; [by apply list_elem_of_In|]. split; [done|].
      by rewrite <- Heq.
    + intros (_ & role & Hin & Hne & Hp).
      assert (Hid : Role.Id role ∈ Role.Id <$> rolesOf d' userId orgId).
      { rewrite (rolesOf_markDeleted d d' roleId (clock w 0%nat))
          by reflexivity.
        apply list_elem_of_fmap. exists role. split; [done|].
        apply list_elem_of_In, List.filter_In. rewrite <- list_elem_of_In.
        split; [done|]. by apply negb_true_iff, Z.eqb_neq. }
      apply list_elem_of_fmap in Hid as (role' & Heq & Hin').
      exists (permissionsOf d' (Role.Id role')). split.
      * apply list_elem_of_fmap. eauto.
      * rewrite (permissionsOf_same d d'), <- Heq by reflexivity. done.
  - repeat (split; [reflexivity|]). split; [by left|].
    intros userId orgId p. unfold effectivePermissions. fold d.
    destruct (isMember d userId orgId);
      [|split; [intros Hp; by apply not_elem_of_empty in Hp | by intros [? _]]].
    rewrite elem_of_union_permissions. split.
    + intros (role & Hin & Hp). split; [done|]. exists role.
      split; [done|]. split; [|done].
      apply elem_of_rolesOf in Hin as (Hin & _).
      by apply (findRole_None d).
    + intros (_ & role & Hin & _ & Hp). eauto.
Qed.

(** ** The seeded roles *)

(** C5. Seeding is idempotent: after a run that reached its end, a
    second run — whatever the clock, the identifiers and the random bytes
    it would read — returns without an error and leaves the world, hence
    every table, exactly as the first run left it. *)
Theorem SeedAsync_idempotent (w w1 : World) :
  SeedAsync w = (w1, inr tt) →
  ∀ w2, db w2 = db w1 → SeedAsync w2 = (w2, inr tt).
Proof.
  intros Hrun w2 Hdb. apply SeedAsync_noop. rewrite Hdb.
  by apply (SeedAsync_run w w1 (inr tt)).
Qed.

Lemma seededDb_inRugertek (w : World) : inRugertek (seededDb w).
Proof.
  repeat split; cbn [seededDb Organizations OrganizationMemberships Functions
                     Roles UserRoles];
    first [apply systemFunctions_inRugertek | apply roles_inRugertek
          | repeat constructor].
Qed.

Lemma seededDb_tenantClosed (w : World) : tenantClosed (seededDb w) = true.
Proof. reflexivity. Qed.

(** C10. Whatever the database it starts from, a run of the seeder only
    appends rows, and every row it appends that carries an
    [OrganizationId] — functions, roles, the membership, the assignment —
    carries the seeded organization, the only organization it adds. On an
    empty database the run reaches its end and every reference of the
    result is closed within that one organization: nothing dangles and
    nothing crosses to another tenant. *)
Theorem SeedAsync_single_tenant (w w' : World) (r : Exception + unit) :
  SeedAsync w = (w', r) →
  seeds (db w) (db w')
  ∧ (db w = emptyDb → distinctGuids w seededRoleFunctionCount →
     r = inr tt ∧ inRugertek (db w') ∧ tenantClosed (db w') = true
     ∧ keys (Organizations (db w')) = [SeedIds.Organizations.Rugertek]).
Proof.
  intros Hrun. split; [by apply (SeedAsync_run w w' r)|].
  intros Hdb Hguids. rewrite (SeedAsync_fresh w Hdb Hguids) in Hrun.
  injection Hrun as <- <-. cbn [db advance].
  split; [reflexivity|]. split; [apply seededDb_inRugertek|].
  split; [apply seededDb_tenantClosed | reflexivity].
Qed.

Lemma permissionsOf_catalog (d : OrbitOSDbContext) (roleId : Guid) :
  permissionsOf d roleId ⊆ catalog d.
Proof.
  intros p Hp. apply elem_of_permissionsOf in Hp as (f & Hf & _ & <-).
  unfold catalog. apply elem_of_list_to_set, list_elem_of_fmap. eauto.
Qed.

(** Whatever the rows, only names of the catalog are effective. *)
Lemma effectivePermissions_catalog (d : OrbitOSDbContext)
    (userId orgId : Guid) :
  effectivePermissions d userId orgId ⊆ catalog d.
Proof.
  intros p Hp. apply elem_of_effectivePermissions in Hp
    as (_ & role & f & _ & _ & _ & Hf & _ & <-).
  unfold catalog. apply elem_of_list_to_set, list_elem_of_fmap. eauto.
Qed.

Lemma permissionsOf_effective (d : OrbitOSDbContext) (userId orgId : Guid)
    (role : Role.t) :
  isMember d userId orgId = true →
  role ∈ rolesOf d userId orgId →
  permissionsOf d (Role.Id role) ⊆ effectivePermissions d userId orgId.
Proof.
  intros Hm Hr p Hp. unfold effectivePermissions. rewrite Hm.
  apply elem_of_union_permissions. eauto.
Qed.

Lemma filter_forallb {A} (p : A → bool) (l : list A) :
  forallb p l = true → List.filter p l = l.
Proof.
  induction l as [|x l IH]; [reflexivity|]. cbn [forallb List.filter].
  intros H. apply andb_prop in H as [-> H]. by rewrite IH.
Qed.

Lemma seeded_SuperAdmin_permissions (w : World) :
  permissionsOf (seededDb w) SeedIds.Roles.SuperAdmin = catalog (seededDb w).
Proof.
  unfold permissionsOf, catalog. rewrite filter_forallb; [reflexivity|].
  unfold grants. cbn [seededDb Functions RoleFunctions].
  vm_compute. reflexivity.
Qed.

Lemma seeded_grants_known (w : World) (roleId : Guid) (f : Function.t) :
  grants (seededDb w) roleId f = true →
  hasKey (Functions (seededDb w)) (Function.Id f) = true.
Proof.
  unfold grants. rewrite existsb_exists. intros (rf & Hin & H).
  apply andb_prop in H as [_ H]. apply Z.eqb_eq in H. rewrite <- H.
  assert (Hall : forallb (λ rf, hasKey (Functions (seededDb w))
                                  (RoleFunction.FunctionId rf))
                   (RoleFunctions (seededDb w)) = true) by (vm_compute; reflexivity).
  rewrite forallb_forall in Hall. by apply Hall.
Qed.

Lemma grants_same (d d' : OrbitOSDbContext) (roleId : Guid) (f : Function.t) :
  RoleFunctions d' = RoleFunctions d → grants d' roleId f = grants d roleId f.
Proof. intros H. unfold grants. by rewrite H. Qed.

(** Registering a function: a row with a key the table does not hold is
    appended to [Functions]. *)
Lemma register_run (w : World) (f : Function.t) :
  hasKey (Functions (db w)) (Function.Id f) = false →
  AddRange_SaveChangesAsync FunctionsSet [f] w
  = (advance w 0 0 0 (withRows FunctionsSet (Functions (db w) ++ [f]) (db w)),
     inr tt).
Proof.
  intros Hkey. rewrite AddRange_SaveChangesAsync_run.
  replace (primaryKeyOk (rowsOf FunctionsSet (db w)) [f]) with true;
    [reflexivity|].
  symmetry. unfold primaryKeyOk. apply andb_true_intro. split.
  - apply bool_decide_eq_true_2. apply NoDup_singleton.
  - cbn [forallb rowsOf FunctionsSet]. unfold hasKey in Hkey.
    cbn [entityId Function_entity]. by rewrite Hkey.
Qed.

(** Granting a function to a role: a row with a key the table does not
    hold is appended to [RoleFunctions]. *)
Lemma grant_run (w : World) (rf : RoleFunction.t) :
  hasKey (RoleFunctions (db w)) (RoleFunction.Id rf) = false →
  AddRange_SaveChangesAsync RoleFunctionsSet [rf] w
  = (advance w 0 0 0
       (withRows RoleFunctionsSet (RoleFunctions (db w) ++ [rf]) (db w)),
     inr tt).
Proof.
  intros Hkey. rewrite AddRange_SaveChangesAsync_run.
  replace (primaryKeyOk (rowsOf RoleFunctionsSet (db w)) [rf]) with true;
    [reflexivity|].
  symmetry. unfold primaryKeyOk. apply andb_true_intro. split.
  - apply bool_decide_eq_true_2. apply NoDup_singleton.
  - cbn [forallb rowsOf RoleFunctionsSet]. unfold hasKey in Hkey.
    cbn [entityId RoleFunction_entity]. by rewrite Hkey.
Qed.


(** C4, as amended. On a first start the seeder grants the Viewer role
    only functions whose name ends in [.view], and all of those of the
    catalog but two: a catalog function is granted to Viewer exactly when
    its name matches [*.view] and is neither [users.activity.view] nor
    [organization.auditlog.view]. *)
Theorem Viewer_granted_views (w : World) :
  db w = emptyDb → distinctGuids w seededRoleFunctionCount →
  let d := db (SeedAsync w).1 in
  (SeedAsync w).2 = inr tt
  ∧ ∀ f, f ∈ Functions d →
      (grants d SeedIds.Roles.Viewer f = true
       ↔ isViewPermission (Function.Name f) = true
         ∧ Function.Name f ≠ SystemFunctions.UserManagement.ViewUserActivity
         ∧ Function.Name f
           ≠ SystemFunctions.OrganizationManagement.ViewAuditLog).
Proof.
  intros Hdb Hguids d. subst d. rewrite (SeedAsync_fresh w Hdb Hguids).
  cbn [fst snd db advance]. split; [reflexivity|].
  assert (Hall : forallb (λ f,
            Bool.eqb (grants (seededDb w) SeedIds.Roles.Viewer f)
              (isViewPermission (Function.Name f)
               && negb (String.eqb (Function.Name f)
                          SystemFunctions.UserManagement.ViewUserActivity)
               && negb (String.eqb (Function.Name f)
                          SystemFunctions.OrganizationManagement.ViewAuditLog)))
            (Functions (seededDb w)) = true)
    by (vm_compute; reflexivity).
  rewrite forallb_forall in Hall. intros f Hf.
  apply list_elem_of_In, Hall, Bool.eqb_prop in Hf. rewrite Hf.
  rewrite !andb_true_iff, !negb_true_iff, !String.eqb_neq. tauto.
Qed.

(** * Further properties of the code *)

(** ** The password hasher, continued *)

Lemma to_N_inj (a b : byte) : Byte.to_N a = Byte.to_N b → a = b.
Proof.
  intros H. assert (Some a = Some b) as [= ->]; [|reflexivity].
  by rewrite <- (Byte.of_to_N a), <- (Byte.of_to_N b), H.
Qed.

Lemma accumulate_zero (accum : Z) (left right : list byte) :
  length left = length right →
  accumulate accum left right = 0 ↔ accum = 0 ∧ left = right.
Proof.
  revert accum right.
  induction left as [|l left IH]; intros accum [|r right] Hlen;
    try discriminate.
  - cbn [accumulate]. by split; [|intros [? _]].
  - cbn [accumulate]. rewrite IH by (by injection Hlen).
    rewrite Z.lor_eq_0_iff. split.
    + intros [[Ha Hd] ->]. split; [exact Ha|]. f_equal.
      apply to_N_inj. lia.
    + intros [Ha [= -> ->]]. rewrite Z.sub_diag. done.
Qed.

(** [FixedTimeEquals] tells whether the arrays are equal. *)
Lemma FixedTimeEquals_true (left right : list byte) :
  FixedTimeEquals left right = true ↔ left = right.
Proof.
  unfold FixedTimeEquals.
  destruct (length left =? length right)%nat eqn:Hlen; cbn [negb].
  - apply Nat.eqb_eq in Hlen. rewrite Z.eqb_eq, accumulate_zero by done.
    by split; [intros [_ ?]|].
  - apply Nat.eqb_neq in Hlen. split; [discriminate|]. by intros ->.
Qed.

Lemma VerifyPassword_run (password passwordHash : string)
    (hashBytes : list byte) :
  FromBase64String passwordHash = inr hashBytes →
  (SaltSize ≤ length hashBytes)%nat →
  VerifyPassword password passwordHash
  = inr (FixedTimeEquals
           (Rfc2898DeriveBytes_GetBytes password (take SaltSize hashBytes)
              Iterations SHA256 HashSize)
           (drop SaltSize hashBytes)).
Proof.
  intros Hdecode Hlen. unfold VerifyPassword. rewrite Hdecode.
  cbn [mbind sum_bind]. unfold GetSubArray.
  rewrite (proj2 (Nat.leb_le _ _) Hlen), Nat.leb_refl.
  cbn [Nat.leb andb mbind sum_bind mret sum_ret].
  rewrite drop_0, Nat.sub_0_r.
  by rewrite (take_ge (drop SaltSize hashBytes)) by (rewrite length_drop; lia).
Qed.

(** X1. The answer of [VerifyPassword] on a stored text that decodes to
    sixteen bytes or more: it does not raise, and it answers [true]
    exactly when the bytes after the first sixteen are the 32-byte key
    derived from the password with the first sixteen bytes as salt. *)
Theorem VerifyPassword_decides (password passwordHash : string)
    (hashBytes : list byte) :
  FromBase64String passwordHash = inr hashBytes →
  (SaltSize ≤ length hashBytes)%nat →
  ∃ answer,
    VerifyPassword password passwordHash = inr answer
    ∧ (answer = true
       ↔ drop SaltSize hashBytes
         = Rfc2898DeriveBytes_GetBytes password (take SaltSize hashBytes)
             Iterations SHA256 HashSize).
Proof.
  intros Hdecode Hlen. eexists.
  split; [by apply VerifyPassword_run|].
  rewrite FixedTimeEquals_true. split; congruence.
Qed.

Lemma VerifyPassword_short (password passwordHash : string)
    (hashBytes : list byte) :
  FromBase64String passwordHash = inr hashBytes →
  (length hashBytes < SaltSize)%nat →
  VerifyPassword password passwordHash = inl ArgumentOutOfRangeException.
Proof.
  intros Hdecode Hlen. unfold VerifyPassword. rewrite Hdecode.
  cbn [mbind sum_bind]. unfold GetSubArray.
  replace (SaltSize <=? length hashBytes)%nat with false
    by (symmetry; apply Nat.leb_gt; exact Hlen).
  reflexivity.
Qed.

(** X2. When [VerifyPassword] raises instead of answering: exactly when
    the stored text is not Base64 ([FormatException]) or decodes to fewer
    than sixteen bytes ([ArgumentOutOfRangeException] at the range
    [[..SaltSize]]). The empty text is of the second kind: it is not
    answered with [false]. *)
Theorem VerifyPassword_raises (password passwordHash : string) :
  ((∃ answer, VerifyPassword password passwordHash = inr answer)
   ↔ ∃ hashBytes, FromBase64String passwordHash = inr hashBytes
                  ∧ (SaltSize ≤ length hashBytes)%nat)
  ∧ (FromBase64String passwordHash = inl FormatException →
     VerifyPassword password passwordHash = inl FormatException)
  ∧ (∀ hashBytes, FromBase64String passwordHash = inr hashBytes →
       (length hashBytes < SaltSize)%nat →
       VerifyPassword password passwordHash = inl ArgumentOutOfRangeException)
  ∧ VerifyPassword password "" = inl ArgumentOutOfRangeException.
Proof.
  pose proof (VerifyPassword_short password passwordHash) as Hshort.
  split; [|split; [|split; [exact Hshort|reflexivity]]].
  - split.
    + intros [answer Hanswer].
      destruct (FromBase64String passwordHash) as [e|hashBytes] eqn:Hdecode.
      * unfold VerifyPassword in Hanswer. rewrite Hdecode in Hanswer.
        discriminate Hanswer.
      * exists hashBytes. split; [reflexivity|].
        destruct (le_lt_dec SaltSize (length hashBytes)) as [Hle|Hlt];
          [exact Hle|].
        rewrite (Hshort hashBytes eq_refl Hlt) in Hanswer.
        discriminate Hanswer.
    + intros (hashBytes & Hdecode & Hlen). eexists.
      by apply (VerifyPassword_run password passwordHash hashBytes).
  - intros Hdecode. unfold VerifyPassword. by rewrite Hdecode.
Qed.

Lemma encode_length (bs : list byte) :
  length (Base64.encode bs) = (4 * ((length bs + 2) / 3))%nat.
Proof.
  assert (H : ∀ n (bs : list byte), (length bs < n)%nat →
                length (Base64.encode bs) = (4 * ((length bs + 2) / 3))%nat).
  { clear bs. induction n as [|n IH]; intros bs Hlen; [lia|].
    destruct bs as [|b1 [|b2 [|b3 rest]]]; [reflexivity..|].
    change (Base64.encode (b1 :: b2 :: b3 :: rest))
      with (Base64.quad b1 b2 b3 ++ Base64.encode rest).
    rewrite length_app, IH by (simpl in Hlen; lia).
    cbn [length Base64.quad].
    replace (S (S (S (length rest))) + 2)%nat
      with ((length rest + 2) + 1 * 3)%nat by lia.
    rewrite Nat.div_add by lia. lia. }
  apply (H (S (length bs))). lia.
Qed.

Lemma string_of_list_ascii_length (l : list ascii) :
  String.length (string_of_list_ascii l) = length l.
Proof. induction l as [|c l IH]; [reflexivity|]. cbn. by rewrite IH. Qed.

(** X3. The text [HashPassword] stores is always 64 characters long —
    48 bytes in Base64, without padding — so it fits the [PasswordHash]
    column the migration adds. *)
Theorem HashPassword_length (password : string) (w : World) :
  ∃ w' passwordHash,
    HashPassword password w = (w', inr passwordHash)
    ∧ String.length passwordHash = 64%nat
    ∧ (String.length passwordHash ≤ PasswordHash_maxLength)%nat
    ∧ Base64.pad ∉ list_ascii_of_string passwordHash.
Proof.
  eexists _, _. split; [apply HashPassword_stores|].
  set (salt := entropy w <$> seq 0 SaltSize).
  set (hash := Rfc2898DeriveBytes_GetBytes _ _ _ _ _).
  assert (Hlen : length (salt ++ hash) = 48%nat).
  { rewrite length_app. unfold salt, hash.
    by rewrite length_fmap, length_seq, GetBytes_length. }
  assert (H64 : String.length (ToBase64String (salt ++ hash)) = 64%nat).
  { unfold ToBase64String.
    by rewrite string_of_list_ascii_length, encode_length, Hlen. }
  split; [exact H64|]. split; [rewrite H64; unfold PasswordHash_maxLength; lia|].
  unfold ToBase64String. rewrite list_ascii_of_string_of_list_ascii.
  intros Hpad.
  assert (Hdec := decode_encode (salt ++ hash)).
  assert (Hnopad : ∀ n (bs : list byte), (length bs = 3 * n)%nat →
                     Base64.pad ∉ Base64.encode bs).
  { clear. induction n as [|n IH]; intros bs Hn.
    - destruct bs; [|discriminate]. apply not_elem_of_nil.
    - destruct bs as [|b1 [|b2 [|b3 rest]]]; try (cbn in Hn; lia).
      change (Base64.encode (b1 :: b2 :: b3 :: rest))
        with (Base64.quad b1 b2 b3 ++ Base64.encode rest).
      rewrite elem_of_app. intros [Hq|Hr].
      + pose proof (group_bound b1 b2 b3) as Hg. unfold Base64.quad in Hq.
        set (g := Base64.group b1 b2 b3) in *.
        assert (Hs : ∀ s, (s < 64)%N → Base64.pad ≠ Base64.char_of_sextet s).
        { intros s Hs Heq. destruct (sextet_table s Hs) as (_ & Hp & _).
          rewrite <- Heq in Hp. discriminate Hp. }
        repeat (apply elem_of_cons in Hq as [Hq|Hq];
                [revert Hq; apply Hs;
                 zify; Z.to_euclidean_division_equations; lia|]).
        by apply not_elem_of_nil in Hq.
      + revert Hr. apply IH. cbn in Hn. lia. }
  by apply (Hnopad 16%nat (salt ++ hash)).
Qed.

Lemma ToBase64String_inj (a b : list byte) :
  ToBase64String a = ToBase64String b → a = b.
Proof.
  intros H. assert (inr a = (inr b : Exception + list byte)) as [= ->];
    [|reflexivity].
  by rewrite <- (FromBase64String_ToBase64String a),
             <- (FromBase64String_ToBase64String b), H.
Qed.

(** X4. The stored text determines the salt and the derived key: two
    calls of [HashPassword] that store the same text drew the same salt
    and derived the same key. Other random bytes give another text, also
    for the same password. *)
Theorem HashPassword_salted (password password' : string) (w w' : World) :
  (HashPassword password w).2 = (HashPassword password' w').2 →
  entropy w <$> seq 0 SaltSize = entropy w' <$> seq 0 SaltSize
  ∧ Rfc2898DeriveBytes_GetBytes password (entropy w <$> seq 0 SaltSize)
      Iterations SHA256 HashSize
    = Rfc2898DeriveBytes_GetBytes password' (entropy w' <$> seq 0 SaltSize)
        Iterations SHA256 HashSize.
Proof.
  rewrite !HashPassword_stores. cbn [snd]. intros H.
  apply (inj inr), ToBase64String_inj in H.
  apply app_inj_1 in H; [exact H|].
  by rewrite !length_fmap, !length_seq.
Qed.

(** X5. The controller's copy of the verifier answers as
    [PasswordHasher.VerifyPassword] does on every password and stored
    text, so a login with the password a hash was made from is accepted:
    it accepts what [HashPassword] stores. *)
Theorem AuthController_VerifyPassword_agrees (password : string) :
  (∀ passwordHash,
     AuthController_VerifyPassword password passwordHash
     = VerifyPassword password passwordHash)
  ∧ ∀ w, ∃ w' passwordHash,
      HashPassword password w = (w', inr passwordHash)
      ∧ AuthController_VerifyPassword password passwordHash = inr true.
Proof.
  split; [reflexivity|]. intros w. eexists _, _.
  split; [apply HashPassword_stores|].
  apply VerifyPassword_salted. by rewrite length_fmap, length_seq.
Qed.

(** X6. After a first start the seeded credentials verify: the table
    holds one user, [rodrigo@rugertek.com], whose stored hash both
    verifiers accept for the password "123456" — and for no password
    whose derived key differs. *)
Theorem seeded_user_password (w : World) :
  db w = emptyDb → distinctGuids w seededRoleFunctionCount →
  ∃ u passwordHash,
    Users (db (SeedAsync w).1) = [u]
    ∧ User.Email u = "rodrigo@rugertek.com"
    ∧ User.PasswordHash u = Some passwordHash
    ∧ VerifyPassword "123456" passwordHash = inr true
    ∧ AuthController_VerifyPassword "123456" passwordHash = inr true
    ∧ ∀ password,
        VerifyPassword password passwordHash = inr true →
        Rfc2898DeriveBytes_GetBytes password (entropy w <$> seq 0 SaltSize)
          Iterations SHA256 HashSize
        = Rfc2898DeriveBytes_GetBytes "123456" (entropy w <$> seq 0 SaltSize)
            Iterations SHA256 HashSize.
Proof.
  intros Hdb Hguids. rewrite (SeedAsync_fresh w Hdb Hguids).
  cbn [fst db advance seededDb Users]. eexists _, _.
  split; [reflexivity|]. split; [reflexivity|]. split; [reflexivity|].
  assert (Hsalt : length (entropy w <$> seq 0 SaltSize) = SaltSize)
    by (by rewrite length_fmap, length_seq).
  split; [by apply VerifyPassword_salted|].
  split; [by apply VerifyPassword_salted|].
  intros password Hverify. unfold seededPasswordHash in Hverify.
  set (salt := entropy w <$> seq 0 SaltSize) in *.
  set (hash := Rfc2898DeriveBytes_GetBytes "123456" salt _ _ _) in *.
  assert (Hlen : (SaltSize ≤ length (salt ++ hash))%nat)
    by (rewrite length_app, Hsalt; lia).
  rewrite (VerifyPassword_run password _ (salt ++ hash)
             (FromBase64String_ToBase64String _) Hlen) in Hverify.
  apply (inj inr), FixedTimeEquals_true in Hverify.
  by rewrite drop_app_length', take_app_length' in Hverify.
Qed.

(** ** The seeder, continued *)

Lemma untouched_empty (d : OrbitOSDbContext) : untouched d emptyDb.
Proof. by repeat split. Qed.

Lemma keeps_refl (d : OrbitOSDbContext) : keeps d d.
Proof.
  exists emptyDb. split; [by rewrite appendDb_empty | apply untouched_empty].
Qed.

Lemma keeps_trans (d1 d2 d3 : OrbitOSDbContext) :
  keeps d1 d2 → keeps d2 d3 → keeps d1 d3.
Proof.
  intros (a & -> & Ha) (b & -> & Hb). exists (appendDb a b).
  split; [apply appendDb_assoc|].
  destruct Ha as (A1 & A2 & A3 & A4 & A5 & A6 & A7).
  destruct Hb as (B1 & B2 & B3 & B4 & B5 & B6 & B7).
  cbn [appendDb Organizations Users OrganizationMemberships Functions Roles
       RoleFunctions UserRoles] in *.
  repeat split; intros H; cbn [appendDb Organizations Users
    OrganizationMemberships Functions Roles RoleFunctions UserRoles].
  - rewrite A1, B1; [done| |done]. by rewrite existsb_app, H.
  - rewrite A2, B2; [done| |done]. by rewrite existsb_app, H.
  - rewrite A3, B3; [done| |done]. by rewrite existsb_app, H.
  - rewrite A4, B4; [done| |done]. by rewrite existsb_app, H.
  - rewrite A5, B5; [done| |done]. by rewrite existsb_app, H.
  - rewrite A6, B6; [done| |done]. by rewrite existsb_app, H.
  - rewrite A7, B7; [done| |done]. by rewrite existsb_app, H.
Qed.

Lemma effect_seq (m1 m2 : Task Exception unit) :
  effect m1 → effect m2 → effect (m1;; m2).
Proof.
  intros H1 H2 w w' r.
  destruct (m1 w) as [w1 [e|[]]] eqn:Hrun1.
  - rewrite (bind_raise _ _ _ _ _ Hrun1). intros [= <- <-].
    by apply H1.
  - rewrite (bind_run _ _ _ _ _ Hrun1). intros Hrun2.
    apply H1 in Hrun1 as [K1 _]. apply H2 in Hrun2 as [K2 Hr].
    split; [by apply (keeps_trans _ _ _ K1 K2) | exact Hr].
Qed.

(** A step of the shape [seedUnless] has the effect above, provided the
    rows it saves go to the table its test looks at. *)
Lemma seedUnless_effect {A} `{BaseEntity A} (set : DbSet A)
    (predicate : A → bool) (build : Task Exception (list A)) :
  lawful set →
  (∀ w0, ∃ w1 rows, build w0 = (w1, inr rows) ∧ db w1 = db w0) →
  (∀ d rows, existsb predicate (rowsOf set d) = false →
             untouched d (withRows set rows emptyDb)) →
  effect (seedUnless set predicate build).
Proof.
  intros [Hget Hput] Hbuild Hrows w w' r. unfold seedUnless.
  rewrite (bind_run _ _ _ _ _ (AnyAsync_run _ _ _)).
  destruct (existsb predicate (rowsOf set (db w))) eqn:Hseeded.
  - intros [= <- <-]. split; [apply keeps_refl | by left].
  - destruct (Hbuild w) as (w1 & rows & Hrun & Hdb).
    rewrite (bind_run _ _ _ _ _ Hrun), AddRange_SaveChangesAsync_run, Hdb.
    destruct (_ && _); intros [= <- <-].
    + split; [|by left]. cbn [advance db]. rewrite Hput.
      eexists. split; [reflexivity|]. by apply Hrows.
    + split; [|by right]. rewrite Hdb. apply keeps_refl.
Qed.

Ltac own_table :=
  let d := fresh "d" in
  let rows := fresh "rows" in
  let Hnone := fresh "Hnone" in
  intros d rows Hnone; cbn in Hnone;
  repeat split; cbn; intros; congruence.

Ltac builds :=
  let w0 := fresh "w0" in
  intros w0; eexists _, _; split; [reflexivity|reflexivity].

Lemma SeedOrganizationsAsync_effect : effect SeedOrganizationsAsync.
Proof.
  intros w.
  change (SeedOrganizationsAsync w)
    with (seedUnless OrganizationsSet
            (λ o, Organization.Id o =? SeedIds.Organizations.Rugertek)
            (createdAt ← UtcNow; updatedAt ← UtcNow;
             mret [organization createdAt updatedAt]) w).
  revert w. apply seedUnless_effect;
    [apply OrganizationsSet_lawful | builds | own_table].
Qed.

Lemma SeedUsersAsync_effect : effect SeedUsersAsync.
Proof.
  intros w.
  change (SeedUsersAsync w)
    with (seedUnless UsersSet (λ u, User.Id u =? SeedIds.Users.Rodrigo)
            (passwordHash ← HashPassword "123456";
             createdAt ← UtcNow; updatedAt ← UtcNow;
             mret [user passwordHash createdAt updatedAt]) w).
  revert w. apply seedUnless_effect;
    [apply UsersSet_lawful | | own_table].
  intros w0. eexists _, _. split.
  - erewrite bind_run; [|apply HashPassword_stores]. reflexivity.
  - reflexivity.
Qed.

Lemma SeedOrganizationMembershipsAsync_effect :
  effect SeedOrganizationMembershipsAsync.
Proof.
  intros w.
  change (SeedOrganizationMembershipsAsync w)
    with (seedUnless OrganizationMembershipsSet
            (λ m, OrganizationMembership.Id m
                  =? SeedIds.Memberships.RodrigoRugertek)
            (createdAt ← UtcNow; updatedAt ← UtcNow;
             mret [membership createdAt updatedAt]) w).
  revert w. apply seedUnless_effect;
    [apply OrganizationMembershipsSet_lawful | builds | own_table].
Qed.

Lemma SeedFunctionsAsync_effect : effect SeedFunctionsAsync.
Proof.
  intros w.
  change (SeedFunctionsAsync w)
    with (seedUnless FunctionsSet
            (λ f, Function.Id f =? SeedIds.Functions.UsersView)
            GetSystemFunctions w).
  revert w. apply seedUnless_effect;
    [apply FunctionsSet_lawful | builds | own_table].
Qed.

Lemma SeedRolesAsync_effect : effect SeedRolesAsync.
Proof.
  intros w.
  change (SeedRolesAsync w)
    with (seedUnless RolesSet (λ r, Role.Id r =? SeedIds.Roles.SuperAdmin)
            (now ← UtcNow; mret (roles now)) w).
  revert w. apply seedUnless_effect;
    [apply RolesSet_lawful | builds | own_table].
Qed.

Lemma SeedRoleFunctionsAsync_effect : effect SeedRoleFunctionsAsync.
Proof.
  intros w w' r. unfold SeedRoleFunctionsAsync.
  rewrite (bind_run _ _ _ _ _ (AnyAsync_run _ _ _)).
  destruct (existsb _ _) eqn:Hseeded.
  - intros [= <- <-]. split; [apply keeps_refl | by left].
  - unfold mbind at 1, Task_bind at 1, UtcNow.
    rewrite (bind_run _ _ _ _ _ (addRoleFunctions_run _ _ _ _)).
    rewrite (bind_run _ _ _ _ _ (addRoleFunctions_run _ _ _ _)).
    rewrite (bind_run _ _ _ _ _ (addRoleFunctions_run _ _ _ _)).
    rewrite (bind_run _ _ _ _ _ (addRoleFunctions_run _ _ _ _)).
    rewrite AddRange_SaveChangesAsync_run.
    destruct (_ && _); intros [= <- <-].
    + split; [|by left].
      exists (withRows RoleFunctionsSet
                (seededRoleFunctions (clock w 0%nat) (guids w)) emptyDb).
      split.
      * unfold appendDb. cbn [withRows RoleFunctionsSet emptyDb Organizations
          Users OrganizationMemberships Functions Roles RoleFunctions
          UserRoles]. rewrite !app_nil_r. reflexivity.
      * cbn in Hseeded. repeat split; cbn; intros; congruence.
    + split; [apply keeps_refl | by right].
Qed.

Lemma SeedUserRolesAsync_effect : effect SeedUserRolesAsync.
Proof.
  intros w.
  change (SeedUserRolesAsync w)
    with (seedUnless UserRolesSet
            (λ ur, UserRole.Id ur =? SeedIds.UserRoles.RodrigoSuperAdmin)
            (createdAt ← UtcNow; updatedAt ← UtcNow;
             mret [userRole createdAt updatedAt]) w).
  revert w. apply seedUnless_effect;
    [apply UserRolesSet_lawful | builds | own_table].
Qed.

Lemma SeedAsync_effect : effect SeedAsync.
Proof.
  unfold SeedAsync.
  repeat (apply effect_seq;
          [first [ apply SeedOrganizationsAsync_effect
                 | apply SeedUsersAsync_effect
                 | apply SeedOrganizationMembershipsAsync_effect
                 | apply SeedFunctionsAsync_effect
                 | apply SeedRolesAsync_effect
                 | apply SeedRoleFunctionsAsync_effect ]|]).
  apply SeedUserRolesAsync_effect.
Qed.

(** X7. The only exception a run of the seeder can raise is
    [DbUpdateException], from a save the keys or the constraints of a
    table refuse: hashing the seeded password never raises, whatever the
    random bytes. A run that raises has removed no row. *)
Theorem SeedAsync_raises_DbUpdateException (w w' : World) (e : Exception) :
  SeedAsync w = (w', inl e) →
  e = DbUpdateException ∧ ∃ added, db w' = appendDb (db w) added.
Proof.
  intros Hrun. apply SeedAsync_effect in Hrun as [(added & Hdb & _) Hr].
  split; [|eauto]. destruct Hr as [Hr|Hr]; congruence.
Qed.

(** X8. A run of the seeder leaves alone every table in which its test
    finds the row it looks for — whether it returns or raises, and
    whatever else the table lacks. In particular a [RoleFunctions] table
    that holds any row at all gets none of the seeded grants, and a
    [Functions] table that holds [users.view] gets none of the other
    functions. *)
Theorem SeedAsync_keeps_seeded_tables (w w' : World) (r : Exception + unit) :
  SeedAsync w = (w', r) →
  (existsb (λ o, Organization.Id o =? SeedIds.Organizations.Rugertek)
     (Organizations (db w)) = true →
   Organizations (db w') = Organizations (db w))
  ∧ (existsb (λ u, User.Id u =? SeedIds.Users.Rodrigo) (Users (db w)) = true →
     Users (db w') = Users (db w))
  ∧ (existsb (λ m, OrganizationMembership.Id m
                   =? SeedIds.Memberships.RodrigoRugertek)
       (OrganizationMemberships (db w)) = true →
     OrganizationMemberships (db w') = OrganizationMemberships (db w))
  ∧ (existsb (λ f, Function.Id f =? SeedIds.Functions.UsersView)
       (Functions (db w)) = true →
     Functions (db w') = Functions (db w))
  ∧ (existsb (λ r, Role.Id r =? SeedIds.Roles.SuperAdmin) (Roles (db w))
     = true →
     Roles (db w') = Roles (db w))
  ∧ (RoleFunctions (db w) ≠ [] →
     RoleFunctions (db w') = RoleFunctions (db w))
  ∧ (existsb (λ ur, UserRole.Id ur =? SeedIds.UserRoles.RodrigoSuperAdmin)
       (UserRoles (db w)) = true →
     UserRoles (db w') = UserRoles (db w)).
Proof.
  intros Hrun.
  apply SeedAsync_effect in Hrun
    as [(added & -> & K1 & K2 & K3 & K4 & K5 & K6 & K7) _].
  cbn [appendDb Organizations Users OrganizationMemberships Functions Roles
       RoleFunctions UserRoles].
  repeat split; intros H.
  - by rewrite K1, app_nil_r.
  - by rewrite K2, app_nil_r.
  - by rewrite K3, app_nil_r.
  - by rewrite K4, app_nil_r.
  - by rewrite K5, app_nil_r.
  - rewrite K6, app_nil_r; [done|].
    destruct (RoleFunctions (db w)); [done|reflexivity].
  - by rewrite K7, app_nil_r.
Qed.

(** X9. A first start: on an empty database, with the identifiers
    [Guid.NewGuid] hands out pairwise different, the seeder returns
    without raising and leaves one organization, one user, one
    membership, the 33 functions, the 4 roles, 77 grants and one
    assignment. *)
Theorem SeedAsync_first_start (w : World) :
  db w = emptyDb → distinctGuids w seededRoleFunctionCount →
  let d := db (SeedAsync w).1 in
  (SeedAsync w).2 = inr tt
  ∧ length (Organizations d) = 1%nat
  ∧ length (Users d) = 1%nat
  ∧ length (OrganizationMemberships d) = 1%nat
  ∧ length (Functions d) = 33%nat
  ∧ length (Roles d) = 4%nat
  ∧ length (RoleFunctions d) = 77%nat
  ∧ length (UserRoles d) = 1%nat.
Proof.
  intros Hdb Hguids d. subst d. rewrite (SeedAsync_fresh w Hdb Hguids).
  cbn [fst snd db advance]. repeat split.
Qed.

(** X10. The seeder looks for its assignment by key, the table's unique
    index by triple. When the seeded user already holds the Super
    Administrator role of the seeded organization under another key,
    [SeedUserRolesAsync] raises [DbUpdateException] and adds nothing; and
    when the other six tables are seeded, so does every run of
    [SeedAsync]. *)
Theorem SeedUserRolesAsync_conflict (w : World) :
  existsb (λ ur, UserRole.Id ur =? SeedIds.UserRoles.RodrigoSuperAdmin)
    (UserRoles (db w)) = false →
  isAssigned (db w) SeedIds.Users.Rodrigo SeedIds.Roles.SuperAdmin
    SeedIds.Organizations.Rugertek = true →
  (SeedUserRolesAsync w).2 = inl DbUpdateException
  ∧ db (SeedUserRolesAsync w).1 = db w
  ∧ (existsb (λ o, Organization.Id o =? SeedIds.Organizations.Rugertek)
       (Organizations (db w))
     && existsb (λ u, User.Id u =? SeedIds.Users.Rodrigo) (Users (db w))
     && existsb (λ m, OrganizationMembership.Id m
                      =? SeedIds.Memberships.RodrigoRugertek)
          (OrganizationMemberships (db w))
     && existsb (λ f, Function.Id f =? SeedIds.Functions.UsersView)
          (Functions (db w))
     && existsb (λ r, Role.Id r =? SeedIds.Roles.SuperAdmin) (Roles (db w))
     && existsb (λ _, true) (RoleFunctions (db w)) = true →
     (SeedAsync w).2 = inl DbUpdateException ∧ db (SeedAsync w).1 = db w).
Proof.
  intros Hkey Htriple.
  assert (Hstep : ∀ w0, db w0 = db w →
            ∃ w1, SeedUserRolesAsync w0 = (w1, inl DbUpdateException)
                  ∧ db w1 = db w).
  { intros w0 Hdb0. unfold SeedUserRolesAsync.
    rewrite (bind_run _ _ _ _ _ (AnyAsync_run _ _ _)).
    cbn [rowsOf UserRolesSet]. rewrite Hdb0, Hkey.
    unfold mbind, Task_bind, UtcNow.
    rewrite UserRoles_unique_index by (cbn [db userRole UserRole.UserId
      UserRole.RoleId UserRole.OrganizationId]; by rewrite Hdb0).
    eexists. split; [reflexivity|]. exact Hdb0. }
  destruct (Hstep w eq_refl) as (w1 & Hrun & Hdb1).
  rewrite Hrun. cbn [fst snd]. split; [reflexivity|]. split; [exact Hdb1|].
  intros H. repeat (apply andb_prop in H as [H ?]).
  unfold SeedAsync.
  erewrite bind_run; [|unfold SeedOrganizationsAsync; found_row].
  cbv beta.
  erewrite bind_run; [|unfold SeedUsersAsync; found_row].
  cbv beta.
  erewrite bind_run; [|unfold SeedOrganizationMembershipsAsync; found_row].
  cbv beta.
  erewrite bind_run; [|unfold SeedFunctionsAsync; found_row].
  cbv beta.
  erewrite bind_run; [|unfold SeedRolesAsync; found_row].
  cbv beta.
  erewrite bind_run; [|unfold SeedRoleFunctionsAsync; found_row].
  cbv beta. rewrite Hrun. cbn [fst snd]. by split.
Qed.

(** ** The seeded roles, continued *)

(** X11. On a first start the User Administrator role is granted what the
    seeder's comment announces, "all User Management + Role Management +
    Function View": a catalog function is granted to it exactly when its
    category is User Management or Role Management, or it is
    [functions.view]. It is granted no function of Organization
    Management. *)
Theorem UserAdmin_granted (w : World) :
  db w = emptyDb → distinctGuids w seededRoleFunctionCount →
  let d := db (SeedAsync w).1 in
  ∀ f, f ∈ Functions d →
    (grants d SeedIds.Roles.UserAdmin f = true
     ↔ Function.Category f = Some SystemFunctions.UserManagement.Category
       ∨ Function.Category f = Some SystemFunctions.RoleManagement.Category
       ∨ Function.Name f = SystemFunctions.FunctionManagement.ViewFunctions)
    ∧ (Function.Category f
       = Some SystemFunctions.OrganizationManagement.Category →
       grants d SeedIds.Roles.UserAdmin f = false).
Proof.
  intros Hdb Hguids d. subst d. rewrite (SeedAsync_fresh w Hdb Hguids).
  cbn [fst db advance].
  assert (Hall : forallb (λ f,
            Bool.eqb (grants (seededDb w) SeedIds.Roles.UserAdmin f)
              (bool_decide (Function.Category f
                            = Some SystemFunctions.UserManagement.Category)
               || bool_decide (Function.Category f
                               = Some SystemFunctions.RoleManagement.Category)
               || bool_decide
                    (Function.Name f
                     = SystemFunctions.FunctionManagement.ViewFunctions))
            && implb (bool_decide
                        (Function.Category f
                         = Some SystemFunctions.OrganizationManagement.Category))
                 (negb (grants (seededDb w) SeedIds.Roles.UserAdmin f)))
            (Functions (seededDb w)) = true)
    by (vm_compute; reflexivity).
  rewrite forallb_forall in Hall. intros f Hf.
  apply list_elem_of_In, Hall, andb_prop in Hf as [Hf Ho].
  apply Bool.eqb_prop in Hf. split.
  - rewrite Hf, !orb_true_iff, !bool_decide_eq_true. tauto.
  - intros Hc. rewrite bool_decide_true in Ho by done.
    by apply negb_true_iff in Ho.
Qed.

(** X12. On a first start the Organization Administrator role is granted
    what the seeder's comment announces, "all Organization Management +
    view functions": a catalog function is granted to it exactly when its
    category is Organization Management, or it is one of [users.view],
    [users.roles.view], [roles.view] and [functions.view]. *)
Theorem OrgAdmin_granted (w : World) :
  db w = emptyDb → distinctGuids w seededRoleFunctionCount →
  let d := db (SeedAsync w).1 in
  ∀ f, f ∈ Functions d →
    (grants d SeedIds.Roles.OrgAdmin f = true
     ↔ Function.Category f
       = Some SystemFunctions.OrganizationManagement.Category
       ∨ Function.Name f = SystemFunctions.UserManagement.ViewUsers
       ∨ Function.Name f = SystemFunctions.UserManagement.ViewUserRoles
       ∨ Function.Name f = SystemFunctions.RoleManagement.ViewRoles
       ∨ Function.Name f = SystemFunctions.FunctionManagement.ViewFunctions).
Proof.
  intros Hdb Hguids d. subst d. rewrite (SeedAsync_fresh w Hdb Hguids).
  cbn [fst db advance].
  assert (Hall : forallb (λ f,
            Bool.eqb (grants (seededDb w) SeedIds.Roles.OrgAdmin f)
              (bool_decide
                 (Function.Category f
                  = Some SystemFunctions.OrganizationManagement.Category)
               || bool_decide (Function.Name f
                               = SystemFunctions.UserManagement.ViewUsers)
               || bool_decide (Function.Name f
                               = SystemFunctions.UserManagement.ViewUserRoles)
               || bool_decide (Function.Name f
                               = SystemFunctions.RoleManagement.ViewRoles)
               || bool_decide
                    (Function.Name f
                     = SystemFunctions.FunctionManagement.ViewFunctions)))
            (Functions (seededDb w)) = true)
    by (vm_compute; reflexivity).
  rewrite forallb_forall in Hall. intros f Hf.
  apply list_elem_of_In, Hall, Bool.eqb_prop in Hf.
  rewrite Hf, !orb_true_iff, !bool_decide_eq_true. tauto.
Qed.

(** X13. On a first start the grants are nested: whatever the Viewer role
    is granted the Organization Administrator is granted too, and every
    grant row — of any role — is for a function the Super Administrator
    is granted and the catalog holds. *)
Theorem seeded_grants_nested (w : World) :
  db w = emptyDb → distinctGuids w seededRoleFunctionCount →
  let d := db (SeedAsync w).1 in
  (∀ f, grants d SeedIds.Roles.Viewer f = true →
        grants d SeedIds.Roles.OrgAdmin f = true)
  ∧ (∀ roleId f, grants d roleId f = true →
       grants d SeedIds.Roles.SuperAdmin f = true
       ∧ hasKey (Functions d) (Function.Id f) = true).
Proof.
  intros Hdb Hguids d. subst d. rewrite (SeedAsync_fresh w Hdb Hguids).
  cbn [fst db advance].
  assert (Hrows : ∀ (p q : RoleFunction.t → bool),
            forallb (λ rf, implb (p rf) (q rf))
              (RoleFunctions (seededDb w)) = true →
            ∀ rf, In rf (RoleFunctions (seededDb w)) → p rf = true →
                  q rf = true).
  { intros p q Hall rf Hin Hp. rewrite forallb_forall in Hall.
    specialize (Hall rf Hin). by rewrite Hp in Hall. }
  split.
  - intros f Hg. unfold grants in Hg. apply existsb_exists in Hg
      as (rf & Hin & Hrf). apply andb_prop in Hrf as [Hr Hf].
    apply Z.eqb_eq in Hf. unfold grants.
    assert (Hq := Hrows
      (λ rf, RoleFunction.RoleId rf =? SeedIds.Roles.Viewer)
      (λ rf, existsb (λ rf', (RoleFunction.RoleId rf' =? SeedIds.Roles.OrgAdmin)
                           && (RoleFunction.FunctionId rf'
                               =? RoleFunction.FunctionId rf))
               (RoleFunctions (seededDb w)))
      ltac:(vm_compute; reflexivity) rf Hin Hr).
    cbv beta in Hq. by rewrite Hf in Hq.
  - intros roleId f Hg. split; [|by apply (seeded_grants_known w roleId)].
    unfold grants in Hg. apply existsb_exists in Hg
      as (rf & Hin & Hrf). apply andb_prop in Hrf as [_ Hf].
    apply Z.eqb_eq in Hf. unfold grants.
    assert (Hq := Hrows (λ _, true)
      (λ rf, existsb (λ rf', (RoleFunction.RoleId rf'
                             =? SeedIds.Roles.SuperAdmin)
                           && (RoleFunction.FunctionId rf'
                               =? RoleFunction.FunctionId rf))
               (RoleFunctions (seededDb w)))
      ltac:(vm_compute; reflexivity) rf Hin eq_refl).
    cbv beta in Hq. by rewrite Hf in Hq.
Qed.

(** X14. A first start leaves the uniqueness the data needs: in every
    table the keys are pairwise different; so are the names of the
    functions and of the roles (all in one organization), the (role,
    function) pairs of the grants, the (user, organization) pairs of the
    memberships and the (user, role, organization) triples of the
    assignments. *)
Theorem seeded_unique (w : World) :
  db w = emptyDb → distinctGuids w seededRoleFunctionCount →
  let d := db (SeedAsync w).1 in
  NoDup (keys (Organizations d)) ∧ NoDup (keys (Users d))
  ∧ NoDup (keys (OrganizationMemberships d)) ∧ NoDup (keys (Functions d))
  ∧ NoDup (keys (Roles d)) ∧ NoDup (keys (RoleFunctions d))
  ∧ NoDup (keys (UserRoles d))
  ∧ NoDup (Function.Name <$> Functions d)
  ∧ NoDup (Role.Name <$> Roles d)
  ∧ NoDup ((λ rf, (RoleFunction.RoleId rf, RoleFunction.FunctionId rf))
             <$> RoleFunctions d)
  ∧ NoDup ((λ m, (OrganizationMembership.UserId m,
                  OrganizationMembership.OrganizationId m))
             <$> OrganizationMemberships d)
  ∧ NoDup (triple <$> UserRoles d).
Proof.
  intros Hdb Hguids d. subst d. rewrite (SeedAsync_fresh w Hdb Hguids).
  cbn [fst db advance seededDb Organizations Users OrganizationMemberships
       Functions Roles RoleFunctions UserRoles].
  repeat split;
    first [ exact Hguids
          | apply (bool_decide_unpack _); vm_compute; exact I ].
Qed.

(** ** The [UserRoles] table *)

Lemma not_isAssigned_triple (d : OrbitOSDbContext) (ur : UserRole.t) :
  negb (bool_decide (triple ur ∈ map triple (UserRoles d)))
  = negb (isAssigned d (UserRole.UserId ur) (UserRole.RoleId ur)
            (UserRole.OrganizationId ur)).
Proof.
  f_equal. apply eq_true_iff_eq.
  rewrite bool_decide_eq_true, isAssigned_triple. reflexivity.
Qed.

Lemma findRole_Some (d : OrbitOSDbContext) (roleId : Guid) (role : Role.t) :
  findRole d roleId = Some role → role ∈ Roles d ∧ roleId = Role.Id role.
Proof.
  unfold findRole. intros Hfind. apply find_some in Hfind as [Hin Hid].
  apply Z.eqb_eq in Hid. by rewrite list_elem_of_In.
Qed.

Lemma hasKey_Roles (d : OrbitOSDbContext) (role : Role.t) :
  role ∈ Roles d → hasKey (Roles d) (Role.Id role) = true.
Proof.
  intros Hin. unfold hasKey, keys. apply existsb_exists.
  exists (Role.Id role). split; [|apply Z.eqb_refl].
  apply in_map_iff. exists role. split; [reflexivity|].
  by apply list_elem_of_In.
Qed.

(** C6, as amended. No [assignRole] and no [OrganizationMismatch] is
    among the sources: an assignment is written by saving a row to the
    [UserRoles] table, whose constraints the migration gives. For a role
    of organization A and a row that assigns it within another
    organization B, the table does not look at the mismatch. The save is
    refused — [DbUpdateException], the world as it was — exactly when the
    key of the row is taken, B or the user does not exist, or the triple
    is already assigned; otherwise the row is stored, and the store then
    holds an assignment of the role within B while the role is still
    A's. *)
Theorem UserRoles_cross_organization (w : World) (role : Role.t)
    (ur : UserRole.t) :
  role ∈ Roles (db w) →
  UserRole.RoleId ur = Role.Id role →
  Role.OrganizationId role ≠ UserRole.OrganizationId ur →
  let refused :=
    hasKey (UserRoles (db w)) (UserRole.Id ur)
    || negb (hasKey (Organizations (db w)) (UserRole.OrganizationId ur))
    || negb (hasKey (Users (db w)) (UserRole.UserId ur))
    || isAssigned (db w) (UserRole.UserId ur) (Role.Id role)
         (UserRole.OrganizationId ur) in
  let stored :=
    advance w 0 0 0
      (withRows UserRolesSet (UserRoles (db w) ++ [ur]) (db w)) in
  AddRange_SaveChangesAsync UserRolesSet [ur] w
  = (if refused then (w, inl DbUpdateException) else (stored, inr tt))
  ∧ ∃ r, r ∈ Roles (db stored)
         ∧ isAssigned (db stored) (UserRole.UserId ur) (Role.Id r)
             (UserRole.OrganizationId ur) = true
         ∧ Role.OrganizationId r ≠ UserRole.OrganizationId ur.
Proof.
  intros Hrole Hid Hne refused stored. subst refused stored.
  split; [|exists role; split; [|split; [|exact Hne]]].
  - rewrite AddRange_SaveChangesAsync_run.
    cbn [rowsOf constraintsOk UserRolesSet].
    unfold primaryKeyOk, UserRolesConstraints.
    cbn [forallb keys map entityId UserRole_entity].
    rewrite not_isAssigned_triple, !andb_true_r.
    rewrite (bool_decide_true (NoDup [UserRole.Id ur]))
      by apply NoDup_singleton.
    cbn [andb]. rewrite Hid.
    fold (keys (UserRoles (db w))) (keys (Organizations (db w)))
         (keys (Roles (db w))) (keys (Users (db w))).
    fold (hasKey (UserRoles (db w)) (UserRole.Id ur))
         (hasKey (Organizations (db w)) (UserRole.OrganizationId ur))
         (hasKey (Roles (db w)) (Role.Id role))
         (hasKey (Users (db w)) (UserRole.UserId ur)).
    rewrite (hasKey_Roles (db w) role Hrole).
    by destruct (hasKey (UserRoles (db w)) _),
         (hasKey (Organizations (db w)) _), (hasKey (Users (db w)) _),
         (isAssigned _ _ _ _).
  - exact Hrole.
  - cbn [db advance withRows UserRolesSet]. unfold isAssigned.
    cbn [UserRoles]. rewrite existsb_app. apply orb_true_intro. right.
    cbn [existsb]. by rewrite <- Hid, !Z.eqb_refl.
Qed.

(** X15. What the schema of the migration asks of an assignment row: the
    table takes the row exactly when its key is new, its organization,
    role and user exist, and no row holds its (user, role, organization)
    triple; then the row is appended, otherwise the save raises
    [DbUpdateException] and the database is as before. Nothing compares
    the row's organization with the organization of its role. *)
Theorem UserRoles_accepts (w : World) (ur : UserRole.t) :
  let accepted :=
    negb (hasKey (UserRoles (db w)) (UserRole.Id ur))
    && hasKey (Organizations (db w)) (UserRole.OrganizationId ur)
    && hasKey (Roles (db w)) (UserRole.RoleId ur)
    && hasKey (Users (db w)) (UserRole.UserId ur)
    && negb (isAssigned (db w) (UserRole.UserId ur) (UserRole.RoleId ur)
               (UserRole.OrganizationId ur)) in
  AddRange_SaveChangesAsync UserRolesSet [ur] w
  = if accepted
    then (advance w 0 0 0
            (withRows UserRolesSet (UserRoles (db w) ++ [ur]) (db w)), inr tt)
    else (w, inl DbUpdateException).
Proof.
  intros accepted. subst accepted. rewrite AddRange_SaveChangesAsync_run.
  cbn [rowsOf constraintsOk UserRolesSet].
  unfold primaryKeyOk, UserRolesConstraints, hasKey.
  cbn [forallb keys map entityId UserRole_entity].
  rewrite not_isAssigned_triple, !andb_true_r.
  rewrite (bool_decide_true (NoDup [UserRole.Id ur]))
    by apply NoDup_singleton.
  cbn [andb].
  by destruct (existsb _ (keys (UserRoles (db w)))),
       (existsb _ (keys (Organizations (db w)))),
       (existsb _ (keys (Roles (db w)))),
       (existsb _ (keys (Users (db w)))),
       (isAssigned _ _ _ _).
Qed.

(** ** [AuthController.Login] *)

Lemma VerifyPassword_raised (password passwordHash : string) (e : Exception) :
  VerifyPassword password passwordHash = inl e →
  e = FormatException ∨ e = ArgumentOutOfRangeException.
Proof.
  destruct (FromBase64String passwordHash) as [e'|hashBytes] eqn:Hdecode.
  - unfold VerifyPassword. rewrite Hdecode. cbn [mbind sum_bind].
    unfold FromBase64String in Hdecode.
    destruct (Base64.decode _); [discriminate Hdecode|].
    injection Hdecode as <-. intros [= <-]. by left.
  - destruct (le_lt_dec SaltSize (length hashBytes)) as [Hle|Hlt].
    + by rewrite (VerifyPassword_run password passwordHash hashBytes).
    + rewrite (VerifyPassword_short password passwordHash hashBytes)
        by done.
      intros [= <-]. by right.
Qed.

Lemma ToBase64String_length (bs : list byte) :
  String.length (ToBase64String bs) = (4 * ((length bs + 2) / 3))%nat.
Proof.
  unfold ToBase64String.
  by rewrite string_of_list_ascii_length, encode_length.
Qed.

Lemma Login_found {R} (signIn : User.t → Task Exception (IActionResult R))
    (request : LoginRequest) (w : World) (u : User.t)
    (passwordHash : string) :
  find (λ u, String.eqb (ToLower (User.Email u)) (ToLower (Email request)))
    (Users (db w)) = Some u →
  User.PasswordHash u = Some passwordHash →
  passwordHash ≠ "" →
  Login signIn request w
  = match VerifyPassword (Password request) passwordHash with
    | inl e => (w, inl e)
    | inr true => signIn u w
    | inr false => (w, inr (Unauthorized "Invalid email or password"))
    end.
Proof.
  intros Hfind Hhash Hne. unfold Login.
  erewrite bind_run
    by (unfold FirstOrDefaultAsync, mbind, Task_bind, getDb, mret, Task_ret;
        cbn [rowsOf UsersSet]; rewrite Hfind; reflexivity).
  cbv beta iota.
  rewrite Hhash. cbn [default IsNullOrEmpty].
  destruct passwordHash as [|c s]; [done|].
  change (AuthController_VerifyPassword (Password request)
            (id (String c s)))
    with (VerifyPassword (Password request) (String c s)).
  unfold mbind, Task_bind, liftResult.
  by destruct (VerifyPassword _ _) as [e|[]].
Qed.

(** X16. What [Login] can do, whatever follows the checks. It refuses
    with the one message "Invalid email or password", the world as it
    was; or it raises what the verification raises ([FormatException] or
    [ArgumentOutOfRangeException]), the world again as it was; or it
    signs in a user of the table whose e-mail matches the request up to
    [ToLower] and whose stored hash verifies the password of the request.
    In the first two cases the sign-in is not run: the answer is the same
    for every [signIn]. *)
Theorem Login_sound (R : Type) (request : LoginRequest) (w : World) :
  (∀ signIn : User.t → Task Exception (IActionResult R),
     Login signIn request w
     = (w, inr (Unauthorized "Invalid email or password")))
  ∨ (∃ e, (e = FormatException ∨ e = ArgumentOutOfRangeException)
          ∧ ∀ signIn : User.t → Task Exception (IActionResult R),
              Login signIn request w = (w, inl e))
  ∨ (∃ u passwordHash,
       u ∈ Users (db w)
       ∧ ToLower (User.Email u) = ToLower (Email request)
       ∧ User.PasswordHash u = Some passwordHash
       ∧ VerifyPassword (Password request) passwordHash = inr true
       ∧ ∀ signIn : User.t → Task Exception (IActionResult R),
           Login signIn request w = signIn u w).
Proof.
  assert (Hrun : ∀ (signIn : User.t → Task Exception (IActionResult R)) user,
    find (λ u, String.eqb (ToLower (User.Email u))
                 (ToLower (Email request))) (Users (db w)) = user →
    Login signIn request w
    = match user with
      | None => mret (Unauthorized "Invalid email or password")
      | Some user =>
          if IsNullOrEmpty (User.PasswordHash user)
          then mret (Unauthorized "Invalid email or password")
          else
            verified ← liftResult
              (AuthController_VerifyPassword (Password request)
                 (default "" (User.PasswordHash user)));
            if verified : bool then signIn user
            else mret (Unauthorized "Invalid email or password")
      end w).
  { intros signIn user Hfind. unfold Login.
    erewrite bind_run
      by (unfold FirstOrDefaultAsync, mbind, Task_bind, getDb, mret,
            Task_ret; cbn [rowsOf UsersSet]; rewrite Hfind; reflexivity).
    reflexivity. }
  destruct (find (λ u, String.eqb (ToLower (User.Email u))
                         (ToLower (Email request))) (Users (db w)))
    as [u|] eqn:Hfind.
  - destruct (User.PasswordHash u) as [passwordHash|] eqn:Hhash.
    + destruct (decide (passwordHash = "")) as [->|Hne].
      * left. intros signIn. rewrite (Hrun signIn (Some u) eq_refl).
        by rewrite Hhash.
      * destruct (VerifyPassword (Password request) passwordHash)
          as [e|[]] eqn:Hverify.
        -- right. left. exists e.
           split; [by apply (VerifyPassword_raised (Password request)
                               passwordHash)|].
           intros signIn.
           by rewrite (Login_found signIn request w u passwordHash Hfind
                         Hhash Hne), Hverify.
        -- right. right. exists u, passwordHash.
           pose proof Hfind as Hfound.
           apply find_some in Hfound as [Hin Heq].
           apply String.eqb_eq in Heq.
           rewrite list_elem_of_In.
           repeat split; [done..|]. intros signIn.
           by rewrite (Login_found signIn request w u passwordHash Hfind
                         Hhash Hne), Hverify.
        -- left. intros signIn.
           by rewrite (Login_found signIn request w u passwordHash Hfind
                         Hhash Hne), Hverify.
    + left. intros signIn. rewrite (Hrun signIn (Some u) eq_refl).
      by rewrite Hhash.
  - left. intros signIn. by rewrite (Hrun signIn None eq_refl).
Qed.

(** X17. [HashPassword], the table and [Login] together: when the first
    user the lookup finds carries a hash that [HashPassword] produced for
    a password, a request with that password is signed in, and a request
    with a password that derives another key from the salt drawn then is
    refused. *)
Theorem Login_hashed {R} (signIn : User.t → Task Exception (IActionResult R))
    (request : LoginRequest) (w w0 : World) (u : User.t)
    (password passwordHash : string) :
  find (λ u, String.eqb (ToLower (User.Email u)) (ToLower (Email request)))
    (Users (db w)) = Some u →
  User.PasswordHash u = Some passwordHash →
  (HashPassword password w0).2 = inr passwordHash →
  let salt := entropy w0 <$> seq 0 SaltSize in
  (Password request = password → Login signIn request w = signIn u w)
  ∧ (Rfc2898DeriveBytes_GetBytes (Password request) salt Iterations SHA256
       HashSize
     ≠ Rfc2898DeriveBytes_GetBytes password salt Iterations SHA256 HashSize →
     Login signIn request w
     = (w, inr (Unauthorized "Invalid email or password"))).
Proof.
  intros Hfind Hhash Hstored salt.
  rewrite HashPassword_stores in Hstored. cbn [snd] in Hstored.
  apply (inj inr) in Hstored. fold salt in Hstored.
  assert (Hsalt : length salt = SaltSize)
    by (unfold salt; rewrite length_fmap; apply length_seq).
  assert (Hne : passwordHash ≠ "").
  { intros ->. apply (f_equal String.length) in Hstored.
    rewrite ToBase64String_length, length_app, Hsalt, GetBytes_length
      in Hstored.
    discriminate Hstored. }
  rewrite (Login_found signIn request w u passwordHash Hfind Hhash Hne).
  rewrite <- Hstored.
  rewrite (VerifyPassword_run (Password request) _
             (salt ++ Rfc2898DeriveBytes_GetBytes password salt Iterations
                        SHA256 HashSize))
    by (rewrite ?FromBase64String_ToBase64String, ?length_app, ?Hsalt;
        [reflexivity || lia..]).
  rewrite (take_app_length' salt _ SaltSize Hsalt),
    (drop_app_length' salt _ SaltSize Hsalt).
  split.
  - intros ->. by rewrite FixedTimeEquals_same.
  - intros Hkey.
    destruct (FixedTimeEquals _ _) eqn:Hequal; [|reflexivity].
    by apply FixedTimeEquals_true in Hequal.
Qed.

(** X18. An account whose stored hash is not empty and is malformed: every
    login attempt for it raises, whatever the password — it is not
    answered with [Unauthorized] — and nothing is changed. Only the
    empty text is caught by the [IsNullOrEmpty] test before it. *)
Theorem Login_malformed {R}
    (signIn : User.t → Task Exception (IActionResult R))
    (request : LoginRequest) (w : World) (u : User.t)
    (passwordHash : string) :
  find (λ u, String.eqb (ToLower (User.Email u)) (ToLower (Email request)))
    (Users (db w)) = Some u →
  User.PasswordHash u = Some passwordHash →
  passwordHash ≠ "" →
  (FromBase64String passwordHash = inl FormatException →
   Login signIn request w = (w, inl FormatException))
  ∧ (∀ hashBytes, FromBase64String passwordHash = inr hashBytes →
       (length hashBytes < 16)%nat →
       Login signIn request w = (w, inl ArgumentOutOfRangeException)).
Proof.
  intros Hfind Hhash Hne.
  rewrite (Login_found signIn request w u passwordHash Hfind Hhash Hne).
  split.
  - intros Hdecode. unfold VerifyPassword. by rewrite Hdecode.
  - intros hashBytes Hdecode Hlen.
    by rewrite (VerifyPassword_short (Password request) passwordHash
                  hashBytes).
Qed.

(** X19. The e-mail of the request is compared after [ToLower] on both
    sides: two requests whose e-mails agree up to [ToLower] and whose
    passwords are equal are answered alike. *)
Theorem Login_ToLower {R}
    (signIn : User.t → Task Exception (IActionResult R))
    (request request' : LoginRequest) (w : World) :
  ToLower (Email request) = ToLower (Email request') →
  Password request = Password request' →
  Login signIn request w = Login signIn request' w.
Proof.
  intros Hemail Hpassword. unfold Login. by rewrite Hemail, Hpassword.
Qed.

End OrbitOS.

(** * Instances

    The statements above at concrete inputs: a stand-in key stream for
    PBKDF2, a first start, and the database it leaves. *)

Definition samplePbkdf2 (password : string) (salt : list byte) (iterations : N)
    (algorithm : HashAlgorithmName) (i : nat) : byte :=
  match Byte.of_N (N.of_nat (i + length salt) mod 256) with
  | Some b => b
  | None => "000"%byte
  end.

Definition sampleWorld : World :=
  freshWorld (λ n, 638000000000000000 + Z.of_nat n)
    (λ n, 0x77777777777777777777777777770000 + Z.of_nat n)
    (λ n, match Byte.of_N (N.of_nat n mod 256) with
          | Some b => b
          | None => "000"%byte
          end).

(** The world after the first start. *)
Definition seededWorld : World := (SeedAsync samplePbkdf2 sampleWorld).1.

(** Another organization, which nothing belongs to. *)
Definition otherOrganization : Guid := 0x99999999999999999999999999999999.

(** The catalog, the roles and the assignment of a first start, without
    the membership row of the assigned user. *)
Definition inertAssignmentDb : OrbitOSDbContext :=
  {| Organizations := [organization 0 0];
     Users := [user "" 0 0];
     OrganizationMemberships := [];
     Functions := systemFunctions 0;
     Roles := roles 0;
     RoleFunctions :=
       [roleFunction SeedIds.Roles.SuperAdmin 0 1 SeedIds.Functions.UsersView];
     UserRoles := [userRole 0 0] |}.

(** The same with the membership row, the assigned role soft-deleted. *)
Definition deletedRoleDb : OrbitOSDbContext :=
  {| Organizations := [organization 0 0];
     Users := [user "" 0 0];
     OrganizationMemberships := [membership 0 0];
     Functions := systemFunctions 0;
     Roles := markDeleted SeedIds.Roles.SuperAdmin 1 <$> roles 0;
     RoleFunctions :=
       [roleFunction SeedIds.Roles.SuperAdmin 0 1 SeedIds.Functions.UsersView];
     UserRoles := [userRole 0 0] |}.

Lemma sampleWorld_fresh :
  db sampleWorld = emptyDb ∧ distinctGuids sampleWorld seededRoleFunctionCount.
Proof.
  split; [reflexivity|].
  apply (bool_decide_unpack _). vm_compute. exact I.
Qed.

Lemma sampleWorld_seeded :
  SeedAsync samplePbkdf2 sampleWorld = (seededWorld, inr tt).
Proof.
  unfold seededWorld. destruct sampleWorld_fresh as [Hdb Hguids].
  by rewrite (SeedAsync_fresh samplePbkdf2 sampleWorld Hdb Hguids).
Qed.

Lemma no_membership_no_permission_witness :
  isMember (db seededWorld) SeedIds.Users.Rodrigo otherOrganization = false
  ∧ effectivePermissions (db seededWorld) SeedIds.Users.Rodrigo
      otherOrganization = ∅
  ∧ authorize (db seededWorld) SeedIds.Users.Rodrigo otherOrganization
      "users.view" = false.
Proof.
  assert (H : isMember (db seededWorld) SeedIds.Users.Rodrigo
                otherOrganization = false) by (vm_compute; reflexivity).
  split; [exact H|].
  destruct (no_membership_no_permission (db seededWorld) SeedIds.Users.Rodrigo
              otherOrganization H) as [He Ha].
  split; [exact He | apply Ha].
Defined.

(** The union law at three databases: after a first start, where the
    seeded user is assigned one role; where an assignment row has no
    membership behind it; and where the assigned role is deleted. *)
Lemma effectivePermissions_union_witness :
  (length (assignedRoles (db seededWorld) SeedIds.Users.Rodrigo
             SeedIds.Organizations.Rugertek) = 1%nat
   ∧ effectivePermissions (db seededWorld) SeedIds.Users.Rodrigo
       SeedIds.Organizations.Rugertek
     = ⋃ ((λ role, permissionsOf (db seededWorld) (Role.Id role))
            <$> assignedRoles (db seededWorld) SeedIds.Users.Rodrigo
                  SeedIds.Organizations.Rugertek))
  ∧ (isAssigned inertAssignmentDb SeedIds.Users.Rodrigo
       SeedIds.Roles.SuperAdmin SeedIds.Organizations.Rugertek = true
     ∧ assignedRoles inertAssignmentDb SeedIds.Users.Rodrigo
         SeedIds.Organizations.Rugertek = []
     ∧ effectivePermissions inertAssignmentDb SeedIds.Users.Rodrigo
         SeedIds.Organizations.Rugertek
       = ⋃ ((λ role, permissionsOf inertAssignmentDb (Role.Id role))
              <$> assignedRoles inertAssignmentDb SeedIds.Users.Rodrigo
                    SeedIds.Organizations.Rugertek))
  ∧ (isMember deletedRoleDb SeedIds.Users.Rodrigo
       SeedIds.Organizations.Rugertek = true
     ∧ assignedRoles deletedRoleDb SeedIds.Users.Rodrigo
         SeedIds.Organizations.Rugertek = []
     ∧ effectivePermissions deletedRoleDb SeedIds.Users.Rodrigo
         SeedIds.Organizations.Rugertek
       = ⋃ ((λ role, permissionsOf deletedRoleDb (Role.Id role))
              <$> assignedRoles deletedRoleDb SeedIds.Users.Rodrigo
                    SeedIds.Organizations.Rugertek)).
Proof.
  split; [split; [vm_compute; reflexivity|]|split; split;
    [vm_compute; reflexivity| split; [vm_compute; reflexivity|]
    |vm_compute; reflexivity| split; [vm_compute; reflexivity|]]].
  - exact (proj1 (effectivePermissions_union (db seededWorld)
                    SeedIds.Users.Rodrigo SeedIds.Organizations.Rugertek)).
  - exact (proj1 (effectivePermissions_union inertAssignmentDb
                    SeedIds.Users.Rodrigo SeedIds.Organizations.Rugertek)).
  - exact (proj1 (effectivePermissions_union deletedRoleDb
                    SeedIds.Users.Rodrigo SeedIds.Organizations.Rugertek)).
Defined.


(** C4 as stated fails on a first start: [users.activity.view] is in the
    catalog and matches [*.view], and the Viewer role is not granted
    it. *)
Lemma Viewer_granted_views_counterexample :
  ∃ f, Functions (db seededWorld) !! 9%nat = Some f
       ∧ Function.Name f = "users.activity.view"
       ∧ isViewPermission (Function.Name f) = true
       ∧ grants (db seededWorld) SeedIds.Roles.Viewer f = false.
Proof.
  eexists. split; [vm_compute; reflexivity|].
  repeat split; vm_compute; reflexivity.
Qed.

Lemma Viewer_granted_views_witness :
  db sampleWorld = emptyDb
  ∧ distinctGuids sampleWorld seededRoleFunctionCount
  ∧ ∀ f, f ∈ Functions (db seededWorld) →
      (grants (db seededWorld) SeedIds.Roles.Viewer f = true
       ↔ isViewPermission (Function.Name f) = true
         ∧ Function.Name f ≠ SystemFunctions.UserManagement.ViewUserActivity
         ∧ Function.Name f
           ≠ SystemFunctions.OrganizationManagement.ViewAuditLog).
Proof.
  destruct sampleWorld_fresh as [Hdb Hguids].
  split; [exact Hdb|]. split; [exact Hguids|].
  exact (proj2 (Viewer_granted_views samplePbkdf2 sampleWorld Hdb Hguids)).
Defined.

Lemma SeedAsync_idempotent_witness :
  SeedAsync samplePbkdf2 sampleWorld = (seededWorld, inr tt)
  ∧ SeedAsync samplePbkdf2 seededWorld = (seededWorld, inr tt).
Proof.
  split; [exact sampleWorld_seeded|].
  exact (SeedAsync_idempotent samplePbkdf2 sampleWorld seededWorld
           sampleWorld_seeded seededWorld eq_refl).
Defined.

Lemma assignRole_idempotent_witness :
  let w1 := (assignRole SeedIds.Users.Rodrigo SeedIds.Roles.Viewer
               SeedIds.Organizations.Rugertek seededWorld).1 in
  assignRole SeedIds.Users.Rodrigo SeedIds.Roles.Viewer
    SeedIds.Organizations.Rugertek seededWorld = (w1, inr tt)
  ∧ length (UserRoles (db w1)) = 2%nat
  ∧ assignRole SeedIds.Users.Rodrigo SeedIds.Roles.Viewer
      SeedIds.Organizations.Rugertek w1 = (w1, inr tt).
Proof.
  intros w1.
  assert (H2 : (assignRole SeedIds.Users.Rodrigo SeedIds.Roles.Viewer
                  SeedIds.Organizations.Rugertek seededWorld).2 = inr tt)
    by (vm_compute; reflexivity).
  assert (H : assignRole SeedIds.Users.Rodrigo SeedIds.Roles.Viewer
                SeedIds.Organizations.Rugertek seededWorld = (w1, inr tt))
    by (subst w1; rewrite <- H2; apply surjective_pairing).
  split; [exact H|]. split; [vm_compute; reflexivity|].
  exact (proj1 (assignRole_idempotent seededWorld w1 SeedIds.Users.Rodrigo
                  SeedIds.Roles.Viewer SeedIds.Organizations.Rugertek H
                  w1 eq_refl)).
Defined.

Lemma SeedAsync_single_tenant_witness :
  SeedAsync samplePbkdf2 sampleWorld = (seededWorld, inr tt)
  ∧ seeds (db sampleWorld) (db seededWorld)
  ∧ tenantClosed (db seededWorld) = true.
Proof.
  pose proof (SeedAsync_single_tenant samplePbkdf2 sampleWorld seededWorld
                (inr tt) sampleWorld_seeded) as [Hseeds Hfresh].
  destruct sampleWorld_fresh as [Hdb Hguids].
  destruct (Hfresh Hdb Hguids) as (_ & _ & Hclosed & _).
  split; [exact sampleWorld_seeded|]. split; [exact Hseeds | exact Hclosed].
Defined.

(** ** More instances

    A database in which another row already assigns the Super
    Administrator role to the seeded user; a second organization beside
    the seeded one, and an assignment row that crosses the two. *)

Definition conflictWorld : World :=
  advance seededWorld 0 0 0
    (withRows UserRolesSet
       [{| UserRole.Id := 0x55555555555555555555555555555555;
           UserRole.UserId := SeedIds.Users.Rodrigo;
           UserRole.RoleId := SeedIds.Roles.SuperAdmin;
           UserRole.OrganizationId := SeedIds.Organizations.Rugertek;
           UserRole.CreatedAt := 0;
           UserRole.UpdatedAt := 0;
           UserRole.DeletedAt := None |}]
       (db seededWorld)).

Definition twoOrganizationsWorld : World :=
  advance seededWorld 0 0 0
    (withRows OrganizationsSet
       (Organizations (db seededWorld)
        ++ [{| Organization.Id := otherOrganization;
               Organization.Name := "Other";
               Organization.Slug := "other";
               Organization.Description := None;
               Organization.LogoUrl := None;
               Organization.AzureAdTenantId := None;
               Organization.CreatedAt := 0;
               Organization.UpdatedAt := 0;
               Organization.DeletedAt := None |}])
       (db seededWorld)).

Definition crossOrganizationRow : UserRole.t :=
  {| UserRole.Id := 0x55555555555555555555555555555555;
     UserRole.UserId := SeedIds.Users.Rodrigo;
     UserRole.RoleId := SeedIds.Roles.Viewer;
     UserRole.OrganizationId := otherOrganization;
     UserRole.CreatedAt := 0;
     UserRole.UpdatedAt := 0;
     UserRole.DeletedAt := None |}.

(** The text [HashPassword] stores for "123456" in the sample world. *)
Definition sampleHash : string :=
  match (HashPassword samplePbkdf2 "123456" sampleWorld).2 with
  | inr passwordHash => passwordHash
  | inl _ => ""
  end.

(** A later call of the hasher at the same place of the random stream:
    the database seeded, the clock and the identifiers further on. *)
Definition laterWorld : World :=
  advance sampleWorld 40 90 0 (db seededWorld).

Lemma conflictWorld_raises :
  SeedAsync samplePbkdf2 conflictWorld
  = ((SeedAsync samplePbkdf2 conflictWorld).1, inl DbUpdateException).
Proof.
  assert (H : (SeedAsync samplePbkdf2 conflictWorld).2
              = inl DbUpdateException) by (vm_compute; reflexivity).
  rewrite <- H. apply surjective_pairing.
Qed.

Lemma VerifyPassword_decides_witness :
  ∃ hashBytes,
    FromBase64String sampleHash = inr hashBytes
    ∧ (SaltSize ≤ length hashBytes)%nat
    ∧ ∃ answer,
        VerifyPassword samplePbkdf2 "123456" sampleHash = inr answer
        ∧ (answer = true
           ↔ drop SaltSize hashBytes
             = Rfc2898DeriveBytes_GetBytes samplePbkdf2 "123456"
                 (take SaltSize hashBytes) Iterations SHA256 HashSize).
Proof.
  destruct (FromBase64String sampleHash) as [e|hashBytes] eqn:Hdecode;
    [vm_compute in Hdecode; discriminate Hdecode|].
  assert (Hlen : (SaltSize ≤ length hashBytes)%nat).
  { vm_compute in Hdecode. injection Hdecode as <-.
    apply Nat.leb_le. vm_compute. reflexivity. }
  exists hashBytes. split; [reflexivity|]. split; [exact Hlen|].
  exact (VerifyPassword_decides samplePbkdf2 "123456" sampleHash hashBytes
           Hdecode Hlen).
Defined.

Lemma HashPassword_salted_witness :
  (HashPassword samplePbkdf2 "123456" sampleWorld).2
  = (HashPassword samplePbkdf2 "123456" laterWorld).2
  ∧ (entropy sampleWorld <$> seq 0 SaltSize
     = entropy laterWorld <$> seq 0 SaltSize
     ∧ Rfc2898DeriveBytes_GetBytes samplePbkdf2 "123456"
         (entropy sampleWorld <$> seq 0 SaltSize) Iterations SHA256 HashSize
       = Rfc2898DeriveBytes_GetBytes samplePbkdf2 "123456"
           (entropy laterWorld <$> seq 0 SaltSize) Iterations SHA256
           HashSize)
  ∧ entropy sampleWorld <$> seq 0 SaltSize
    ≠ entropy seededWorld <$> seq 0 SaltSize
  ∧ (HashPassword samplePbkdf2 "123456" sampleWorld).2
    ≠ (HashPassword samplePbkdf2 "123456" seededWorld).2.
Proof.
  assert (Hsame : (HashPassword samplePbkdf2 "123456" sampleWorld).2
                  = (HashPassword samplePbkdf2 "123456" laterWorld).2)
    by (vm_compute; reflexivity).
  assert (Hsalt : entropy sampleWorld <$> seq 0 SaltSize
                  ≠ entropy seededWorld <$> seq 0 SaltSize)
    by (intros H; vm_compute in H; discriminate H).
  split; [exact Hsame|]. split.
  - exact (HashPassword_salted samplePbkdf2 "123456" "123456" sampleWorld
             laterWorld Hsame).
  - split; [exact Hsalt|]. intros Htext. apply Hsalt.
    exact (proj1 (HashPassword_salted samplePbkdf2 "123456" "123456"
                    sampleWorld seededWorld Htext)).
Defined.

Lemma seeded_user_password_witness :
  db sampleWorld = emptyDb
  ∧ distinctGuids sampleWorld seededRoleFunctionCount
  ∧ ∃ u passwordHash,
      Users (db seededWorld) = [u]
      ∧ User.Email u = "rodrigo@rugertek.com"
      ∧ User.PasswordHash u = Some passwordHash
      ∧ VerifyPassword samplePbkdf2 "123456" passwordHash = inr true
      ∧ AuthController_VerifyPassword samplePbkdf2 "123456" passwordHash
        = inr true.
Proof.
  unfold seededWorld.
  destruct sampleWorld_fresh as [Hdb Hguids].
  split; [exact Hdb|]. split; [exact Hguids|].
  destruct (seeded_user_password samplePbkdf2 sampleWorld Hdb Hguids)
    as (u & passwordHash & Hu & Hemail & Hhash & Hverify & Hcontroller & _).
  exists u, passwordHash. repeat split; assumption.
Defined.

Lemma SeedAsync_raises_DbUpdateException_witness :
  SeedAsync samplePbkdf2 conflictWorld
  = ((SeedAsync samplePbkdf2 conflictWorld).1, inl DbUpdateException)
  ∧ ∃ added,
      db (SeedAsync samplePbkdf2 conflictWorld).1
      = appendDb (db conflictWorld) added.
Proof.
  split; [exact conflictWorld_raises|].
  exact (proj2 (SeedAsync_raises_DbUpdateException samplePbkdf2 conflictWorld
                  (SeedAsync samplePbkdf2 conflictWorld).1 DbUpdateException
                  conflictWorld_raises)).
Defined.

Lemma SeedAsync_keeps_seeded_tables_witness :
  SeedAsync samplePbkdf2 conflictWorld
  = ((SeedAsync samplePbkdf2 conflictWorld).1, inl DbUpdateException)
  ∧ Organizations (db (SeedAsync samplePbkdf2 conflictWorld).1)
    = Organizations (db conflictWorld)
  ∧ Functions (db (SeedAsync samplePbkdf2 conflictWorld).1)
    = Functions (db conflictWorld)
  ∧ RoleFunctions (db (SeedAsync samplePbkdf2 conflictWorld).1)
    = RoleFunctions (db conflictWorld).
Proof.
  split; [exact conflictWorld_raises|].
  destruct (SeedAsync_keeps_seeded_tables samplePbkdf2 conflictWorld
              (SeedAsync samplePbkdf2 conflictWorld).1
              (inl DbUpdateException) conflictWorld_raises)
    as (Horganizations & _ & _ & Hfunctions & _ & Hgrants & _).
  split; [apply Horganizations; vm_compute; reflexivity|].
  split; [apply Hfunctions; vm_compute; reflexivity|].
  apply Hgrants. intros Hempty. vm_compute in Hempty. discriminate Hempty.
Defined.

Lemma SeedAsync_first_start_witness :
  db sampleWorld = emptyDb
  ∧ distinctGuids sampleWorld seededRoleFunctionCount
  ∧ (SeedAsync samplePbkdf2 sampleWorld).2 = inr tt
  ∧ length (Functions (db seededWorld)) = 33%nat
  ∧ length (RoleFunctions (db seededWorld)) = 77%nat.
Proof.
  unfold seededWorld.
  destruct sampleWorld_fresh as [Hdb Hguids].
  split; [exact Hdb|]. split; [exact Hguids|].
  destruct (SeedAsync_first_start samplePbkdf2 sampleWorld Hdb Hguids)
    as (Hrun & _ & _ & _ & Hfunctions & _ & Hgrants & _).
  split; [exact Hrun|]. split; [exact Hfunctions | exact Hgrants].
Defined.

Lemma SeedUserRolesAsync_conflict_witness :
  existsb (λ ur, UserRole.Id ur =? SeedIds.UserRoles.RodrigoSuperAdmin)
    (UserRoles (db conflictWorld)) = false
  ∧ isAssigned (db conflictWorld) SeedIds.Users.Rodrigo
      SeedIds.Roles.SuperAdmin SeedIds.Organizations.Rugertek = true
  ∧ (SeedUserRolesAsync conflictWorld).2 = inl DbUpdateException
  ∧ db (SeedUserRolesAsync conflictWorld).1 = db conflictWorld
  ∧ (SeedAsync samplePbkdf2 conflictWorld).2 = inl DbUpdateException
  ∧ db (SeedAsync samplePbkdf2 conflictWorld).1 = db conflictWorld.
Proof.
  assert (Hguard :
    existsb (λ ur, UserRole.Id ur =? SeedIds.UserRoles.RodrigoSuperAdmin)
      (UserRoles (db conflictWorld)) = false) by (vm_compute; reflexivity).
  assert (Hassigned :
    isAssigned (db conflictWorld) SeedIds.Users.Rodrigo
      SeedIds.Roles.SuperAdmin SeedIds.Organizations.Rugertek = true)
    by (vm_compute; reflexivity).
  split; [exact Hguard|]. split; [exact Hassigned|].
  destruct (SeedUserRolesAsync_conflict samplePbkdf2 conflictWorld Hguard
              Hassigned) as (Hraises & Hdb & Hrun).
  split; [exact Hraises|]. split; [exact Hdb|].
  apply Hrun. vm_compute. reflexivity.
Defined.

Lemma UserAdmin_granted_witness :
  db sampleWorld = emptyDb
  ∧ distinctGuids sampleWorld seededRoleFunctionCount
  ∧ ∀ f, f ∈ Functions (db seededWorld) →
      Function.Category f
      = Some SystemFunctions.OrganizationManagement.Category →
      grants (db seededWorld) SeedIds.Roles.UserAdmin f = false.
Proof.
  unfold seededWorld.
  destruct sampleWorld_fresh as [Hdb Hguids].
  split; [exact Hdb|]. split; [exact Hguids|].
  intros f Hf.
  exact (proj2 (UserAdmin_granted samplePbkdf2 sampleWorld Hdb Hguids f Hf)).
Defined.

Lemma OrgAdmin_granted_witness :
  db sampleWorld = emptyDb
  ∧ distinctGuids sampleWorld seededRoleFunctionCount
  ∧ ∀ f, f ∈ Functions (db seededWorld) →
      Function.Name f = SystemFunctions.RoleManagement.ViewRoles →
      grants (db seededWorld) SeedIds.Roles.OrgAdmin f = true.
Proof.
  unfold seededWorld.
  destruct sampleWorld_fresh as [Hdb Hguids].
  split; [exact Hdb|]. split; [exact Hguids|].
  intros f Hf Hname.
  apply (OrgAdmin_granted samplePbkdf2 sampleWorld Hdb Hguids f Hf).
  right. right. right. left. exact Hname.
Defined.

Lemma seeded_grants_nested_witness :
  db sampleWorld = emptyDb
  ∧ distinctGuids sampleWorld seededRoleFunctionCount
  ∧ ∀ f, grants (db seededWorld) SeedIds.Roles.Viewer f = true →
      grants (db seededWorld) SeedIds.Roles.OrgAdmin f = true.
Proof.
  unfold seededWorld.
  destruct sampleWorld_fresh as [Hdb Hguids].
  split; [exact Hdb|]. split; [exact Hguids|].
  exact (proj1 (seeded_grants_nested samplePbkdf2 sampleWorld Hdb Hguids)).
Defined.

Lemma seeded_unique_witness :
  db sampleWorld = emptyDb
  ∧ distinctGuids sampleWorld seededRoleFunctionCount
  ∧ NoDup (keys (RoleFunctions (db seededWorld)))
  ∧ NoDup (Function.Name <$> Functions (db seededWorld)).
Proof.
  unfold seededWorld.
  destruct sampleWorld_fresh as [Hdb Hguids].
  split; [exact Hdb|]. split; [exact Hguids|].
  destruct (seeded_unique samplePbkdf2 sampleWorld Hdb Hguids)
    as (_ & _ & _ & _ & _ & Hkeys & _ & Hnames & _).
  split; [exact Hkeys | exact Hnames].
Defined.

(** The role [Viewer] belongs to the seeded organization; the table takes
    a row that assigns it in the other one. *)
Lemma UserRoles_accepts_witness :
  (∃ role, findRole (db twoOrganizationsWorld) SeedIds.Roles.Viewer
           = Some role
           ∧ Role.OrganizationId role = SeedIds.Organizations.Rugertek)
  ∧ UserRole.OrganizationId crossOrganizationRow = otherOrganization
  ∧ (AddRange_SaveChangesAsync UserRolesSet [crossOrganizationRow]
       twoOrganizationsWorld).2 = inr tt.
Proof.
  split; [eexists; split; vm_compute; reflexivity|].
  split; [reflexivity|].
  rewrite (UserRoles_accepts twoOrganizationsWorld crossOrganizationRow).
  vm_compute. reflexivity.
Defined.

(** C6 as stated fails on the code: the role [Viewer] belongs to the
    seeded organization, the row assigns it within the other one, and the
    save returns, the table one row longer. *)
Lemma UserRoles_cross_organization_counterexample :
  (∃ role, findRole (db twoOrganizationsWorld) SeedIds.Roles.Viewer
           = Some role
           ∧ Role.OrganizationId role = SeedIds.Organizations.Rugertek)
  ∧ UserRole.RoleId crossOrganizationRow = SeedIds.Roles.Viewer
  ∧ UserRole.OrganizationId crossOrganizationRow = otherOrganization
  ∧ (SeedIds.Organizations.Rugertek =? otherOrganization) = false
  ∧ (AddRange_SaveChangesAsync UserRolesSet [crossOrganizationRow]
       twoOrganizationsWorld).2 = inr tt
  ∧ length (UserRoles (db twoOrganizationsWorld)) = 1%nat
  ∧ UserRoles (db (AddRange_SaveChangesAsync UserRolesSet
                     [crossOrganizationRow] twoOrganizationsWorld).1)
    = UserRoles (db twoOrganizationsWorld) ++ [crossOrganizationRow].
Proof.
  split; [eexists; split; vm_compute; reflexivity|].
  split; [reflexivity|]. split; [reflexivity|].
  split; [vm_compute; reflexivity|]. split; [vm_compute; reflexivity|].
  split; vm_compute; reflexivity.
Qed.

Lemma UserRoles_cross_organization_witness :
  ∃ role,
    role ∈ Roles (db twoOrganizationsWorld)
    ∧ UserRole.RoleId crossOrganizationRow = Role.Id role
    ∧ Role.OrganizationId role
      ≠ UserRole.OrganizationId crossOrganizationRow
    ∧ AddRange_SaveChangesAsync UserRolesSet [crossOrganizationRow]
        twoOrganizationsWorld
      = (advance twoOrganizationsWorld 0 0 0
           (withRows UserRolesSet
              (UserRoles (db twoOrganizationsWorld)
               ++ [crossOrganizationRow])
              (db twoOrganizationsWorld)), inr tt).
Proof.
  assert (Hsome : is_Some (findRole (db twoOrganizationsWorld)
                             SeedIds.Roles.Viewer))
    by (vm_compute; eexists; reflexivity).
  destruct Hsome as [role Hfind].
  apply findRole_Some in Hfind as [Hin Hid].
  change SeedIds.Roles.Viewer
    with (UserRole.RoleId crossOrganizationRow) in Hid.
  assert (Hne : Role.OrganizationId role
                ≠ UserRole.OrganizationId crossOrganizationRow).
  { assert (Hall : forallb (λ r, negb (Role.OrganizationId r
                                      =? UserRole.OrganizationId
                                           crossOrganizationRow))
                     (Roles (db twoOrganizationsWorld)) = true)
      by (vm_compute; reflexivity).
    rewrite forallb_forall in Hall. apply list_elem_of_In in Hin.
    specialize (Hall role Hin). apply negb_true_iff in Hall.
    by apply Z.eqb_neq in Hall. }
  assert (Hrefused :
    hasKey (UserRoles (db twoOrganizationsWorld))
      (UserRole.Id crossOrganizationRow)
    || negb (hasKey (Organizations (db twoOrganizationsWorld))
               (UserRole.OrganizationId crossOrganizationRow))
    || negb (hasKey (Users (db twoOrganizationsWorld))
               (UserRole.UserId crossOrganizationRow))
    || isAssigned (db twoOrganizationsWorld)
         (UserRole.UserId crossOrganizationRow)
         (UserRole.RoleId crossOrganizationRow)
         (UserRole.OrganizationId crossOrganizationRow) = false)
    by (vm_compute; reflexivity).
  rewrite Hid in Hrefused.
  exists role. split; [exact Hin|]. split; [exact Hid|]. split; [exact Hne|].
  pose proof (proj1 (UserRoles_cross_organization twoOrganizationsWorld
                       role crossOrganizationRow Hin Hid Hne)) as Hrun.
  cbv zeta in Hrun. rewrite Hrefused in Hrun. exact Hrun.
Defined.

(** ** Logging in

    A lower-casing of the ASCII letters for [ToLower], a continuation
    that answers with the e-mail of the user, and a database whose only
    user carries a stored text that decodes to three bytes. *)

Definition sampleToLower (s : string) : string :=
  string_of_list_ascii
    (map (λ c, let n := nat_of_ascii c in
               if (65 <=? n)%nat && (n <=? 90)%nat
               then ascii_of_nat (n + 32) else c)
       (list_ascii_of_string s)).

Definition sampleSignIn (u : User.t)
  : Task Exception (IActionResult string) :=
  mret (Ok (User.Email u)).

Definition malformedHashWorld : World :=
  advance sampleWorld 0 0 0
    (withRows UsersSet [user "AAAA" 0 0] emptyDb).

Lemma Login_hashed_witness :
  ∃ u passwordHash,
    find (λ u, String.eqb (sampleToLower (User.Email u))
                 (sampleToLower "Rodrigo@RugerTek.com"))
      (Users (db seededWorld)) = Some u
    ∧ User.PasswordHash u = Some passwordHash
    ∧ (HashPassword samplePbkdf2 "123456" sampleWorld).2 = inr passwordHash
    ∧ Login samplePbkdf2 sampleToLower sampleSignIn
        {| Email := "Rodrigo@RugerTek.com"; Password := "123456" |}
        seededWorld
      = sampleSignIn u seededWorld.
Proof.
  destruct (find (λ u, String.eqb (sampleToLower (User.Email u))
                         (sampleToLower "Rodrigo@RugerTek.com"))
              (Users (db seededWorld))) as [u|] eqn:Hfind;
    [|vm_compute in Hfind; discriminate Hfind].
  assert (Hhash : User.PasswordHash u = Some sampleHash).
  { vm_compute in Hfind. injection Hfind as <-. vm_compute. reflexivity. }
  assert (Hstored : (HashPassword samplePbkdf2 "123456" sampleWorld).2
                    = inr sampleHash) by (vm_compute; reflexivity).
  exists u, sampleHash.
  split; [reflexivity|]. split; [exact Hhash|]. split; [exact Hstored|].
  exact (proj1 (Login_hashed samplePbkdf2 sampleToLower sampleSignIn
                  {| Email := "Rodrigo@RugerTek.com"; Password := "123456" |}
                  seededWorld sampleWorld u "123456" sampleHash
                  Hfind Hhash Hstored) eq_refl).
Defined.

Lemma Login_malformed_witness :
  find (λ u, String.eqb (sampleToLower (User.Email u))
               (sampleToLower "rodrigo@rugertek.com"))
    (Users (db malformedHashWorld)) = Some (user "AAAA" 0 0)
  ∧ User.PasswordHash (user "AAAA" 0 0) = Some "AAAA"
  ∧ "AAAA" ≠ ""
  ∧ FromBase64String "AAAA" = inr ["000"; "000"; "000"]%byte
  ∧ Login samplePbkdf2 sampleToLower sampleSignIn
      {| Email := "rodrigo@rugertek.com"; Password := "123456" |}
      malformedHashWorld
    = (malformedHashWorld, inl ArgumentOutOfRangeException).
Proof.
  assert (Hfind :
    find (λ u, String.eqb (sampleToLower (User.Email u))
                 (sampleToLower "rodrigo@rugertek.com"))
      (Users (db malformedHashWorld)) = Some (user "AAAA" 0 0))
    by (vm_compute; reflexivity).
  assert (Hne : "AAAA" ≠ "") by discriminate.
  assert (Hdecode : FromBase64String "AAAA" = inr ["000"; "000"; "000"]%byte)
    by (vm_compute; reflexivity).
  split; [exact Hfind|]. split; [reflexivity|]. split; [exact Hne|].
  split; [exact Hdecode|].
  apply (proj2 (Login_malformed samplePbkdf2 sampleToLower sampleSignIn
                  {| Email := "rodrigo@rugertek.com"; Password := "123456" |}
                  malformedHashWorld (user "AAAA" 0 0) "AAAA" Hfind eq_refl
                  Hne) ["000"; "000"; "000"]%byte Hdecode).
  cbn. lia.
Defined.

Lemma Login_ToLower_witness :
  sampleToLower "Rodrigo@RugerTek.com" = sampleToLower "rodrigo@rugertek.com"
  ∧ Login samplePbkdf2 sampleToLower sampleSignIn
      {| Email := "Rodrigo@RugerTek.com"; Password := "123456" |} seededWorld
    = Login samplePbkdf2 sampleToLower sampleSignIn
        {| Email := "rodrigo@rugertek.com"; Password := "123456" |}
        seededWorld.
Proof.
  assert (Hemail : sampleToLower "Rodrigo@RugerTek.com"
                   = sampleToLower "rodrigo@rugertek.com")
    by (vm_compute; reflexivity).
  split; [exact Hemail|].
  exact (Login_ToLower samplePbkdf2 sampleToLower sampleSignIn
           {| Email := "Rodrigo@RugerTek.com"; Password := "123456" |}
           {| Email := "rodrigo@rugertek.com"; Password := "123456" |}
           seededWorld Hemail eq_refl).
Defined.
